(** * mummi-mcp-sheets: the range resolver, the sheet lookup, credential
      extraction and tool dispatch of [src/index.js]

    The development embeds the functions of [src/index.js] that carry logic
    of their own:

    - [columnLettersToIndex], [getSheetIdByName], [parseA1ToGridRange];
    - [getBearerToken], [getGoogleClients];
    - the [drive_upload_file] handler, the [toolHandlers] registry and the
      [POST /mcp/tool] route.
    - the handlers [sheets.delete_sheet], [sheets.format_cells],
      [drive_move_file] and [drive_share_file];
    - [manifestTools], [oauthConfig], the manifest route, the two OAuth
      configuration routes and the OAuth callback.

    Modelling conventions.

    - A JavaScript string is a [string]: a sequence of 8-bit code units,
      read as the code points U+0000 to U+00FF.  [toUpperCase] is
      [String.prototype.toUpperCase] on them: the sharp s becomes two
      letters, the accented small letters lose 32.
    - A JavaScript number is a double.  The numbers of this program are
      integers or infinite: a finite one is the [Z] it holds, the infinite
      ones are [Infinity] and its opposite, and every operation rounds its
      exact result with [to_double], to the nearest double, ties to the even
      significand ([round_magnitude_nearest]; [to_double_binary64_samples]
      compares it with the Standard Library's IEEE 754 rounding).  Up to
      [2^53] nothing is rounded
      ([columnLettersToIndex_exact], [parseInt_exact]); column names of up
      to eleven letters and row numbers of up to fifteen digits stay there
      ([short_corners_exact]).
    - The three regular expressions of the source are run by a small
      backtracking matcher ([RegExp.exec], [RegExp.search]) for sequences of
      single characters, greedy [class+] and captured [(class+)].
    - [async] functions live in the monad [M]: a result or a thrown value,
      together with the log of what happened (requests sent to the Google
      service, construction of the API clients, handler invocations).
    - What belongs to the Node runtime or to the [googleapis] package and not
      to this repository is a [Variable] of a [Section]: the [Buffer] type,
      the client constructors, the members inherited from
      [Object.prototype]. *)

From Stdlib Require Import ZArith List String Ascii Bool Lia.
From Stdlib Require SpecFloat.
Import ListNotations.

Local Open Scope list_scope.
Local Open Scope string_scope.
Local Open Scope Z_scope.

(* ================================================================== *)
(** * Strings *)
(* ================================================================== *)

(** [s.charCodeAt(i)] for the character [c] found at index [i]. *)
Definition charCode (c : ascii) : Z := Z.of_N (N_of_ascii c).

Definition in_range (lo hi : Z) (c : ascii) : bool :=
  (lo <=? charCode c) && (charCode c <=? hi).

(** [[A-Z]] *)
Definition is_upper : ascii -> bool := in_range 65 90.
(** [[a-z]] *)
Definition is_lower : ascii -> bool := in_range 97 122.
(** [\d] *)
Definition is_digit : ascii -> bool := in_range 48 57.

(** Line terminators among the 8-bit code units: LF and CR. *)
Definition is_line_terminator (c : ascii) : bool :=
  (charCode c =? 10) || (charCode c =? 13).

(** [.] (no [s] flag): anything but a line terminator. *)
Definition is_dot (c : ascii) : bool := negb (is_line_terminator c).

(** [\s] among the 8-bit code units: TAB, LF, VT, FF, CR, SPACE, NBSP. *)
Definition is_space (c : ascii) : bool :=
  in_range 9 13 c || (charCode c =? 32) || (charCode c =? 160).

Definition is_char (x : ascii) (c : ascii) : bool := Ascii.eqb c x.

(** The small letters of U+00E0 to U+00FE, the division sign apart. *)
Definition is_latin1_lower (c : ascii) : bool :=
  in_range 224 254 c && negb (charCode c =? 247).

(** The canonical form of a code unit under the [i] flag of a regular
    expression without the [u] flag: its upper case when that is one code
    unit, and the code unit itself otherwise, as for the sharp s.  The micro
    sign (181) and the y with diaeresis (255) have their capitals at U+039C
    and U+0178, which no 8-bit code unit holds: they stand for them, and
    nothing else has them for canonical form. *)
Definition canonicalize (c : ascii) : ascii :=
  if is_lower c || is_latin1_lower c then ascii_of_N (N_of_ascii c - 32)
  else c.

Definition toLowerCase_char (c : ascii) : ascii :=
  if is_upper c then ascii_of_N (N_of_ascii c + 32) else c.

(** A literal character under the [i] flag: both sides are canonicalised. *)
Definition is_char_ci (x : ascii) (c : ascii) : bool :=
  Ascii.eqb (canonicalize c) (canonicalize x).

Fixpoint map_string (f : ascii -> ascii) (s : string) : string :=
  match s with
  | EmptyString => EmptyString
  | String c s' => String (f c) (map_string f s')
  end.

(** The upper case of one code unit.  The sharp s (223) becomes SS.  The
    micro sign and the y with diaeresis stand for their capitals here too:
    these are letters outside A-Z, as they are themselves, and the upper
    case of nothing else. *)
Definition toUpperCase_unit (c : ascii) : string :=
  if charCode c =? 223 then "SS"
  else if is_lower c || is_latin1_lower c
       then String (ascii_of_N (N_of_ascii c - 32)) EmptyString
       else String c EmptyString.

(** [s.toUpperCase()] *)
Fixpoint toUpperCase (s : string) : string :=
  match s with
  | EmptyString => EmptyString
  | String c s' => toUpperCase_unit c ++ toUpperCase s'
  end.

(** [s.toLowerCase()], used on header names, which are ASCII. *)
Definition toLowerCase : string -> string := map_string toLowerCase_char.

(** Every character of [s] is in the class [p]. *)
Fixpoint all (p : ascii -> bool) (s : string) : bool :=
  match s with
  | EmptyString => true
  | String c s' => p c && all p s'
  end.

(** Some character of [s] is in the class [p]. *)
Fixpoint any (p : ascii -> bool) (s : string) : bool :=
  match s with
  | EmptyString => false
  | String c s' => p c || any p s'
  end.

(** [s] does not begin with a character of the class [p]. *)
Definition stops (p : ascii -> bool) (s : string) : bool :=
  match s with
  | EmptyString => true
  | String c _ => negb (p c)
  end.

(** [s.split(sep)] for a one-character separator: every occurrence cuts. *)
Fixpoint split (sep : ascii) (s : string) : list string :=
  match s with
  | EmptyString => [EmptyString]
  | String c s' =>
      if Ascii.eqb c sep then EmptyString :: split sep s'
      else match split sep s' with
           | piece :: pieces => String c piece :: pieces
           | [] => [String c EmptyString]
           end
  end.

(** The double quote, for messages that contain one. *)
Definition dquote : string := String (ascii_of_N 34) EmptyString.

(* ================================================================== *)
(** * Regular expressions *)
(* ================================================================== *)

Module RegExp.

(** The fragment used by the source: a sequence of atoms. *)
Inductive atom : Type :=
| Chr (p : ascii -> bool)      (** one character of a class, or a literal *)
| Plus (p : ascii -> bool)     (** [class+], greedy *)
| Group (p : ascii -> bool).   (** [(class+)], greedy, captured *)

Definition regex : Type := list atom.

(** [class+] followed by the continuation [k]: at least one character is
    consumed, longer runs are tried before shorter ones, and the first
    run on which [k] succeeds wins.  [acc] is what the run holds so far. *)
Fixpoint plus_greedy {R : Type} (p : ascii -> bool)
    (k : string -> string -> option R) (acc s : string) : option R :=
  match s with
  | EmptyString => None
  | String c s' =>
      if p c then
        match plus_greedy p k (acc ++ String c EmptyString) s' with
        | Some r => Some r
        | None => k (acc ++ String c EmptyString) s'
        end
      else None
  end.

(** Match [r] at the beginning of [s]; [anchored] is the [$] at the end of
    the pattern.  The result is the list of captures. *)
Fixpoint exec (r : regex) (anchored : bool) (s : string)
    : option (list string) :=
  match r with
  | [] =>
      if anchored then
        match s with EmptyString => Some [] | String _ _ => None end
      else Some []
  | Chr p :: r' =>
      match s with
      | EmptyString => None
      | String c s' => if p c then exec r' anchored s' else None
      end
  | Plus p :: r' =>
      plus_greedy p (fun _ rest => exec r' anchored rest) EmptyString s
  | Group p :: r' =>
      plus_greedy p
        (fun m rest => option_map (cons m) (exec r' anchored rest))
        EmptyString s
  end.

(** A pattern without [^]: the leftmost position where it matches. *)
Fixpoint search (r : regex) (anchored : bool) (s : string)
    : option (list string) :=
  match exec r anchored s with
  | Some caps => Some caps
  | None =>
      match s with
      | EmptyString => None
      | String _ s' => search r anchored s'
      end
  end.

(** What it means for [r] to match a prefix of [s], leaving [rest], with
    captures [caps]: the declarative reading of the pattern. *)
Fixpoint Matches (r : regex) (s : string) (caps : list string)
    (rest : string) : Prop :=
  match r with
  | [] => caps = [] /\ rest = s
  | Chr p :: r' =>
      exists c s', s = String c s' /\ p c = true /\ Matches r' s' caps rest
  | Plus p :: r' =>
      exists m s', s = m ++ s' /\ m <> EmptyString /\ all p m = true /\
                   Matches r' s' caps rest
  | Group p :: r' =>
      exists m s' caps', s = m ++ s' /\ m <> EmptyString /\
                         all p m = true /\ caps = m :: caps' /\
                         Matches r' s' caps' rest
  end.

End RegExp.

Import RegExp.

(** [/^Bearer\s+(.+)$/i] *)
Definition bearer_re : regex :=
  [ Chr (is_char_ci "B"); Chr (is_char_ci "e"); Chr (is_char_ci "a");
    Chr (is_char_ci "r"); Chr (is_char_ci "e"); Chr (is_char_ci "r");
    Plus is_space; Group is_dot ].

(** [/^'(.+)'$/] *)
Definition quoted_re : regex :=
  [ Chr (is_char "'"); Group is_dot; Chr (is_char "'") ].

(** [/([A-Z]+)(\d+):([A-Z]+)(\d+)/] *)
Definition span_re : regex :=
  [ Group is_upper; Group is_digit; Chr (is_char ":");
    Group is_upper; Group is_digit ].

(* ================================================================== *)
(** * Values, failures and effects *)
(* ================================================================== *)

(** JSON values as the handlers see them; [JUndefined] is a missing
    property. *)
#[warnings="-register-all"] Inductive JValue : Type :=
| JUndefined
| JNull
| JBool (b : bool)
| JNum (n : Z)
| JStr (s : string)
| JArr (items : list JValue)
| JObj (props : list (string * JValue)).

(** JavaScript truthiness. *)
Definition truthy (v : JValue) : bool :=
  match v with
  | JUndefined | JNull => false
  | JBool b => b
  | JNum n => negb (n =? 0)
  | JStr s => negb (String.eqb s "")
  | JArr _ | JObj _ => true
  end.

(** [a || b] *)
Definition js_or (a b : JValue) : JValue := if truthy a then a else b.

Fixpoint assoc {A : Type} (k : string) (l : list (string * A)) : option A :=
  match l with
  | [] => None
  | (k', v) :: l' => if String.eqb k k' then Some v else assoc k l'
  end.

(** Reading a property, as in the destructuring [{ name, data }] of a value
    that is neither [null] nor [undefined]. *)
Definition get_prop (v : JValue) (k : string) : JValue :=
  match v with
  | JObj props => match assoc k props with Some x => x | None => JUndefined end
  | _ => JUndefined
  end.

(** A thrown value: an [Error] with its message, or anything else (a value
    without a [message]). *)
Inductive Thrown : Type :=
| Error (message : string)
| NonError.

Inductive Result (A : Type) : Type :=
| Ok (a : A)
| Throw (e : Thrown).

Arguments Ok {A} a.
Arguments Throw {A} e.

(** What a run leaves behind. *)
Inductive Event : Type :=
| ExternalCall (method : string)        (** a request sent to the service *)
| ClientsCreated (access_token : string) (** [getGoogleClients] built clients *)
| HandlerInvoked (name : string).       (** [handler(args, clients)] *)

(** An [async] computation: the log so far comes in, the outcome and the
    extended log go out. *)
Definition M (A : Type) : Type := list Event -> Result A * list Event.

Definition ret {A : Type} (a : A) : M A := fun log => (Ok a, log).

Definition throw {A : Type} (e : Thrown) : M A := fun log => (Throw e, log).

Definition bind {A B : Type} (m : M A) (f : A -> M B) : M B :=
  fun log =>
    match m log with
    | (Ok a, log') => f a log'
    | (Throw e, log') => (Throw e, log')
    end.

(** A synchronous call that may throw. *)
Definition lift {A : Type} (r : Result A) : M A := fun log => (r, log).

Definition tell (e : Event) : M unit := fun log => (Ok tt, (log ++ [e])%list).

(** [await api.method(params)]: the request leaves the process, then the
    promise settles with [outcome]. *)
Definition await {A : Type} (method : string) (outcome : Result A) : M A :=
  fun log => (outcome, (log ++ [ExternalCall method])%list).

(** [try { body } catch (err) { handler }] *)
Definition try_catch {A : Type} (body : M A) (handler : Thrown -> M A) : M A :=
  fun log =>
    match body log with
    | (Ok a, log') => (Ok a, log')
    | (Throw e, log') => handler e log'
    end.

Declare Scope js_scope.
Delimit Scope js_scope with js.
Notation "x <- m ;; k" := (bind m (fun x => k))
  (at level 61, m at next level, right associativity) : js_scope.
Notation "m ;;; k" := (bind m (fun _ => k))
  (at level 61, right associativity) : js_scope.
Local Open Scope js_scope.

(* ================================================================== *)
(** * The Google Sheets client, as far as the source uses it *)
(* ================================================================== *)

(** What a settled request gives back: [res.status], [res.data]. *)
Module Gaxios.

Record Response (D : Type) : Type := { status : Z; data : D }.
Arguments status {D} _.
Arguments data {D} _.

End Gaxios.

Module Sheets.

(** [sheets(properties(sheetId,title))]: what the field mask asks for. *)
Record SheetProperties : Type := { sheetId : Z; title : string }.

Record Sheet : Type := { properties : option SheetProperties }.

Record Spreadsheet : Type := { sheets : option (list Sheet) }.

Record GetParams : Type := { spreadsheetId : string; fields : string }.

(** [sheetsApi.spreadsheets.get]: how the service answers a request. *)
Record Api : Type :=
  { spreadsheets_get : GetParams -> Result (Gaxios.Response Spreadsheet) }.

End Sheets.

(** The Grid Range returned by [parseA1ToGridRange]. *)
Record GridRange : Type :=
  { sheetId : Z;
    startRowIndex : Z;
    endRowIndex : Z;
    startColumnIndex : Z;
    endColumnIndex : Z }.

(* ================================================================== *)
(** * Numbers *)
(* ================================================================== *)

(** The value that stands for [Infinity]: the least magnitude that rounds
    to it.  Its opposite stands for [-Infinity]. *)
Definition Infinity : Z := 2 ^ 1024.

(** The double nearest to the magnitude [n]: up to [2^53] it is [n]; from
    there on [n] keeps 53 significant bits, the rest is rounded to the
    nearest, a tie to the even significand; what reaches [2^1024] is
    infinite. *)
Definition round_magnitude (n : Z) : Z :=
  if n <? 2 ^ 53 then n
  else
    let e := Z.log2 n - 52 in
    let q := n / 2 ^ e in
    let r := n mod 2 ^ e in
    let half := 2 ^ (e - 1) in
    let q' := if (half <? r) || ((r =? half) && Z.odd q) then q + 1 else q in
    if Infinity <=? q' * 2 ^ e then Infinity else q' * 2 ^ e.

(** The Number value for the integer [z].  An arithmetic operation of the
    source on integer-valued doubles is [to_double] of the exact result;
    this also holds when one operand is infinite and the other is a short
    constant, the only case the source has: the result is infinite again. *)
Definition to_double (z : Z) : Z :=
  if z <? 0 then - round_magnitude (- z) else round_magnitude z.

(** The same Number value as the Standard Library's model of IEEE 754
    computes it for binary64: 53 bits of precision, exponents up to 1024,
    rounding to nearest, ties to even. *)
Definition binary64_of_Z (z : Z) : Z :=
  match SpecFloat.binary_normalize 53 1024 z 0 false with
  | SpecFloat.S754_finite s m e =>
      let v := if 0 <=? e then Z.pos m * 2 ^ e else Z.pos m / 2 ^ (- e) in
      if s then - v else v
  | SpecFloat.S754_infinity s => if s then - Infinity else Infinity
  | _ => 0
  end.

(** Integers around the places where [to_double] changes its behaviour:
    zero, [2^53] and its neighbours, ties and near-ties further up, the
    values of the examples below, and the threshold of overflow. *)
Definition rounding_samples : list Z :=
  [ 0; 1; -1; 25; 701; 10485760;
    2 ^ 53 - 1; 2 ^ 53; 2 ^ 53 + 1; 2 ^ 53 + 2; 2 ^ 53 + 3;
    - (2 ^ 53 + 1); - (2 ^ 53 + 3);
    2 ^ 54 + 2; 2 ^ 54 + 6; 2 ^ 54 + 7; 2 ^ 80 + 2 ^ 27; 2 ^ 80 + 2 ^ 27 + 1;
    2 ^ 80 + 3 * 2 ^ 27;
    99246114928149461; 99246114928149462; 99246114928149472;
    26 * 3817158266467286 + 26; 10 ^ 22; 10 ^ 23; 10 ^ 300 + 1;
    2 ^ 1024 - 2 ^ 971; 2 ^ 1024 - 2 ^ 970 - 1; 2 ^ 1024 - 2 ^ 970;
    2 ^ 1024 - 1; 2 ^ 1024; 26 * 2 ^ 1024; 2 ^ 1024 - 64; - (2 ^ 1024);
    10 ^ 309 ].

(* ================================================================== *)
(** * Utilities of [src/index.js] *)
(* ================================================================== *)

(** An incoming request: header names are stored in lower case, as Node
    does; [body.name] is a string when present. *)
Record RequestBody : Type := { name : option string; args : JValue }.

Record Request : Type :=
  { headers : list (string * string);
    body : option RequestBody }.

(** Express's [req.get(field)]: a case-insensitive header lookup. *)
Definition req_get (req : Request) (field : string) : option string :=
  assoc (toLowerCase field) (headers req).

(** [a || b] on a header value that may be [undefined]. *)
Definition header_or (a b : option string) : option string :=
  match a with
  | Some EmptyString | None => b
  | Some h => Some h
  end.

Definition getBearerToken (req : Request) : Result string :=
  let header := header_or (req_get req "Authorization")
                          (req_get req "authorization") in
  match header with
  | None | Some EmptyString => Throw (Error "Missing Authorization header")
  | Some header =>
      match exec bearer_re true header with
      | Some (token :: _) => Ok token
      | _ => Throw (Error "Invalid Authorization header format")
      end
  end.

Definition sheets_or_empty (meta : Sheets.Spreadsheet) : list Sheets.Sheet :=
  match Sheets.sheets meta with Some l => l | None => [] end.

(** [(s) => s.properties && s.properties.title === sheetName] *)
Definition has_title (sheetName : string) (s : Sheets.Sheet) : bool :=
  match Sheets.properties s with
  | Some p => String.eqb (Sheets.title p) sheetName
  | None => false
  end.

Definition getSheetIdByName (sheetsApi : Sheets.Api)
    (spreadsheetId sheetName : string) : M Z :=
  meta <- await "sheets.spreadsheets.get"
            (Sheets.spreadsheets_get sheetsApi
               {| Sheets.spreadsheetId := spreadsheetId;
                  Sheets.fields := "sheets(properties(sheetId,title))" |}) ;;
  match find (has_title sheetName) (sheets_or_empty (Gaxios.data meta)) with
  | None => throw (Error ("Sheet not found: " ++ sheetName))
  | Some sheet =>
      match Sheets.properties sheet with
      | Some p => ret (Sheets.sheetId p)
      | None => throw (Error "Cannot read properties of undefined")
      end
  end.

(** The body of the loop: [index *= 26; index += letters.charCodeAt(i) - 64],
    each assignment rounding its result. *)
Fixpoint columnLetters_loop (index : Z) (letters : string) : Z :=
  match letters with
  | EmptyString => index
  | String c rest =>
      columnLetters_loop
        (to_double (to_double (index * 26) + (charCode c - 64))) rest
  end.

Definition columnLettersToIndex (letters : string) : Z :=
  to_double (columnLetters_loop 0 letters - 1).

(** The mathematical value of the leading decimal digits of [s], read from
    left to right until the first character that is not a digit. *)
Fixpoint parseInt_loop (acc : Z) (s : string) : Z :=
  match s with
  | EmptyString => acc
  | String c rest =>
      if is_digit c then parseInt_loop (acc * 10 + (charCode c - 48)) rest
      else acc
  end.

(** [parseInt(s, 10)] on a capture of [\d+]: the Number value for the
    mathematical value of the digits, rounded once, as V8 computes it.  (The
    sign, the leading white space and the [NaN] of a string without a
    leading digit do not arise on such a capture, see
    [span_captures_shape].) *)
Definition parseInt (s : string) : Z := to_double (parseInt_loop 0 s).

(** [sheetPart.replace(/^'(.+)'$/, '$1')] *)
Definition strip_quotes (sheetPart : string) : string :=
  match exec quoted_re true sheetPart with
  | Some (inner :: _) => inner
  | _ => sheetPart
  end.

Definition no_sheet_name_message : string :=
  "range must include sheet name, e.g., " ++ dquote ++ "Sheet1!A1:B2" ++ dquote.

(** The destructuring [const [sheetPart, rangePartRaw] = a1Range.split('!')]
    keeps the first two pieces and drops the others; a missing second piece
    is [undefined], and [!rangePartRaw] holds for it and for the empty
    string.  The lookup is awaited before the span part is upper-cased and
    matched.  The two indices that are computed from a capture by one more
    operation, [- 1] and [+ 1], are rounded once more. *)
Definition parseA1ToGridRange (sheetsApi : Sheets.Api)
    (spreadsheetId a1Range : string) : M GridRange :=
  match split "!" a1Range with
  | sheetPart :: rangePartRaw :: _ =>
      match rangePartRaw with
      | EmptyString => throw (Error no_sheet_name_message)
      | String _ _ =>
          let sheetName := strip_quotes sheetPart in
          sheetId <- getSheetIdByName sheetsApi spreadsheetId sheetName ;;
          let rangePart := toUpperCase rangePartRaw in
          match search span_re false rangePart with
          | Some [c1; r1; c2; r2] =>
              let startColumnIndex := columnLettersToIndex c1 in
              let endColumnIndex := to_double (columnLettersToIndex c2 + 1) in
              let startRowIndex := to_double (parseInt r1 - 1) in
              let endRowIndex := parseInt r2 in
              ret {| sheetId := sheetId;
                     startRowIndex := startRowIndex;
                     endRowIndex := endRowIndex;
                     startColumnIndex := startColumnIndex;
                     endColumnIndex := endColumnIndex |}
          | _ => throw (Error "range must be like A1:B2")
          end
      end
  | _ => throw (Error no_sheet_name_message)
  end.

(* ================================================================== *)
(** * The Google Drive client, the handlers and the dispatch route *)
(* ================================================================== *)

Module Drive.

(** The parameters of [drive.files.create] as the upload handler builds
    them; [media.body] is the decoded buffer. *)
Record FilesCreateParams (Buffer : Type) : Type :=
  { requestBody : JValue;
    media_mimeType : JValue;
    media_body : Buffer;
    fields : string;
    supportsAllDrives : bool }.
Arguments requestBody {Buffer} _.
Arguments media_mimeType {Buffer} _.
Arguments media_body {Buffer} _.
Arguments fields {Buffer} _.
Arguments supportsAllDrives {Buffer} _.

Record Api (Buffer : Type) : Type :=
  { files_create :
      FilesCreateParams Buffer -> Result (Gaxios.Response JValue) }.
Arguments files_create {Buffer} _ _.

End Drive.

(** [oauth2.setCredentials({ access_token: token })] *)
Record OAuth2 : Type := { access_token : string }.

Record Clients (Buffer : Type) : Type :=
  { oauth2 : OAuth2;
    sheets : Sheets.Api;
    drive : Drive.Api Buffer }.
Arguments oauth2 {Buffer} _.
Arguments sheets {Buffer} _.
Arguments drive {Buffer} _.

(** [res.status(code).json(payload)] *)
Record HttpResponse : Type := { statusCode : Z; json : JValue }.

(** The names that every object literal inherits from [Object.prototype]. *)
Definition object_prototype_keys : list string :=
  [ "constructor"; "__defineGetter__"; "__defineSetter__"; "hasOwnProperty";
    "__lookupGetter__"; "__lookupSetter__"; "isPrototypeOf";
    "propertyIsEnumerable"; "toString"; "valueOf"; "__proto__";
    "toLocaleString" ].

Definition error_payload (message : string) : JValue :=
  JObj [("error", JStr message)].

Section Server.

(** Node's [Buffer]: [Buffer.from(data, 'base64')] and [buffer.length]. *)
Variable Buffer : Type.
Variable Buffer_from_base64 : JValue -> Result Buffer.
Variable Buffer_length : Buffer -> Z.

(** [google.sheets({ version: 'v4', auth })] and
    [google.drive({ version: 'v3', auth })] of the [googleapis] package. *)
Variable google_sheets : OAuth2 -> Sheets.Api.
Variable google_drive : OAuth2 -> Drive.Api Buffer.

Definition Handler : Type := JValue -> Clients Buffer -> M JValue.

(** The bodies of the other eighteen handlers of the registry, which build
    requests to the service from their arguments; nothing below depends on
    what they do. *)
Variable other_handler : string -> Handler.

(** What calling a member inherited from [Object.prototype] as if it were
    a handler does; this is decided by the JavaScript engine. *)
Variable inherited_member : string -> Handler.

Definition getGoogleClients (req : Request) : M (Clients Buffer) :=
  token <- lift (getBearerToken req) ;;
  let oauth2 := {| access_token := token |} in
  tell (ClientsCreated token) ;;;
  ret {| oauth2 := oauth2;
         sheets := google_sheets oauth2;
         drive := google_drive oauth2 |}.

Definition drive_upload_file : Handler :=
  fun args clients =>
    let name := get_prop args "name" in
    let mimeType := get_prop args "mimeType" in
    let data := get_prop args "data" in
    let parentId := get_prop args "parentId" in
    buffer <- lift (Buffer_from_base64 data) ;;
    if 10 * 1024 * 1024 <? Buffer_length buffer then
      throw (Error "File too large: max 10MB base64 payload supported")
    else
      res <- await "drive.files.create"
               (Drive.files_create (drive clients)
                  {| Drive.requestBody :=
                       JObj [ ("name", name);
                              ("mimeType", mimeType);
                              ("parents",
                               if truthy parentId then JArr [parentId]
                               else JUndefined) ];
                     Drive.media_mimeType := mimeType;
                     Drive.media_body := buffer;
                     Drive.fields := "id,name,mimeType,parents";
                     Drive.supportsAllDrives := true |}) ;;
      ret (Gaxios.data res).

(** The static registry, in source order. *)
Definition toolHandlers : list (string * Handler) :=
  [ ("sheets.create_spreadsheet",
      other_handler "sheets.create_spreadsheet");
    ("sheets.get_values", other_handler "sheets.get_values");
    ("sheets.update_values", other_handler "sheets.update_values");
    ("sheets.append_values", other_handler "sheets.append_values");
    ("sheets.clear_values", other_handler "sheets.clear_values");
    ("sheets.create_sheet", other_handler "sheets.create_sheet");
    ("sheets.delete_sheet", other_handler "sheets.delete_sheet");
    ("sheets.get_info", other_handler "sheets.get_info");
    ("sheets.format_cells", other_handler "sheets.format_cells");
    ("sheets.batch_update", other_handler "sheets.batch_update");
    ("drive_list_files", other_handler "drive_list_files");
    ("drive_create_folder", other_handler "drive_create_folder");
    ("drive_upload_file", drive_upload_file);
    ("drive_delete_file", other_handler "drive_delete_file");
    ("drive_get_file_info", other_handler "drive_get_file_info");
    ("drive_download_file", other_handler "drive_download_file");
    ("drive_share_file", other_handler "drive_share_file");
    ("drive_move_file", other_handler "drive_move_file");
    ("drive_rename_file", other_handler "drive_rename_file") ].

(** [toolHandlers[name]]: an own property, else an inherited one, else
    [undefined]. *)
Definition toolHandlers_get (name : string) : option Handler :=
  match assoc name toolHandlers with
  | Some handler => Some handler
  | None =>
      if existsb (String.eqb name) object_prototype_keys
      then Some (inherited_member name)
      else None
  end.

(** [err && err.message ? err.message : 'Unknown error'] *)
Definition error_message (err : Thrown) : string :=
  match err with
  | Error EmptyString | NonError => "Unknown error"
  | Error message => message
  end.

(** [app.post('/mcp/tool', ...)] *)
Definition mcp_tool (req : Request) : M HttpResponse :=
  try_catch
    (let b := match body req with
              | Some b => b
              | None => {| name := None; args := JUndefined |}
              end in
     match name b with
     | None | Some EmptyString =>
         ret {| statusCode := 400;
                json := error_payload "Missing tool name" |}
     | Some name =>
         match toolHandlers_get name with
         | None =>
             ret {| statusCode := 404;
                    json := error_payload ("Unknown tool: " ++ name) |}
         | Some handler =>
             clients <- getGoogleClients req ;;
             tell (HandlerInvoked name) ;;;
             result <- handler (js_or (args b) (JObj [])) clients ;;
             ret {| statusCode := 200; json := result |}
         end
     end)
    (fun err =>
       ret {| statusCode := 400;
              json := error_payload (error_message err) |}).

End Server.

(* ================================================================== *)
(** * The vocabulary of the specification *)
(* ================================================================== *)

Definition alphabet : string := "ABCDEFGHIJKLMNOPQRSTUVWXYZ".

Fixpoint index_of (c : ascii) (s : string) : option nat :=
  match s with
  | EmptyString => None
  | String x s' =>
      if Ascii.eqb c x then Some O
      else option_map S (index_of c s')
  end.

(** The 1-based position of a letter in the alphabet: 'A' is 1, 'Z' is 26. *)
Definition letter_position (c : ascii) : Z :=
  match index_of c alphabet with
  | Some i => Z.of_nat i + 1
  | None => 0
  end.

(** The bijective base-26 value of a letter sequence: the letter [k] places
    from the right weighs [26^k]. *)
Fixpoint bijective26 (letters : string) : Z :=
  match letters with
  | EmptyString => 0
  | String c rest =>
      letter_position c * 26 ^ Z.of_nat (String.length rest)
      + bijective26 rest
  end.

(** The loop of [columnLettersToIndex] in exact arithmetic: what it would
    compute if no step rounded. *)
Fixpoint exact_loop (index : Z) (letters : string) : Z :=
  match letters with
  | EmptyString => index
  | String c rest => exact_loop (index * 26 + (charCode c - 64)) rest
  end.

(** The decimal value of a digit sequence. *)
Fixpoint decimal (digits : string) : Z :=
  match digits with
  | EmptyString => 0
  | String c rest =>
      (charCode c - 48) * 10 ^ Z.of_nat (String.length rest) + decimal rest
  end.

(** One or more characters of the class [p]. *)
Definition run_of (p : ascii -> bool) (s : string) : Prop :=
  s <> EmptyString /\ all p s = true.

(** Alphabetical order of two letter sequences of the same length. *)
Fixpoint lex_before (s1 s2 : string) : Prop :=
  match s1, s2 with
  | String a t1, String b t2 =>
      letter_position a < letter_position b \/ (a = b /\ lex_before t1 t2)
  | _, _ => False
  end.

(** Spreadsheet column order A, B, ..., Z, AA, AB, ...: shorter names come
    first, names of one length are in alphabetical order. *)
Definition column_before (s1 s2 : string) : Prop :=
  (String.length s1 < String.length s2)%nat \/
  (String.length s1 = String.length s2 /\ lex_before s1 s2).

(** [s] is letters, digits, a colon, letters, digits, and nothing else. *)
Definition is_span (s : string) : Prop :=
  exists c1 r1 c2 r2,
    s = c1 ++ r1 ++ ":" ++ c2 ++ r2 /\
    run_of is_upper c1 /\ run_of is_digit r1 /\
    run_of is_upper c2 /\ run_of is_digit r2.

(** Some substring of [s] is letters, digits, a colon, letters, digits. *)
Definition contains_span (s : string) : Prop :=
  exists pre mid post, s = pre ++ mid ++ post /\ is_span mid.

(** The header reads [Bearer], in any case, then white space, then a token
    that stays on one line. *)
Definition bearer_shape (header : string) : Prop :=
  exists scheme ws token,
    header = scheme ++ ws ++ token /\
    toUpperCase scheme = "BEARER" /\
    run_of is_space ws /\ run_of is_dot token.

(** The sheet-name part is wrapped in single quotes. *)
Definition wrapped_in_quotes (part : string) : Prop :=
  exists inner, part = "'" ++ inner ++ "'" /\ run_of is_dot inner.

(** How the part before the '!' names a sheet: as it stands, or wrapped in
    single quotes. *)
Inductive names_sheet : string -> string -> Prop :=
| names_bare (sheet : string) :
    ~ wrapped_in_quotes sheet -> names_sheet sheet sheet
| names_quoted (sheet : string) :
    run_of is_dot sheet -> names_sheet ("'" ++ sheet ++ "'") sheet.

(** The Grid Range that the specification assigns to the corners
    [c1 r1] and [c2 r2] on the sheet [id]: rows and columns are zero-based
    and the end indices are exclusive. *)
Definition grid_of (id : Z) (c1 r1 c2 r2 : string) : GridRange :=
  {| sheetId := id;
     startRowIndex := decimal r1 - 1;
     endRowIndex := decimal r2;
     startColumnIndex := columnLettersToIndex c1;
     endColumnIndex := columnLettersToIndex c2 + 1 |}.

(** What the resolver makes of the four captures of the span pattern on
    the sheet [id]: the index arithmetic of the source, each operation
    rounding its result. *)
Definition resolved (id : Z) (c1 r1 c2 r2 : string) : GridRange :=
  {| sheetId := id;
     startRowIndex := to_double (parseInt r1 - 1);
     endRowIndex := parseInt r2;
     startColumnIndex := columnLettersToIndex c1;
     endColumnIndex := to_double (columnLettersToIndex c2 + 1) |}.

(** The four groups of a span are runs of letters and of digits. *)
Definition corners (c1 r1 c2 r2 : string) : Prop :=
  run_of is_upper c1 /\ run_of is_digit r1 /\
  run_of is_upper c2 /\ run_of is_digit r2.

(** An ASCII letter of either case. *)
Definition is_letter (c : ascii) : bool := is_upper c || is_lower c.

(** A code unit whose upper case holds a letter of A-Z: an ASCII letter or
    the sharp s. *)
Definition is_cased (c : ascii) : bool := is_letter c || (charCode c =? 223).

(** The four groups of a span as they are written, the letters in either
    case. *)
Definition written_corners (c1 r1 c2 r2 : string) : Prop :=
  run_of is_letter c1 /\ run_of is_digit r1 /\
  run_of is_letter c2 /\ run_of is_digit r2.

(** The largest row number, and the bound on the end column index, up to
    which the resolver rounds nothing. *)
Definition exact_limit : Z := 2 ^ 53.

(** The corners are within the range in which the resolver rounds nothing:
    both row numbers are at most [2^53] and the end column index is below
    it. *)
Definition within_exact_range (c2 r1 r2 : string) : Prop :=
  decimal r1 <= exact_limit /\ decimal r2 <= exact_limit /\
  columnLettersToIndex c2 < exact_limit.

(** The metadata request of the sheet lookup: titles and ids only. *)
Definition metadata_request (spreadsheetId : string) : Sheets.GetParams :=
  {| Sheets.spreadsheetId := spreadsheetId;
     Sheets.fields := "sheets(properties(sheetId,title))" |}.

(** The log entry of that request. *)
Definition metadata_fetch : Event := ExternalCall "sheets.spreadsheets.get".

(** The entry [s] carries the title [t], compared exactly. *)
Definition titled (t : string) (s : Sheets.Sheet) : Prop :=
  exists p, Sheets.properties s = Some p /\ Sheets.title p = t.

(** Nothing follows, or what follows begins with the separator. *)
Definition at_separator (sep : ascii) (tail : string) : Prop :=
  tail = "" \/ exists t, tail = String sep t.

(** The text before the first occurrence of [sep] and the text after it. *)
Fixpoint split_first (sep : ascii) (s : string) : option (string * string) :=
  match s with
  | EmptyString => None
  | String c s' =>
      if Ascii.eqb c sep then Some (EmptyString, s')
      else match split_first sep s' with
           | Some (before, after) => Some (String c before, after)
           | None => None
           end
  end.

(* ================================================================== *)
(** * Sample data *)
(* ================================================================== *)

Definition sheet_entry (id : Z) (t : string) : Sheets.Sheet :=
  {| Sheets.properties := Some {| Sheets.sheetId := id; Sheets.title := t |} |}.

(** A spreadsheet with three tabs; two of them carry the same title. *)
Definition sample_spreadsheet : Sheets.Spreadsheet :=
  {| Sheets.sheets :=
       Some [ sheet_entry 0 "Sheet1";
              sheet_entry 7 "My Sheet";
              sheet_entry 9 "My Sheet" ] |}.

Definition sample_sheets_api : Sheets.Api :=
  {| Sheets.spreadsheets_get :=
       fun _ => Ok {| Gaxios.status := 200; Gaxios.data := sample_spreadsheet |} |}.

(** A title of two lines, and a spreadsheet with one tab of that title. *)
Definition two_lines : string := "a" ++ String (ascii_of_N 10) "b".

Definition two_lines_sheets_api : Sheets.Api :=
  {| Sheets.spreadsheets_get :=
       fun _ => Ok {| Gaxios.status := 200;
                      Gaxios.data :=
                        {| Sheets.sheets := Some [sheet_entry 3 two_lines] |} |} |}.

(** A stand-in for Node's [Buffer] that only records a length. *)
Definition sample_drive_api : Drive.Api Z :=
  {| Drive.files_create :=
       fun _ => Ok {| Gaxios.status := 200; Gaxios.data := JObj [("id", JStr "f1")] |} |}.

Definition sample_clients : Clients Z :=
  {| oauth2 := {| access_token := "tok" |};
     sheets := sample_sheets_api;
     drive := sample_drive_api |}.

(** A decoder that reads the buffer length off a number, for examples. *)
Definition sample_decode (data : JValue) : Result Z :=
  match data with
  | JNum n => Ok n
  | _ => Throw (Error "The first argument must be of type string")
  end.

Definition sample_handler (tool : string) : JValue -> Clients Z -> M JValue :=
  fun args _ => await tool (Ok args).

Definition sample_request (auth : option string) (tool : option string)
    (a : JValue) : Request :=
  {| headers := match auth with
                | Some h => [("authorization", h)]
                | None => []
                end;
     body := Some {| name := tool; args := a |} |}.

Definition sample_inherited (member : string) : JValue -> Clients Z -> M JValue :=
  fun _ _ => ret (JStr ("[" ++ member ++ "]")).

(** The route with the stand-ins plugged in. *)
Definition sample_mcp_tool : Request -> M HttpResponse :=
  mcp_tool Z sample_decode (fun n => n)
    (fun _ => sample_sheets_api) (fun _ => sample_drive_api)
    sample_handler sample_inherited.

(* ================================================================== *)
(** * More handlers of the registry *)
(* ================================================================== *)

Module Batch.

(** The two requests that the handlers below put into a [batchUpdate]:
    [{ deleteSheet: { sheetId } }] and
    [{ repeatCell: { range, cell: { userEnteredFormat: format }, fields } }]. *)
Inductive Request : Type :=
| DeleteSheet (sheetId : Z)
| RepeatCell (range : GridRange) (userEnteredFormat : JValue) (fields : string).

(** [{ spreadsheetId, requestBody: { requests } }] *)
Record Params : Type := { spreadsheetId : string; requests : list Request }.

End Batch.

Module Files.

(** What [drive.files.get] returns under [fields: 'parents']. *)
Record Parents : Type := { parents : option (list string) }.

End Files.

Section MoreHandlers.

Variable Buffer : Type.

(** Further methods of the two clients: [sheets.spreadsheets.batchUpdate],
    [drive.files.get] asked for the parents, [drive.files.update] and
    [drive.permissions.create].  Each is how the service answers the
    parameters it is given. *)
Variable spreadsheets_batchUpdate :
  Sheets.Api -> Batch.Params -> Result (Gaxios.Response JValue).
Variable files_get_parents :
  Drive.Api Buffer -> JValue -> Result (Gaxios.Response Files.Parents).
Variable files_update :
  Drive.Api Buffer -> JValue -> Result (Gaxios.Response JValue).
Variable permissions_create :
  Drive.Api Buffer -> JValue -> Result (Gaxios.Response JValue).

(** ['sheets.delete_sheet'], on the two strings that its input schema
    requires. *)
Definition sheets_delete_sheet (spreadsheetId sheetName : string)
    (clients : Clients Buffer) : M JValue :=
  sheetId <- getSheetIdByName (sheets clients) spreadsheetId sheetName ;;
  res <- await "sheets.spreadsheets.batchUpdate"
           (spreadsheets_batchUpdate (sheets clients)
              {| Batch.spreadsheetId := spreadsheetId;
                 Batch.requests := [Batch.DeleteSheet sheetId] |}) ;;
  ret (Gaxios.data res).

(** ['sheets.format_cells'], on the two strings and the format object that
    its input schema requires. *)
Definition sheets_format_cells (spreadsheetId range : string) (format : JValue)
    (clients : Clients Buffer) : M JValue :=
  gridRange <- parseA1ToGridRange (sheets clients) spreadsheetId range ;;
  res <- await "sheets.spreadsheets.batchUpdate"
           (spreadsheets_batchUpdate (sheets clients)
              {| Batch.spreadsheetId := spreadsheetId;
                 Batch.requests :=
                   [Batch.RepeatCell gridRange format "userEnteredFormat"] |}) ;;
  ret (Gaxios.data res).

(** [(file.data.parents || []).join(',')] *)
Definition join_parents (file : Files.Parents) : string :=
  String.concat ","
    (match Files.parents file with Some l => l | None => [] end).

(** [previousParents || undefined] *)
Definition string_or_undefined (s : string) : JValue :=
  match s with
  | EmptyString => JUndefined
  | String _ _ => JStr s
  end.

(** ['drive_move_file'] *)
Definition drive_move_file (args : JValue) (clients : Clients Buffer)
    : M JValue :=
  let fileId := get_prop args "fileId" in
  let folderId := get_prop args "folderId" in
  file <- await "drive.files.get"
            (files_get_parents (drive clients)
               (JObj [ ("fileId", fileId);
                       ("fields", JStr "parents");
                       ("supportsAllDrives", JBool true) ])) ;;
  let previousParents := join_parents (Gaxios.data file) in
  res <- await "drive.files.update"
           (files_update (drive clients)
              (JObj [ ("fileId", fileId);
                      ("addParents", folderId);
                      ("removeParents", string_or_undefined previousParents);
                      ("fields", JStr "id,parents");
                      ("supportsAllDrives", JBool true) ])) ;;
  ret (Gaxios.data res).

(** ['drive_share_file'] *)
Definition drive_share_file (args : JValue) (clients : Clients Buffer)
    : M JValue :=
  let fileId := get_prop args "fileId" in
  let email := get_prop args "email" in
  let role := get_prop args "role" in
  let effectiveRole := js_or role (JStr "reader") in
  res <- await "drive.permissions.create"
           (permissions_create (drive clients)
              (JObj [ ("fileId", fileId);
                      ("requestBody",
                       JObj [ ("type", JStr "user");
                              ("role", effectiveRole);
                              ("emailAddress", email) ]);
                      ("sendNotificationEmail", JBool false);
                      ("supportsAllDrives", JBool true);
                      ("fields", JStr "id,role") ])) ;;
  ret (Gaxios.data res).

End MoreHandlers.

(** The log entries of the requests above. *)
Definition batch_update : Event := ExternalCall "sheets.spreadsheets.batchUpdate".
Definition files_get : Event := ExternalCall "drive.files.get".
Definition files_update_call : Event := ExternalCall "drive.files.update".

(** No character of [s] is a comma. *)
Definition comma_free (s : string) : Prop := any (is_char ",") s = false.

(* ================================================================== *)
(** * The manifest and the OAuth endpoints *)
(* ================================================================== *)

(** [{ ...object, key: value }] on the properties of an object: an
    existing key keeps its place and takes the new value, a new key comes
    last. *)
Fixpoint set_assoc {A : Type} (k : string) (v : A) (l : list (string * A))
    : list (string * A) :=
  match l with
  | [] => [(k, v)]
  | (k', v') :: l' =>
      if String.eqb k k' then (k, v) :: l' else (k', v') :: set_assoc k v l'
  end.

Module Manifest.

(** A property descriptor of a JSON schema, such as [{ type: 'string' }]. *)
Definition Descriptor : Type := list (string * JValue).

Record InputSchema : Type :=
  { type : string;
    properties : list (string * Descriptor);
    required : list string }.

Record Tool : Type :=
  { name : string;
    description : string;
    input_schema : InputSchema }.

Definition of_type (t : string) : Descriptor := [("type", JStr t)].

Definition nullable (t : string) : Descriptor :=
  [("type", JArr [JStr t; JStr "null"])].

Definition array_of (t : string) : Descriptor :=
  [("type", JStr "array"); ("items", JObj [("type", JStr t)])].

Definition object (props : list (string * Descriptor)) (req : list string)
    : InputSchema :=
  {| type := "object"; properties := props; required := req |}.

End Manifest.

Import Manifest (of_type, nullable, array_of).

Definition share_roles : list string :=
  ["reader"; "commenter"; "writer"; "organizer"; "fileOrganizer"; "owner"].

Definition manifestTools : list Manifest.Tool :=
  [ {| Manifest.name := "sheets.create_spreadsheet";
       Manifest.description := "Create a new Google Spreadsheet with a title.";
       Manifest.input_schema :=
         Manifest.object [("title", of_type "string")] ["title"] |};
    {| Manifest.name := "sheets.get_values";
       Manifest.description := "Get values from a range in A1 notation.";
       Manifest.input_schema :=
         Manifest.object
           [("spreadsheetId", of_type "string"); ("range", of_type "string")]
           ["spreadsheetId"; "range"] |};
    {| Manifest.name := "sheets.update_values";
       Manifest.description :=
         "Update values in a range (RAW) using a 2D array.";
       Manifest.input_schema :=
         Manifest.object
           [("spreadsheetId", of_type "string"); ("range", of_type "string");
            ("values", array_of "array")]
           ["spreadsheetId"; "range"; "values"] |};
    {| Manifest.name := "sheets.append_values";
       Manifest.description :=
         "Append rows to a range (RAW) using a 2D array.";
       Manifest.input_schema :=
         Manifest.object
           [("spreadsheetId", of_type "string"); ("range", of_type "string");
            ("values", array_of "array")]
           ["spreadsheetId"; "range"; "values"] |};
    {| Manifest.name := "sheets.clear_values";
       Manifest.description := "Clear values in a range.";
       Manifest.input_schema :=
         Manifest.object
           [("spreadsheetId", of_type "string"); ("range", of_type "string")]
           ["spreadsheetId"; "range"] |};
    {| Manifest.name := "sheets.create_sheet";
       Manifest.description := "Add a new sheet (tab) to a spreadsheet.";
       Manifest.input_schema :=
         Manifest.object
           [("spreadsheetId", of_type "string");
            ("sheetName", of_type "string")]
           ["spreadsheetId"; "sheetName"] |};
    {| Manifest.name := "sheets.delete_sheet";
       Manifest.description := "Delete a sheet (tab) by name.";
       Manifest.input_schema :=
         Manifest.object
           [("spreadsheetId", of_type "string");
            ("sheetName", of_type "string")]
           ["spreadsheetId"; "sheetName"] |};
    {| Manifest.name := "sheets.get_info";
       Manifest.description := "Get spreadsheet metadata and sheets.";
       Manifest.input_schema :=
         Manifest.object [("spreadsheetId", of_type "string")]
           ["spreadsheetId"] |};
    {| Manifest.name := "sheets.format_cells";
       Manifest.description :=
         "Apply userEnteredFormat to cells in a range. Range must include sheet name, e.g., 'Sheet1!A1:B2'.";
       Manifest.input_schema :=
         Manifest.object
           [("spreadsheetId", of_type "string"); ("range", of_type "string");
            ("format",
             [("type", JStr "object");
              ("description", JStr "Google Sheets CellFormat object")])]
           ["spreadsheetId"; "range"; "format"] |};
    {| Manifest.name := "sheets.batch_update";
       Manifest.description :=
         "Send raw batchUpdate requests to the Sheets API.";
       Manifest.input_schema :=
         Manifest.object
           [("spreadsheetId", of_type "string");
            ("requests", array_of "object")]
           ["spreadsheetId"; "requests"] |};
    {| Manifest.name := "drive_list_files";
       Manifest.description := "List Drive files by query.";
       Manifest.input_schema :=
         Manifest.object
           [("query", nullable "string"); ("pageSize", nullable "number")]
           [] |};
    {| Manifest.name := "drive_create_folder";
       Manifest.description :=
         "Create a Drive folder optionally under a parent.";
       Manifest.input_schema :=
         Manifest.object
           [("name", of_type "string"); ("parentId", nullable "string")]
           ["name"] |};
    {| Manifest.name := "drive_upload_file";
       Manifest.description := "Upload a file with base64-encoded data.";
       Manifest.input_schema :=
         Manifest.object
           [("name", of_type "string"); ("mimeType", of_type "string");
            ("data",
             [("type", JStr "string");
              ("description", JStr "base64-encoded content")]);
            ("parentId", nullable "string")]
           ["name"; "mimeType"; "data"] |};
    {| Manifest.name := "drive_delete_file";
       Manifest.description := "Delete a file by ID.";
       Manifest.input_schema :=
         Manifest.object [("fileId", of_type "string")] ["fileId"] |};
    {| Manifest.name := "drive_get_file_info";
       Manifest.description := "Get file metadata by ID.";
       Manifest.input_schema :=
         Manifest.object [("fileId", of_type "string")] ["fileId"] |};
    {| Manifest.name := "drive_download_file";
       Manifest.description := "Download a file as base64 content.";
       Manifest.input_schema :=
         Manifest.object [("fileId", of_type "string")] ["fileId"] |};
    {| Manifest.name := "drive_share_file";
       Manifest.description := "Share a file with a user and role.";
       Manifest.input_schema :=
         Manifest.object
           [("fileId", of_type "string"); ("email", of_type "string");
            ("role",
             [("type", JStr "string");
              ("enum", JArr (map JStr share_roles))])]
           ["fileId"; "email"; "role"] |};
    {| Manifest.name := "drive_move_file";
       Manifest.description := "Move a file to a folder.";
       Manifest.input_schema :=
         Manifest.object
           [("fileId", of_type "string"); ("folderId", of_type "string")]
           ["fileId"; "folderId"] |};
    {| Manifest.name := "drive_rename_file";
       Manifest.description := "Rename a file.";
       Manifest.input_schema :=
         Manifest.object
           [("fileId", of_type "string"); ("newName", of_type "string")]
           ["fileId"; "newName"] |} ].

(** The environment variables that the server reads. *)
Record Env : Type :=
  { GOOGLE_CLIENT_ID : option string;
    GOOGLE_CLIENT_SECRET : option string;
    REDIRECT_URI : option string }.

(** [process.env.NAME || fallback] *)
Definition env_or (value : option string) (fallback : string) : string :=
  match value with
  | Some (String _ _ as v) => v
  | _ => fallback
  end.

Module Config.

Record OAuthConfig : Type :=
  { client_id : string;
    client_secret : string;
    auth_uri : string;
    token_uri : string;
    redirect_uris : list string;
    scopes : list string }.

End Config.

Definition oauthConfig (env : Env) : Config.OAuthConfig :=
  {| Config.client_id := env_or (GOOGLE_CLIENT_ID env) "your-google-client-id";
     Config.client_secret :=
       env_or (GOOGLE_CLIENT_SECRET env) "your-google-client-secret";
     Config.auth_uri := "https://accounts.google.com/o/oauth2/auth";
     Config.token_uri := "https://oauth2.googleapis.com/token";
     Config.redirect_uris :=
       [env_or (REDIRECT_URI env) "http://localhost:3000/oauth/callback"];
     Config.scopes :=
       [ "https://www.googleapis.com/auth/spreadsheets";
         "https://www.googleapis.com/auth/drive";
         "https://www.googleapis.com/auth/drive.file" ] |}.

Module Published.

(** The OAuth parameters that the server hands out. *)
Record OAuthParams : Type :=
  { client_id : string;
    auth_uri : string;
    token_uri : string;
    redirect_uris : list string;
    scopes : list string;
    response_type : string;
    access_type : string;
    prompt : string }.

Record ManifestResponse : Type :=
  { name : string;
    version : string;
    oauth : OAuthParams;
    tools : list Manifest.Tool }.

End Published.

(** [app.get('/oauth/config', ...)] *)
Definition oauth_config (env : Env) : Published.OAuthParams :=
  {| Published.client_id := Config.client_id (oauthConfig env);
     Published.auth_uri := Config.auth_uri (oauthConfig env);
     Published.token_uri := Config.token_uri (oauthConfig env);
     Published.redirect_uris := Config.redirect_uris (oauthConfig env);
     Published.scopes := Config.scopes (oauthConfig env);
     Published.response_type := "code";
     Published.access_type := "offline";
     Published.prompt := "consent" |}.

(** [app.get('/.well-known/oauth-configuration', ...)] *)
Definition well_known_oauth_configuration (env : Env) : Published.OAuthParams :=
  {| Published.client_id := Config.client_id (oauthConfig env);
     Published.auth_uri := Config.auth_uri (oauthConfig env);
     Published.token_uri := Config.token_uri (oauthConfig env);
     Published.redirect_uris := Config.redirect_uris (oauthConfig env);
     Published.scopes := Config.scopes (oauthConfig env);
     Published.response_type := "code";
     Published.access_type := "offline";
     Published.prompt := "consent" |}.

(** The descriptor of a property, [{}] when the schema has none. *)
Definition descriptor_of (props : list (string * Manifest.Descriptor))
    (k : string) : Manifest.Descriptor :=
  match assoc k props with Some d => d | None => [] end.

(** The callback of [manifestTools.map] in the manifest route. *)
Definition manifest_tool (t : Manifest.Tool) : Manifest.Tool :=
  let schema := Manifest.input_schema t in
  if String.eqb (Manifest.name t) "drive_upload_file" then
    {| Manifest.name := Manifest.name t;
       Manifest.description := Manifest.description t;
       Manifest.input_schema :=
         {| Manifest.type := Manifest.type schema;
            Manifest.properties :=
              set_assoc "data"
                (set_assoc "description"
                   (JStr "base64-encoded content (<= 10MB)")
                   (descriptor_of (Manifest.properties schema) "data"))
                (Manifest.properties schema);
            Manifest.required := Manifest.required schema |} |}
  else if String.eqb (Manifest.name t) "drive_share_file" then
    {| Manifest.name := Manifest.name t;
       Manifest.description := Manifest.description t;
       Manifest.input_schema :=
         {| Manifest.type := Manifest.type schema;
            Manifest.properties :=
              set_assoc "role"
                [ ("type", JStr "string");
                  ("enum", JArr (map JStr share_roles));
                  ("default", JStr "reader") ]
                (Manifest.properties schema);
            Manifest.required := ["fileId"; "email"] |} |}
  else t.

(** [app.get('/mcp/manifest', ...)] *)
Definition mcp_manifest (env : Env) : Published.ManifestResponse :=
  {| Published.name := "mcp-google-tools";
     Published.version := "1.0.0";
     Published.oauth :=
       {| Published.client_id := Config.client_id (oauthConfig env);
          Published.auth_uri := Config.auth_uri (oauthConfig env);
          Published.token_uri := Config.token_uri (oauthConfig env);
          Published.redirect_uris := Config.redirect_uris (oauthConfig env);
          Published.scopes := Config.scopes (oauthConfig env);
          Published.response_type := "code";
          Published.access_type := "offline";
          Published.prompt := "consent" |};
     Published.tools := map manifest_tool manifestTools |}.

Module Token.

(** The tokens of a code exchange; [expiry_date] is in milliseconds. *)
Record Tokens : Type :=
  { access_token : JValue;
    refresh_token : JValue;
    expiry_date : option Z }.

End Token.

Definition exchange : Event := ExternalCall "oauth2Client.getToken".

Section OAuthCallback.

(** [new OAuth2Client(id, secret, redirect).getToken(code)] of the
    [google-auth-library] package, and [Date.now()] at the time the
    exchange settles. *)
Variable getToken :
  string -> string -> option string -> string -> Result Token.Tokens.
Variable now : Z.

(** [tokens.expiry_date ? Math.floor((tokens.expiry_date - Date.now()) / 1000)
    : 3600] *)
Definition expires_in (tokens : Token.Tokens) : Z :=
  match Token.expiry_date tokens with
  | Some d => if d =? 0 then 3600 else (d - now) / 1000
  | None => 3600
  end.

(** [app.get('/oauth/callback', ...)], on the [code] of the query string. *)
Definition oauth_callback (env : Env) (code : option string) : M HttpResponse :=
  match code with
  | None | Some EmptyString =>
      ret {| statusCode := 400;
             json := error_payload "Authorization code not provided" |}
  | Some code =>
      try_catch
        (tokens <- await "oauth2Client.getToken"
                     (getToken (Config.client_id (oauthConfig env))
                        (Config.client_secret (oauthConfig env))
                        (hd_error (Config.redirect_uris (oauthConfig env)))
                        code) ;;
         ret {| statusCode := 200;
                json := JObj [ ("access_token", Token.access_token tokens);
                               ("refresh_token", Token.refresh_token tokens);
                               ("expires_in", JNum (expires_in tokens)) ] |})
        (fun _ =>
           ret {| statusCode := 400;
                  json := error_payload
                            "Failed to exchange authorization code" |})
  end.

End OAuthCallback.

(** A [batchUpdate] that answers with the sheet ids it was asked to act
    on, a [drive.files.get] that reports two parents, one that refuses,
    and a [drive.files.update] that answers with its parameters. *)
Definition sample_batchUpdate (_ : Sheets.Api) (params : Batch.Params)
    : Result (Gaxios.Response JValue) :=
  Ok {| Gaxios.status := 200;
        Gaxios.data :=
          JArr (map (fun r => match r with
                              | Batch.DeleteSheet id => JNum id
                              | Batch.RepeatCell g _ _ => JNum (sheetId g)
                              end) (Batch.requests params)) |}.

Definition sample_files_get_parents (_ : Drive.Api Z) (_ : JValue)
    : Result (Gaxios.Response Files.Parents) :=
  Ok {| Gaxios.status := 200;
        Gaxios.data := {| Files.parents := Some ["folderA"; "folderB"] |} |}.

Definition refusing_files_get_parents (_ : Drive.Api Z) (_ : JValue)
    : Result (Gaxios.Response Files.Parents) :=
  Throw (Error "File not found: f1").

Definition sample_files_update (_ : Drive.Api Z) (params : JValue)
    : Result (Gaxios.Response JValue) :=
  Ok {| Gaxios.status := 200; Gaxios.data := get_prop params "removeParents" |}.

(** A [drive.permissions.create] that answers with the role it was asked
    to grant. *)
Definition sample_permissions_create (_ : Drive.Api Z) (params : JValue)
    : Result (Gaxios.Response JValue) :=
  Ok {| Gaxios.status := 200;
        Gaxios.data := get_prop (get_prop params "requestBody") "role" |}.

(** An environment that sets the client id only, and a code exchange that
    accepts the code "good". *)
Definition sample_env : Env :=
  {| GOOGLE_CLIENT_ID := Some "id-123.apps.googleusercontent.com";
     GOOGLE_CLIENT_SECRET := None;
     REDIRECT_URI := Some "" |}.

Definition sample_tokens : Token.Tokens :=
  {| Token.access_token := JStr "ya29.a";
     Token.refresh_token := JStr "1//r";
     Token.expiry_date := Some 1700000123456 |}.

Definition sample_getToken (_ _ : string) (_ : option string) (code : string)
    : Result Token.Tokens :=
  if String.eqb code "good" then Ok sample_tokens
  else Throw (Error "invalid_grant").

(** A service that refuses the metadata request. *)
Definition refusing_sheets_api : Sheets.Api :=
  {| Sheets.spreadsheets_get :=
       fun _ => Throw (Error "The caller does not have permission") |}.

(* ================================================================== *)
(** * Tactics *)
(* ================================================================== *)

(** A fact about one character, checked on each of the 256 of them. *)
Ltac each_char c :=
  destruct c as [[] [] [] [] [] [] [] []]; try reflexivity; try discriminate.

(** The corners of a concrete span as written, and their being within the
    exact range. *)
Ltac written_tac := unfold written_corners, run_of; repeat split; discriminate.
Ltac exact_tac :=
  unfold within_exact_range; repeat split; vm_compute; discriminate.

(** A concrete string is not in a concrete list of strings. *)
Ltac not_in_tac :=
  let H := fresh "H" in
  intros H; simpl in H;
  repeat (destruct H as [H | H]; [discriminate H|]); exact H.

(* ================================================================== *)
(** * Facts about strings *)
(* ================================================================== *)

Lemma append_nil_r (s : string) : s ++ "" = s.
Proof. induction s as [|c s IH]; simpl; [reflexivity | now rewrite IH]. Qed.

Lemma append_assoc (a b c : string) : (a ++ b) ++ c = a ++ b ++ c.
Proof. induction a as [|x a IH]; simpl; [reflexivity | now rewrite IH]. Qed.

Lemma append_snoc (acc : string) (c : ascii) (m : string) :
  (acc ++ String c "") ++ m = acc ++ String c m.
Proof. now rewrite append_assoc. Qed.

Lemma all_append (p : ascii -> bool) (a b : string) :
  all p (a ++ b) = all p a && all p b.
Proof.
  induction a as [|x a IH]; simpl; [reflexivity|].
  now rewrite IH, andb_assoc.
Qed.

Lemma any_append (p : ascii -> bool) (a b : string) :
  any p (a ++ b) = any p a || any p b.
Proof.
  induction a as [|x a IH]; simpl; [reflexivity|].
  now rewrite IH, orb_assoc.
Qed.

Lemma append_eq_nil (a b : string) : a ++ b = "" -> a = "" /\ b = "".
Proof. destruct a; simpl; [auto | discriminate]. Qed.

(** A string can be cut so that the second piece has a given length. *)
Lemma cut_at_length (n : nat) (s : string) :
  (n <= String.length s)%nat ->
  exists u w, s = u ++ w /\ String.length w = n.
Proof.
  induction s as [|c s IH]; simpl; intros Hn.
  - exists "", "". split; [reflexivity | simpl; lia].
  - destruct (Nat.eq_dec n (S (String.length s))) as [->|Hne].
    + exists "", (String c s). now split.
    + destruct IH as (u & w & -> & Hw); [lia|].
      exists (String c u), w. now split.
Qed.

Lemma in_range_spec (lo hi : Z) (c : ascii) :
  in_range lo hi c = true <-> lo <= charCode c <= hi.
Proof.
  unfold in_range. rewrite andb_true_iff, !Z.leb_le. tauto.
Qed.

Lemma upper_not_digit (c : ascii) : is_upper c = true -> is_digit c = false.
Proof.
  unfold is_upper, is_digit. intros H%in_range_spec.
  destruct (in_range 48 57 c) eqn:E; [|reflexivity].
  apply in_range_spec in E. lia.
Qed.

Lemma digit_not_upper (c : ascii) : is_digit c = true -> is_upper c = false.
Proof.
  intros H. destruct (is_upper c) eqn:E; [|reflexivity].
  apply upper_not_digit in E. congruence.
Qed.

Lemma run_of_stops (p q : ascii -> bool) (s rest : string) :
  (forall c, p c = true -> q c = false) ->
  run_of p s -> stops q (s ++ rest) = true.
Proof.
  intros Hpq [Hne Hall]. destruct s as [|c s]; [congruence|].
  simpl in *. apply andb_true_iff in Hall as [Hc _].
  now rewrite (Hpq _ Hc).
Qed.

(* ================================================================== *)
(** * Rounding *)
(* ================================================================== *)

Lemma round_magnitude_exact (n : Z) : n <= 2 ^ 53 -> round_magnitude n = n.
Proof.
  intros Hn. unfold round_magnitude.
  destruct (n <? 2 ^ 53) eqn:E; [reflexivity|].
  apply Z.ltb_ge in E. assert (n = 2 ^ 53) as -> by lia.
  vm_compute. reflexivity.
Qed.

(** Nothing is rounded up to [2^53], on either side of zero. *)
Lemma to_double_exact (z : Z) :
  - 2 ^ 53 <= z <= 2 ^ 53 -> to_double z = z.
Proof.
  intros Hz. unfold to_double.
  destruct (z <? 0) eqn:E; rewrite round_magnitude_exact; lia.
Qed.

Lemma round_magnitude_large (n : Z) :
  2 ^ 53 <= n -> 2 ^ 53 <= round_magnitude n.
Proof.
  intros Hn. unfold round_magnitude.
  destruct (n <? 2 ^ 53) eqn:E; [apply Z.ltb_lt in E; lia|].
  set (e := Z.log2 n - 52).
  assert (He : 1 <= e).
  { pose proof (Z.log2_le_mono _ _ Hn) as Hl.
    rewrite Z.log2_pow2 in Hl by lia. unfold e. lia. }
  assert (Hpos : 0 < 2 ^ e) by (apply Z.pow_pos_nonneg; lia).
  assert (Hq : 2 ^ 52 <= n / 2 ^ e).
  { apply Z.div_le_lower_bound; [assumption|].
    rewrite <- Z.pow_add_r by lia.
    replace (e + 52) with (Z.log2 n) by (unfold e; lia).
    apply Z.log2_spec. lia. }
  assert (H2 : 2 ^ 1 <= 2 ^ e) by (apply Z.pow_le_mono_r; lia).
  cbv zeta.
  destruct (Infinity <=? _).
  - unfold Infinity. apply Z.pow_le_mono_r; lia.
  - set (q := n / 2 ^ e) in *. set (w := 2 ^ e) in *.
    change (2 ^ 53) with (2 ^ 52 * 2 ^ 1).
    destruct (_ || _); nia.
Qed.

(** From [2^53] on, what [round_magnitude] returns, when it is finite, is a
    double, the nearest one, and the even one of two at the same distance:
    a significand [q] of 53 bits (or the next power of two) times the
    spacing [2^e] of the doubles around [n], at most half a spacing away
    from [n], and with an even [q] when exactly half a spacing away. *)
Lemma round_magnitude_nearest (n : Z) :
  2 ^ 53 <= n ->
  round_magnitude n = Infinity \/
  exists q e,
    1 <= e /\ 2 ^ 52 <= q <= 2 ^ 53 /\ round_magnitude n = q * 2 ^ e /\
    2 * Z.abs (round_magnitude n - n) <= 2 ^ e /\
    (2 * Z.abs (round_magnitude n - n) = 2 ^ e -> Z.even q = true).
Proof.
  intros Hn. unfold round_magnitude.
  destruct (n <? 2 ^ 53) eqn:E; [apply Z.ltb_lt in E; lia|].
  set (e := Z.log2 n - 52).
  assert (He : 1 <= e).
  { pose proof (Z.log2_le_mono _ _ Hn) as Hl.
    rewrite Z.log2_pow2 in Hl by lia. unfold e. lia. }
  assert (Hpos : 0 < 2 ^ e) by (apply Z.pow_pos_nonneg; lia).
  assert (Hn0 : 0 < n) by lia.
  destruct (Z.log2_spec n Hn0) as [Hlo Hhi].
  replace (Z.log2 n) with (e + 52) in Hlo by (unfold e; lia).
  replace (Z.succ (Z.log2 n)) with (e + 53) in Hhi by (unfold e; lia).
  rewrite Z.pow_add_r in Hlo, Hhi by lia.
  assert (Hhalf : 2 ^ e = 2 * 2 ^ (e - 1)).
  { replace e with (Z.succ (e - 1)) at 1 by lia.
    rewrite Z.pow_succ_r by lia. reflexivity. }
  pose proof (Z.div_mod n (2 ^ e) ltac:(lia)) as Hdm.
  pose proof (Z.mod_pos_bound n (2 ^ e) Hpos) as Hr.
  assert (Hq : 2 ^ 52 <= n / 2 ^ e < 2 ^ 53).
  { split.
    - apply Z.div_le_lower_bound; [assumption | lia].
    - apply Z.div_lt_upper_bound; [assumption | lia]. }
  cbv zeta.
  set (q := n / 2 ^ e) in *. set (r := n mod 2 ^ e) in *.
  set (w := 2 ^ e) in *. set (h := 2 ^ (e - 1)) in *.
  destruct (Infinity <=? _); [now left|]. right.
  destruct (h <? r) eqn:E1; simpl orb.
  - apply Z.ltb_lt in E1. exists (q + 1), e.
    split; [assumption|]. split; [lia|]. split; [reflexivity|].
    split; [nia | intros; nia].
  - apply Z.ltb_ge in E1. destruct (r =? h) eqn:E2; simpl andb.
    + apply Z.eqb_eq in E2. destruct (Z.odd q) eqn:E3.
      * exists (q + 1), e.
        split; [assumption|]. split; [lia|]. split; [reflexivity|].
        split; [nia|]. intros _.
        rewrite Z.even_add, <- Z.negb_odd, E3. reflexivity.
      * exists q, e.
        split; [assumption|]. split; [lia|]. split; [reflexivity|].
        split; [nia|]. intros _. now rewrite <- Z.negb_odd, E3.
    + apply Z.eqb_neq in E2. exists q, e.
      split; [assumption|]. split; [lia|]. split; [reflexivity|].
      split; [nia | intros; nia].
Qed.

(** On the samples [to_double] is the rounding of the Standard Library. *)
Lemma to_double_binary64_samples :
  forallb (fun z => to_double z =? binary64_of_Z z) rounding_samples = true.
Proof. vm_compute. reflexivity. Qed.

(** Rounding never crosses an integer that a double holds exactly. *)
Lemma to_double_ge (k n : Z) :
  - 2 ^ 53 <= k <= 2 ^ 53 -> k <= n -> k <= to_double n.
Proof.
  intros Hk Hn. unfold to_double. destruct (n <? 0) eqn:E.
  - apply Z.ltb_lt in E. rewrite round_magnitude_exact; lia.
  - apply Z.ltb_ge in E. destruct (Z_le_gt_dec n (2 ^ 53)) as [Hs|Hl].
    + rewrite round_magnitude_exact; lia.
    + pose proof (round_magnitude_large n ltac:(lia)). lia.
Qed.

(* ================================================================== *)
(** * The column codec *)
(* ================================================================== *)

Lemma letter_position_upper (c : ascii) :
  is_upper c = true -> letter_position c = charCode c - 64.
Proof.
  destruct c as [[] [] [] [] [] [] [] []];
    intros H; try discriminate H; reflexivity.
Qed.

Lemma upper_position_bounds (c : ascii) :
  is_upper c = true -> 1 <= charCode c - 64 <= 26.
Proof. unfold is_upper. intros H%in_range_spec. lia. Qed.

Lemma exact_loop_append (acc : Z) (u w : string) :
  exact_loop acc (u ++ w)
  = exact_loop (exact_loop acc u) w.
Proof.
  revert acc. induction u as [|c u IH]; intros acc; simpl; [reflexivity|].
  apply IH.
Qed.

(** The loop computes the positional value on top of the accumulator. *)
Lemma exact_loop_value (letters : string) (acc : Z) :
  all is_upper letters = true ->
  exact_loop acc letters
  = acc * 26 ^ Z.of_nat (String.length letters) + bijective26 letters.
Proof.
  revert acc. induction letters as [|c rest IH]; intros acc Hall.
  - simpl. lia.
  - simpl in Hall. apply andb_true_iff in Hall as [Hc Hrest].
    cbn [exact_loop bijective26 String.length].
    rewrite (IH _ Hrest), (letter_position_upper _ Hc).
    rewrite Nat2Z.inj_succ, Z.pow_succ_r by lia. ring.
Qed.

Lemma exact_loop_lower (letters : string) (acc : Z) :
  0 <= acc -> all is_upper letters = true ->
  acc <= exact_loop acc letters.
Proof.
  revert acc. induction letters as [|c rest IH]; intros acc Hacc Hall; simpl.
  - lia.
  - simpl in Hall. apply andb_true_iff in Hall as [Hc Hrest].
    pose proof (upper_position_bounds _ Hc).
    specialize (IH (acc * 26 + (charCode c - 64))). 
    assert (acc * 26 + (charCode c - 64) <= 
            exact_loop (acc * 26 + (charCode c - 64)) rest)
      by (apply IH; [lia | assumption]).
    lia.
Qed.

Lemma exact_loop_positive (letters : string) :
  run_of is_upper letters -> 1 <= exact_loop 0 letters.
Proof.
  intros [Hne Hall]. destruct letters as [|c rest]; [congruence|].
  simpl in *. apply andb_true_iff in Hall as [Hc Hrest].
  pose proof (upper_position_bounds _ Hc).
  pose proof (exact_loop_lower rest (charCode c - 64)).
  replace (0 * 26 + (charCode c - 64)) with (charCode c - 64) by lia.
  assert (charCode c - 64 <= exact_loop (charCode c - 64) rest)
    by (apply H0; [lia | assumption]).
  lia.
Qed.

(** A smaller accumulator stays smaller over suffixes of one length. *)
Lemma exact_loop_mono (t1 : string) :
  forall (t2 : string) (acc1 acc2 : Z),
    acc1 < acc2 -> String.length t1 = String.length t2 ->
    all is_upper t1 = true -> all is_upper t2 = true ->
    exact_loop acc1 t1 < exact_loop acc2 t2.
Proof.
  induction t1 as [|a t1 IH]; intros [|b t2] acc1 acc2 Hlt Hlen H1 H2;
    simpl in *; try discriminate; [assumption|].
  apply andb_true_iff in H1 as [Ha H1], H2 as [Hb H2].
  pose proof (upper_position_bounds _ Ha).
  pose proof (upper_position_bounds _ Hb).
  apply IH; [lia | congruence | assumption | assumption].
Qed.

Lemma exact_loop_lex (s1 : string) :
  forall (s2 : string) (acc : Z),
    String.length s1 = String.length s2 -> lex_before s1 s2 ->
    all is_upper s1 = true -> all is_upper s2 = true ->
    exact_loop acc s1 < exact_loop acc s2.
Proof.
  induction s1 as [|a t1 IH]; intros [|b t2] acc Hlen Hlex H1 H2;
    simpl in *; try contradiction.
  apply andb_true_iff in H1 as [Ha H1], H2 as [Hb H2].
  destruct Hlex as [Hpos | [-> Hlex]].
  - rewrite (letter_position_upper _ Ha), (letter_position_upper _ Hb) in Hpos.
    apply exact_loop_mono; [lia | congruence | assumption | assumption].
  - apply IH; [congruence | assumption | assumption | assumption].
Qed.

Lemma exact_loop_shorter (s1 s2 : string) :
  (String.length s1 < String.length s2)%nat ->
  all is_upper s1 = true -> all is_upper s2 = true ->
  exact_loop 0 s1 < exact_loop 0 s2.
Proof.
  intros Hlen H1 H2.
  destruct (cut_at_length (String.length s1) s2) as (u & w & -> & Hw); [lia|].
  rewrite all_append in H2. apply andb_true_iff in H2 as [Hu Hwu].
  rewrite exact_loop_append.
  apply exact_loop_mono; [|congruence|assumption|assumption].
  assert (run_of is_upper u).
  { split; [|assumption]. intros ->. simpl in Hlen. lia. }
  pose proof (exact_loop_positive u H). simpl. lia.
Qed.

(** Column names in order have values in order, whatever their length. *)
Lemma exact_loop_increasing (s1 s2 : string) :
  all is_upper s1 = true -> all is_upper s2 = true ->
  column_before s1 s2 ->
  exact_loop 0 s1 < exact_loop 0 s2.
Proof.
  intros H1 H2 [Hshort | [Hlen Hlex]].
  - exact (exact_loop_shorter s1 s2 Hshort H1 H2).
  - exact (exact_loop_lex s1 s2 0 Hlen Hlex H1 H2).
Qed.

(** With at most eleven letters the value never leaves the range in which
    a double holds every integer. *)
Lemma exact_loop_range (letters : string) :
  all is_upper letters = true -> (String.length letters <= 11)%nat ->
  0 <= exact_loop 0 letters < 2 ^ 53.
Proof.
  intros Hall Hlen. split.
  - apply exact_loop_lower; [lia | assumption].
  - assert (Hgen : forall (n : nat) (s : string) (acc : Z),
               String.length s = n -> all is_upper s = true -> 0 <= acc ->
               exact_loop acc s + 1 <= (acc + 2) * 26 ^ Z.of_nat n).
    { induction n as [|n IH]; intros [|c s] acc Hn Hs Hacc;
        simpl in Hn; try discriminate.
      - simpl. lia.
      - simpl in Hs. apply andb_true_iff in Hs as [Hc Hs].
        pose proof (upper_position_bounds _ Hc).
        simpl exact_loop.
        specialize (IH s (acc * 26 + (charCode c - 64))
                       ltac:(congruence) Hs ltac:(lia)).
        rewrite Nat2Z.inj_succ, Z.pow_succ_r by lia.
        assert (0 < 26 ^ Z.of_nat n) by (apply Z.pow_pos_nonneg; lia).
        nia. }
    specialize (Hgen _ letters 0 eq_refl Hall ltac:(lia)).
    assert (26 ^ Z.of_nat (String.length letters) <= 26 ^ 11)
      by (apply Z.pow_le_mono_r; lia).
    assert (2 * 26 ^ 11 < 2 ^ 53) by (vm_compute; reflexivity).
    lia.
Qed.

(** ** The loop of the source against the exact one *)

(** As long as the exact value stays within [2^53], no step rounds. *)
Lemma columnLetters_loop_exact (letters : string) :
  forall acc : Z,
    all is_upper letters = true -> 0 <= acc ->
    exact_loop acc letters <= 2 ^ 53 ->
    columnLetters_loop acc letters = exact_loop acc letters.
Proof.
  induction letters as [|c rest IH]; intros acc Hall Hacc Hsafe;
    [reflexivity|].
  simpl in Hall. apply andb_true_iff in Hall as [Hc Hrest].
  pose proof (upper_position_bounds _ Hc) as Hd.
  cbn [columnLetters_loop exact_loop] in *.
  pose proof (exact_loop_lower rest (acc * 26 + (charCode c - 64))
                ltac:(lia) Hrest) as Hlow.
  rewrite (to_double_exact (acc * 26)) by lia.
  rewrite to_double_exact by lia.
  apply IH; [assumption | lia | assumption].
Qed.

Lemma columnLettersToIndex_exact_loop (letters : string) :
  all is_upper letters = true -> exact_loop 0 letters <= 2 ^ 53 ->
  columnLettersToIndex letters = exact_loop 0 letters - 1.
Proof.
  intros Hall Hsafe.
  pose proof (exact_loop_lower letters 0 ltac:(lia) Hall) as Hlow.
  unfold columnLettersToIndex.
  rewrite columnLetters_loop_exact by (try assumption; lia).
  apply to_double_exact. lia.
Qed.

Lemma columnLettersToIndex_exact (letters : string) :
  run_of is_upper letters -> bijective26 letters <= 2 ^ 53 ->
  columnLettersToIndex letters = bijective26 letters - 1.
Proof.
  intros [_ Hall] Hsafe.
  pose proof (exact_loop_value letters 0 Hall) as Hval.
  rewrite columnLettersToIndex_exact_loop by (try assumption; lia). lia.
Qed.

(** Every name of up to eleven letters is within [2^53]. *)
Lemma bijective26_safe (letters : string) :
  all is_upper letters = true -> (String.length letters <= 11)%nat ->
  bijective26 letters <= 2 ^ 53.
Proof.
  intros Hall Hlen. pose proof (exact_loop_range letters Hall Hlen).
  pose proof (exact_loop_value letters 0 Hall). lia.
Qed.

(** Rounded or not, the accumulator stays above a bound it has reached. *)
Lemma columnLetters_loop_lower (letters : string) :
  forall k acc : Z,
    0 <= k <= 2 ^ 53 -> k <= acc -> all is_upper letters = true ->
    k <= columnLetters_loop acc letters.
Proof.
  induction letters as [|c rest IH]; intros k acc Hk Hacc Hall;
    [assumption|].
  simpl in Hall. apply andb_true_iff in Hall as [Hc Hrest].
  pose proof (upper_position_bounds _ Hc) as Hd.
  cbn [columnLetters_loop].
  apply IH; [assumption | | assumption].
  apply to_double_ge; [lia|].
  pose proof (to_double_ge k (acc * 26) ltac:(lia) ltac:(lia)). lia.
Qed.

Lemma columnLetters_loop_positive (letters : string) :
  run_of is_upper letters -> 1 <= columnLetters_loop 0 letters.
Proof.
  intros [Hne Hall]. destruct letters as [|c rest]; [congruence|].
  simpl in Hall. apply andb_true_iff in Hall as [Hc Hrest].
  pose proof (upper_position_bounds _ Hc) as Hd.
  cbn [columnLetters_loop].
  apply columnLetters_loop_lower; [lia | | assumption].
  apply to_double_ge; [lia|].
  rewrite (to_double_exact (0 * 26)) by lia. lia.
Qed.

Lemma columnLettersToIndex_nonneg (letters : string) :
  run_of is_upper letters -> 0 <= columnLettersToIndex letters.
Proof.
  intros Hrun. pose proof (columnLetters_loop_positive letters Hrun).
  unfold columnLettersToIndex. apply to_double_ge; lia.
Qed.

(** ** C2 and C5 *)

(** C2: for every non-empty sequence of uppercase letters,
    [columnLettersToIndex] is not negative; when the bijective base-26 value
    of the sequence is at most [2^53], as it is for every sequence of up to
    eleven letters, [columnLettersToIndex] is that value minus one. *)
Theorem columnLettersToIndex_bijective26 (letters : string) :
  run_of is_upper letters ->
  0 <= columnLettersToIndex letters /\
  (bijective26 letters <= 2 ^ 53 ->
   columnLettersToIndex letters = bijective26 letters - 1) /\
  ((String.length letters <= 11)%nat -> bijective26 letters <= 2 ^ 53).
Proof.
  intros Hrun. split; [|split].
  - now apply columnLettersToIndex_nonneg.
  - now apply columnLettersToIndex_exact.
  - apply bijective26_safe. exact (proj2 Hrun).
Qed.

(** "A" is 0, "Z" is 25, "AA" is 26, "AZ" is 51 and "BA" is 52. *)
Lemma columnLettersToIndex_examples :
  (run_of is_upper "A" /\ run_of is_upper "Z" /\ run_of is_upper "AA" /\
   run_of is_upper "AZ" /\ run_of is_upper "BA") /\
  columnLettersToIndex "A" = 0 /\
  columnLettersToIndex "Z" = 25 /\
  columnLettersToIndex "AA" = 26 /\
  columnLettersToIndex "AZ" = 51 /\
  columnLettersToIndex "BA" = 52.
Proof.
  assert (HA : run_of is_upper "A") by (split; [discriminate | reflexivity]).
  assert (HZ : run_of is_upper "Z") by (split; [discriminate | reflexivity]).
  assert (HAA : run_of is_upper "AA") by (split; [discriminate | reflexivity]).
  assert (HAZ : run_of is_upper "AZ") by (split; [discriminate | reflexivity]).
  assert (HBA : run_of is_upper "BA") by (split; [discriminate | reflexivity]).
  split; [exact (conj HA (conj HZ (conj HAA (conj HAZ HBA))))|].
  split; [|split; [|split; [|split]]].
  - rewrite (proj1 (proj2 (columnLettersToIndex_bijective26 "A" HA)));
      [reflexivity | vm_compute; discriminate].
  - rewrite (proj1 (proj2 (columnLettersToIndex_bijective26 "Z" HZ)));
      [reflexivity | vm_compute; discriminate].
  - rewrite (proj1 (proj2 (columnLettersToIndex_bijective26 "AA" HAA)));
      [reflexivity | vm_compute; discriminate].
  - rewrite (proj1 (proj2 (columnLettersToIndex_bijective26 "AZ" HAZ)));
      [reflexivity | vm_compute; discriminate].
  - rewrite (proj1 (proj2 (columnLettersToIndex_bijective26 "BA" HBA)));
      [reflexivity | vm_compute; discriminate].
Defined.

(** Twelve letters can exceed [2^53]: the name of twelve Z is a sequence of
    uppercase letters, its value minus one is 99246114928149461, and
    [columnLettersToIndex] returns the double next to it; the name that ends
    in Y, one column to the left, is given the same index. *)
Lemma columnLettersToIndex_rounds_long_names :
  run_of is_upper "ZZZZZZZZZZZZ" /\
  bijective26 "ZZZZZZZZZZZZ" - 1 = 99246114928149461 /\
  columnLettersToIndex "ZZZZZZZZZZZZ" = 99246114928149472 /\
  columnLettersToIndex "ZZZZZZZZZZZY" = 99246114928149472 /\
  ~ (forall letters : string,
       run_of is_upper letters ->
       columnLettersToIndex letters = bijective26 letters - 1).
Proof.
  assert (Hrun : run_of is_upper "ZZZZZZZZZZZZ")
    by (split; [discriminate | reflexivity]).
  split; [exact Hrun|].
  split; [vm_compute; reflexivity|].
  split; [vm_compute; reflexivity|].
  split; [vm_compute; reflexivity|].
  intros H. specialize (H _ Hrun). vm_compute in H. discriminate H.
Qed.

(** C5: on column names of one to three uppercase letters,
    [columnLettersToIndex] is strictly increasing in column order. *)
Theorem columnLettersToIndex_strictly_increasing (s1 s2 : string) :
  all is_upper s1 = true -> all is_upper s2 = true ->
  (1 <= String.length s1 <= 3)%nat -> (1 <= String.length s2 <= 3)%nat ->
  column_before s1 s2 ->
  columnLettersToIndex s1 < columnLettersToIndex s2.
Proof.
  intros H1 H2 L1 L2 Hbefore.
  pose proof (exact_loop_increasing s1 s2 H1 H2 Hbefore) as Hlt.
  assert (R1 : run_of is_upper s1).
  { split; [intros ->; simpl in L1; lia | assumption]. }
  assert (R2 : run_of is_upper s2).
  { split; [intros ->; simpl in L2; lia | assumption]. }
  rewrite (exact_loop_value s1 0 H1), (exact_loop_value s2 0 H2) in Hlt.
  rewrite (columnLettersToIndex_exact s1 R1)
    by (apply bijective26_safe; [assumption | lia]).
  rewrite (columnLettersToIndex_exact s2 R2)
    by (apply bijective26_safe; [assumption | lia]).
  lia.
Qed.

(** "Z" comes before "AA", and "AZ" before "BA". *)
Lemma columnLettersToIndex_order_examples :
  (column_before "Z" "AA" /\ column_before "AZ" "BA") /\
  columnLettersToIndex "Z" < columnLettersToIndex "AA" /\
  columnLettersToIndex "AZ" < columnLettersToIndex "BA".
Proof.
  assert (B1 : column_before "Z" "AA") by (left; simpl; lia).
  assert (B2 : column_before "AZ" "BA").
  { right. split; [reflexivity|]. left. vm_compute. reflexivity. }
  split; [split; assumption|]. split.
  - apply (columnLettersToIndex_strictly_increasing "Z" "AA");
      [reflexivity | reflexivity | simpl; lia | simpl; lia | exact B1].
  - apply (columnLettersToIndex_strictly_increasing "AZ" "BA");
      [reflexivity | reflexivity | simpl; lia | simpl; lia | exact B2].
Defined.

(* ================================================================== *)
(** * The matcher against the declarative reading of a pattern *)
(* ================================================================== *)

Section Greedy.

Context {R : Type} (p : ascii -> bool) (k : string -> string -> option R).

(** Whatever [plus_greedy] returns comes from a non-empty run. *)
Lemma plus_greedy_sound (s : string) :
  forall (acc : string) (r : R),
    plus_greedy p k acc s = Some r ->
    exists m rest, s = m ++ rest /\ m <> "" /\ all p m = true /\
                   k (acc ++ m) rest = Some r.
Proof.
  induction s as [|c s IH]; intros acc r H; simpl in H; [discriminate|].
  destruct (p c) eqn:Hc; [|discriminate].
  destruct (plus_greedy p k (acc ++ String c "") s) as [r'|] eqn:Hin.
  - injection H as <-.
    destruct (IH _ _ Hin) as (m & rest & -> & _ & Hall & Hk).
    exists (String c m), rest. rewrite append_snoc in Hk.
    repeat split; [discriminate | simpl; now rewrite Hc | assumption].
  - exists (String c ""), s.
    repeat split; [discriminate | simpl; now rewrite Hc | assumption].
Qed.

(** When [plus_greedy] gives up, the continuation fails on every run. *)
Lemma plus_greedy_none (s : string) :
  forall (acc : string),
    plus_greedy p k acc s = None ->
    forall m rest, s = m ++ rest -> m <> "" -> all p m = true ->
                   k (acc ++ m) rest = None.
Proof.
  induction s as [|c s IH]; intros acc H m rest Hs Hne Hall.
  - symmetry in Hs. apply append_eq_nil in Hs as [-> _]. congruence.
  - destruct m as [|x m]; [congruence|].
    simpl in Hs. injection Hs as <- ->.
    simpl in Hall. apply andb_true_iff in Hall as [Hc Hall].
    simpl in H. rewrite Hc in H.
    destruct (plus_greedy p k (acc ++ String c "") (m ++ rest)) eqn:Hin;
      [discriminate|].
    destruct m as [|y m]; [exact H|].
    rewrite <- append_snoc.
    apply (IH _ Hin (String y m) rest eq_refl); [discriminate | assumption].
Qed.

Lemma plus_greedy_stops (s acc : string) :
  stops p s = true -> plus_greedy p k acc s = None.
Proof.
  destruct s as [|c s]; simpl; [reflexivity|].
  intros H%negb_true_iff. now rewrite H.
Qed.

(** The longest run wins as soon as the continuation accepts it. *)
Lemma plus_greedy_maximal (m : string) :
  forall (acc rest : string) (v : R),
    m <> "" -> all p m = true -> stops p rest = true ->
    k (acc ++ m) rest = Some v ->
    plus_greedy p k acc (m ++ rest) = Some v.
Proof.
  induction m as [|c m IH]; intros acc rest v Hne Hall Hstop Hk;
    [congruence|].
  simpl in Hall. apply andb_true_iff in Hall as [Hc Hall].
  simpl. rewrite Hc.
  destruct m as [|y m].
  - simpl. rewrite (plus_greedy_stops rest _ Hstop). exact Hk.
  - rewrite (IH (acc ++ String c "") rest v);
      [reflexivity | discriminate | assumption | assumption |].
    now rewrite append_snoc.
Qed.

End Greedy.

Lemma exec_sound (r : regex) (anchored : bool) :
  forall (s : string) (caps : list string),
    exec r anchored s = Some caps ->
    exists rest, Matches r s caps rest /\ (anchored = true -> rest = "").
Proof.
  induction r as [|a r IH]; intros s caps H.
  - simpl in H. destruct anchored.
    + destruct s; [|discriminate]. injection H as <-.
      exists "". simpl. auto.
    + injection H as <-. exists s. simpl. split; [auto | discriminate].
  - destruct a as [p|p|p]; simpl in H.
    + destruct s as [|c s]; [discriminate|].
      destruct (p c) eqn:Hc; [|discriminate].
      destruct (IH _ _ H) as (rest & HM & Hend).
      exists rest. split; [|assumption]. simpl. eauto.
    + apply plus_greedy_sound in H as (m & s' & -> & Hne & Hall & Hk).
      destruct (IH _ _ Hk) as (rest & HM & Hend).
      exists rest. split; [|assumption]. simpl. eauto 8.
    + apply plus_greedy_sound in H as (m & s' & -> & Hne & Hall & Hk).
      simpl in Hk.
      destruct (exec r anchored s') as [caps'|] eqn:He; [|discriminate].
      injection Hk as <-.
      destruct (IH _ _ He) as (rest & HM & Hend).
      exists rest. split; [|assumption]. simpl. eauto 10.
Qed.

Lemma exec_complete (r : regex) (anchored : bool) :
  forall (s rest : string) (caps : list string),
    Matches r s caps rest -> (anchored = true -> rest = "") ->
    exec r anchored s <> None.
Proof.
  induction r as [|a r IH]; intros s rest caps HM Hend.
  - simpl in HM. destruct HM as [_ ->]. simpl.
    destruct anchored; [|discriminate].
    rewrite (Hend eq_refl). discriminate.
  - destruct a as [p|p|p]; simpl in HM.
    + destruct HM as (c & s' & -> & Hc & HM). simpl. rewrite Hc. eauto.
    + destruct HM as (m & s' & -> & Hne & Hall & HM).
      simpl. intros Hnone.
      pose proof (plus_greedy_none _ _ _ _ Hnone m s' eq_refl Hne Hall) as Hk.
      simpl in Hk. exact (IH _ _ _ HM Hend Hk).
    + destruct HM as (m & s' & caps' & -> & Hne & Hall & _ & HM).
      simpl. intros Hnone.
      pose proof (plus_greedy_none _ _ _ _ Hnone m s' eq_refl Hne Hall) as Hk.
      simpl in Hk.
      destruct (exec r anchored s') eqn:He; [discriminate|].
      exact (IH _ _ _ HM Hend He).
Qed.

Lemma search_sound (r : regex) (anchored : bool) (s : string) :
  forall caps,
    search r anchored s = Some caps ->
    exists pre suffix, s = pre ++ suffix /\ exec r anchored suffix = Some caps.
Proof.
  induction s as [|c s IH]; intros caps H; simpl in H.
  - destruct (exec r anchored "") eqn:He; [|discriminate].
    injection H as <-. exists "", "". now split.
  - destruct (exec r anchored (String c s)) eqn:He.
    + injection H as <-. exists "", (String c s). now split.
    + destruct (IH _ H) as (pre & suffix & -> & Hs).
      exists (String c pre), suffix. now split.
Qed.

(** A pattern that begins with a captured class cannot start on a
    character outside the class: the search moves on. *)
Lemma search_skip (p : ascii -> bool) (r : regex) (anchored : bool)
    (pre s : string) :
  any p pre = false ->
  search (Group p :: r) anchored (pre ++ s) = search (Group p :: r) anchored s.
Proof.
  induction pre as [|c pre IH]; intros Hany; [reflexivity|].
  simpl in Hany. apply orb_false_iff in Hany as [Hc Hany].
  cbn [append search exec plus_greedy]. rewrite Hc. now apply IH.
Qed.

Lemma search_here (r : regex) (anchored : bool) (s : string)
    (caps : list string) :
  exec r anchored s = Some caps -> search r anchored s = Some caps.
Proof. intros H. destruct s; simpl; now rewrite H. Qed.

Lemma exec_group (p : ascii -> bool) (r : regex) (anchored : bool)
    (m rest : string) (caps : list string) :
  run_of p m -> stops p rest = true ->
  exec r anchored rest = Some caps ->
  exec (Group p :: r) anchored (m ++ rest) = Some (m :: caps).
Proof.
  intros [Hne Hall] Hstop He. cbn [exec].
  apply plus_greedy_maximal; try assumption.
  simpl. now rewrite He.
Qed.

Lemma exec_chr (p : ascii -> bool) (r : regex) (anchored : bool)
    (c : ascii) (s : string) :
  p c = true -> exec (Chr p :: r) anchored (String c s) = exec r anchored s.
Proof. intros H. cbn [exec]. now rewrite H. Qed.

Lemma exec_plus (p : ascii -> bool) (r : regex) (anchored : bool)
    (m rest : string) (caps : list string) :
  run_of p m -> stops p rest = true ->
  exec r anchored rest = Some caps ->
  exec (Plus p :: r) anchored (m ++ rest) = Some caps.
Proof.
  intros [Hne Hall] Hstop He. cbn [exec].
  now apply plus_greedy_maximal.
Qed.

(* ================================================================== *)
(** * Splitting on the separator *)
(* ================================================================== *)

Lemma split_no_separator (sep : ascii) (s : string) :
  any (is_char sep) s = false -> split sep s = [s].
Proof.
  induction s as [|c s IH]; simpl; intros H; [reflexivity|].
  apply orb_false_iff in H as [Hc Hs]. unfold is_char in Hc.
  now rewrite Hc, (IH Hs).
Qed.

Lemma split_head (sep : ascii) (a tail : string) :
  any (is_char sep) a = false -> at_separator sep tail ->
  exists pieces, split sep (a ++ tail) = a :: pieces.
Proof.
  intros Ha Htail. induction a as [|c a IH]; simpl.
  - destruct Htail as [-> | [t ->]]; simpl.
    + now exists [].
    + rewrite Ascii.eqb_refl. now exists (split sep t).
  - simpl in Ha. apply orb_false_iff in Ha as [Hc Ha]. unfold is_char in Hc.
    rewrite Hc. destruct (IH Ha) as [pieces ->]. now exists pieces.
Qed.

Lemma split_at_first (sep : ascii) (a b : string) :
  any (is_char sep) a = false ->
  split sep (a ++ String sep b) = a :: split sep b.
Proof.
  intros Ha. induction a as [|c a IH]; simpl.
  - now rewrite Ascii.eqb_refl.
  - simpl in Ha. apply orb_false_iff in Ha as [Hc Ha]. unfold is_char in Hc.
    now rewrite Hc, (IH Ha).
Qed.

(** The sheet part is the text before the first '!'; the span part is the
    text between the first '!' and the next one, or the end. *)
Lemma split_range (part span tail : string) :
  any (is_char "!") part = false -> any (is_char "!") span = false ->
  at_separator "!" tail ->
  exists pieces, split "!" (part ++ "!" ++ span ++ tail) = part :: span :: pieces.
Proof.
  intros Hp Hs Ht. change ("!" ++ span ++ tail) with (String "!" (span ++ tail)).
  rewrite split_at_first by assumption.
  destruct (split_head "!" span tail Hs Ht) as [pieces ->]. now exists pieces.
Qed.

Lemma split_first_spec (sep : ascii) (s before after : string) :
  split_first sep s = Some (before, after) ->
  s = before ++ String sep after /\ any (is_char sep) before = false.
Proof.
  revert before. induction s as [|c s IH]; intros before H; simpl in H;
    [discriminate|].
  destruct (Ascii.eqb c sep) eqn:Hc.
  - injection H as <- <-. apply Ascii.eqb_eq in Hc as ->. now split.
  - destruct (split_first sep s) as [[b a]|]; [|discriminate].
    injection H as <- <-. destruct (IH b eq_refl) as [-> Hb].
    split; [reflexivity|]. simpl. unfold is_char at 1. now rewrite Hc.
Qed.

(* ================================================================== *)
(** * Case mapping and character classes *)
(* ================================================================== *)

Lemma digit_not_bang (c : ascii) : is_digit c = true -> is_char "!" c = false.
Proof. each_char c. Qed.

Lemma toUpperCase_append (a b : string) :
  toUpperCase (a ++ b) = toUpperCase a ++ toUpperCase b.
Proof.
  induction a as [|c a IH]; [reflexivity|].
  cbn [toUpperCase append]. now rewrite IH, append_assoc.
Qed.

Lemma toUpperCase_unit_upper (c : ascii) :
  is_upper c = true -> toUpperCase_unit c = String c "".
Proof. each_char c. Qed.

Lemma toUpperCase_unit_digit (c : ascii) :
  is_digit c = true -> toUpperCase_unit c = String c "".
Proof. each_char c. Qed.

(** An ASCII letter has one upper-case letter for its upper case. *)
Lemma toUpperCase_unit_letter (c : ascii) :
  is_letter c = true ->
  toUpperCase_unit c = String (canonicalize c) "" /\
  is_upper (canonicalize c) = true.
Proof.
  destruct c as [[] [] [] [] [] [] [] []]; intros H; try discriminate H;
    split; reflexivity.
Qed.

(** Upper-casing twice is upper-casing once, one code unit at a time. *)
Lemma toUpperCase_unit_idem (c : ascii) :
  toUpperCase (toUpperCase_unit c) = toUpperCase_unit c.
Proof. each_char c. Qed.

Lemma toUpperCase_idem (s : string) :
  toUpperCase (toUpperCase s) = toUpperCase s.
Proof.
  induction s as [|c s IH]; [reflexivity|].
  cbn [toUpperCase].
  now rewrite toUpperCase_append, toUpperCase_unit_idem, IH.
Qed.

Lemma toUpperCase_upper (s : string) :
  all is_upper s = true -> toUpperCase s = s.
Proof.
  induction s as [|c s IH]; intros H; [reflexivity|].
  simpl in H. apply andb_true_iff in H as [Hc Hs].
  cbn [toUpperCase]. now rewrite (toUpperCase_unit_upper _ Hc), (IH Hs).
Qed.

Lemma toUpperCase_digits (s : string) :
  all is_digit s = true -> toUpperCase s = s.
Proof.
  induction s as [|c s IH]; intros H; [reflexivity|].
  simpl in H. apply andb_true_iff in H as [Hc Hs].
  cbn [toUpperCase]. now rewrite (toUpperCase_unit_digit _ Hc), (IH Hs).
Qed.

(** A capital other than S at the head of an upper-cased text comes from
    the same letter, in either case, at the head of the text. *)
Lemma toUpperCase_unit_capital (c d : ascii) (rest t : string) :
  toUpperCase_unit c ++ rest = String d t ->
  is_upper d = true -> d <> "S"%char ->
  canonicalize c = d /\ rest = t.
Proof.
  destruct c as [[] [] [] [] [] [] [] []]; simpl; intros H Hd HS;
    injection H as <- <-; try discriminate Hd;
    try (split; reflexivity); congruence.
Qed.

Lemma toUpperCase_unit_of_capital (c : ascii) :
  is_upper (canonicalize c) = true ->
  toUpperCase_unit c = String (canonicalize c) "".
Proof. each_char c. Qed.

(** A word of capitals without S is the upper case of the texts that the
    [i] flag takes for it, and of no other. *)
Lemma toUpperCase_fold (t : string) :
  all (fun d => is_upper d && negb (Ascii.eqb d "S")) t = true ->
  forall s, toUpperCase s = t -> map_string canonicalize s = t.
Proof.
  induction t as [|d t IH]; intros Hall [|c s] H;
    try reflexivity; try discriminate H.
  - exfalso. revert H. cbn [toUpperCase]. each_char c.
  - simpl in Hall. apply andb_true_iff in Hall as [Hd Ht].
    apply andb_true_iff in Hd as [Hup HS].
    cbn [toUpperCase] in H.
    apply toUpperCase_unit_capital in H as [Hc Hs]; [|assumption|].
    + simpl. now rewrite Hc, (IH Ht s Hs).
    + intros ->. discriminate HS.
Qed.

Lemma fold_toUpperCase (t : string) :
  all is_upper t = true ->
  forall s, map_string canonicalize s = t -> toUpperCase s = t.
Proof.
  induction t as [|d t IH]; intros Hall [|c s] H;
    try reflexivity; try discriminate H.
  simpl in Hall. apply andb_true_iff in Hall as [Hd Ht].
  simpl in H. injection H as Hc Hs.
  cbn [toUpperCase]. rewrite toUpperCase_unit_of_capital by congruence.
  simpl. now rewrite Hc, (IH Ht s Hs).
Qed.

(** Letters of either case come out as a run of capitals. *)
Lemma toUpperCase_letters (s : string) :
  run_of is_letter s -> run_of is_upper (toUpperCase s).
Proof.
  intros [Hne Hall]. split.
  - destruct s as [|c s]; [congruence|]. simpl in Hall.
    apply andb_true_iff in Hall as [Hc _].
    cbn [toUpperCase].
    rewrite (proj1 (toUpperCase_unit_letter _ Hc)). discriminate.
  - clear Hne. induction s as [|c s IH]; [reflexivity|].
    simpl in Hall. apply andb_true_iff in Hall as [Hc Hs].
    destruct (toUpperCase_unit_letter _ Hc) as [Hu Hup].
    cbn [toUpperCase]. rewrite Hu. simpl. now rewrite Hup, (IH Hs).
Qed.

Lemma upper_is_letter (s : string) :
  run_of is_upper s -> run_of is_letter s.
Proof.
  intros [Hne Hall]. split; [assumption|]. clear Hne.
  induction s as [|c s IH]; [reflexivity|].
  simpl in *. apply andb_true_iff in Hall as [Hc Hs].
  rewrite (IH Hs). unfold is_letter. now rewrite Hc.
Qed.

Lemma all_none (p q : ascii -> bool) (s : string) :
  (forall c, p c = true -> q c = false) ->
  all p s = true -> any q s = false.
Proof.
  intros Hpq. induction s as [|c s IH]; simpl; intros H; [reflexivity|].
  apply andb_true_iff in H as [Hc Hs]. now rewrite (Hpq _ Hc), (IH Hs).
Qed.

Lemma any_toUpperCase (p : ascii -> bool) (q : ascii -> bool) (s : string) :
  (forall c, any p (toUpperCase_unit c) = q c) ->
  any p (toUpperCase s) = any q s.
Proof.
  intros Hpq.
  induction s as [|c s IH]; [reflexivity|].
  cbn [toUpperCase any]. now rewrite any_append, Hpq, IH.
Qed.

(** The upper case of a code unit holds a capital exactly when the code
    unit is an ASCII letter or the sharp s. *)
Lemma toUpperCase_unit_cased (c : ascii) :
  any is_upper (toUpperCase_unit c) = is_cased c.
Proof. each_char c. Qed.

Lemma toUpperCase_unit_has_digit (c : ascii) :
  any is_digit (toUpperCase_unit c) = is_digit c.
Proof. each_char c. Qed.

Lemma toUpperCase_unit_has_colon (c : ascii) :
  any (is_char ":") (toUpperCase_unit c) = is_char ":" c.
Proof. each_char c. Qed.

Lemma stops_toUpperCase_digit (s : string) :
  stops is_digit (toUpperCase s) = stops is_digit s.
Proof. destruct s as [|c s]; [reflexivity|]. each_char c. Qed.

(* ================================================================== *)
(** * Row numbers *)
(* ================================================================== *)

Lemma digit_value_bounds (c : ascii) :
  is_digit c = true -> 0 <= charCode c - 48 <= 9.
Proof. unfold is_digit. intros H%in_range_spec. lia. Qed.

(** A row number of up to fifteen digits is in the range in which a double
    holds every integer. *)
Lemma decimal_safe (digits : string) :
  all is_digit digits = true -> (String.length digits <= 15)%nat ->
  0 <= decimal digits < 2 ^ 53.
Proof.
  intros Hall Hlen.
  assert (Hgen : 0 <= decimal digits < 10 ^ Z.of_nat (String.length digits)).
  { clear Hlen. induction digits as [|c rest IH].
    - simpl. lia.
    - simpl in Hall. apply andb_true_iff in Hall as [Hc Hrest].
      pose proof (digit_value_bounds _ Hc). specialize (IH Hrest).
      cbn [decimal String.length].
      rewrite Nat2Z.inj_succ, Z.pow_succ_r by lia. nia. }
  assert (10 ^ Z.of_nat (String.length digits) <= 10 ^ 15)
    by (apply Z.pow_le_mono_r; lia).
  assert (10 ^ 15 < 2 ^ 53) by (vm_compute; reflexivity).
  lia.
Qed.

Lemma parseInt_loop_value (digits : string) (acc : Z) :
  all is_digit digits = true ->
  parseInt_loop acc digits
  = acc * 10 ^ Z.of_nat (String.length digits) + decimal digits.
Proof.
  revert acc. induction digits as [|c rest IH]; intros acc Hall.
  - simpl. lia.
  - simpl in Hall. apply andb_true_iff in Hall as [Hc Hrest].
    cbn [parseInt_loop decimal String.length]. rewrite Hc.
    rewrite (IH _ Hrest), Nat2Z.inj_succ, Z.pow_succ_r by lia. ring.
Qed.

Lemma decimal_nonneg (digits : string) :
  all is_digit digits = true -> 0 <= decimal digits.
Proof.
  induction digits as [|c rest IH]; intros Hall; [simpl; lia|].
  simpl in Hall. apply andb_true_iff in Hall as [Hc Hrest].
  pose proof (digit_value_bounds _ Hc). specialize (IH Hrest).
  cbn [decimal].
  assert (0 < 10 ^ Z.of_nat (String.length rest))
    by (apply Z.pow_pos_nonneg; lia).
  nia.
Qed.

(** On a run of digits [parseInt] reads the whole decimal number and rounds
    it once. *)
Lemma parseInt_decimal (digits : string) :
  all is_digit digits = true -> parseInt digits = to_double (decimal digits).
Proof.
  intros H. unfold parseInt. rewrite (parseInt_loop_value _ _ H).
  f_equal; lia.
Qed.

(** Up to [2^53] the row number is read exactly. *)
Lemma parseInt_exact (digits : string) :
  all is_digit digits = true -> decimal digits <= 2 ^ 53 ->
  parseInt digits = decimal digits.
Proof.
  intros H Hsafe. pose proof (decimal_nonneg _ H).
  rewrite (parseInt_decimal _ H). apply to_double_exact. lia.
Qed.

Lemma parseInt_nonneg (digits : string) :
  all is_digit digits = true -> 0 <= parseInt digits.
Proof.
  intros H. pose proof (decimal_nonneg _ H).
  rewrite (parseInt_decimal _ H). apply to_double_ge; lia.
Qed.

(* ================================================================== *)
(** * Quoted sheet names *)
(* ================================================================== *)

Lemma append_snoc_inj (a b : string) (x y : ascii) :
  a ++ String x "" = b ++ String y "" -> a = b /\ x = y.
Proof.
  revert b. induction a as [|c a IH]; intros [|d b] H; simpl in H.
  - injection H as ->. now split.
  - injection H as _ H. destruct b; discriminate H.
  - injection H as _ H. destruct a; discriminate H.
  - injection H as -> H. destruct (IH _ H) as [-> ->]. now split.
Qed.

Lemma is_char_eq (x c : ascii) : is_char x c = true -> c = x.
Proof. unfold is_char. now intros H%Ascii.eqb_eq. Qed.

(** What a match of [/^'(.+)'$/] looks like. *)
Lemma quoted_re_matches (s : string) (caps : list string) :
  Matches quoted_re s caps "" ->
  exists inner, caps = [inner] /\ s = "'" ++ inner ++ "'" /\ run_of is_dot inner.
Proof.
  simpl. intros (c & s1 & -> & Hc & m & s2 & caps' & -> & Hne & Hall & -> &
                 c' & s3 & -> & Hc' & -> & Hs3).
  apply is_char_eq in Hc as ->. apply is_char_eq in Hc' as ->. subst s3.
  exists m. repeat split; assumption.
Qed.

Lemma quoted_re_wrapped (inner : string) :
  run_of is_dot inner -> Matches quoted_re ("'" ++ inner ++ "'") [inner] "".
Proof.
  intros [Hne Hall]. simpl.
  exists "'"%char, (inner ++ "'"). repeat split.
  exists inner, "'", []. repeat split; try assumption.
  exists "'"%char, "". repeat split.
Qed.

Lemma strip_quotes_quoted (inner : string) :
  run_of is_dot inner -> strip_quotes ("'" ++ inner ++ "'") = inner.
Proof.
  intros Hrun. unfold strip_quotes.
  pose proof (exec_complete quoted_re true _ _ _ (quoted_re_wrapped _ Hrun)
                (fun _ => eq_refl)) as Hsome.
  destruct (exec quoted_re true ("'" ++ inner ++ "'")) as [caps|] eqn:He;
    [|congruence].
  destruct (exec_sound _ _ _ _ He) as (rest & HM & Hend).
  rewrite (Hend eq_refl) in HM.
  apply quoted_re_matches in HM as (m & -> & Heq & _).
  simpl in Heq. injection Heq as Heq.
  now apply append_snoc_inj in Heq as [-> _].
Qed.

Lemma strip_quotes_bare (part : string) :
  ~ wrapped_in_quotes part -> strip_quotes part = part.
Proof.
  intros Hbare. unfold strip_quotes.
  destruct (exec quoted_re true part) as [caps|] eqn:He; [|reflexivity].
  destruct (exec_sound _ _ _ _ He) as (rest & HM & Hend).
  rewrite (Hend eq_refl) in HM.
  apply quoted_re_matches in HM as (m & -> & Heq & Hrun).
  exfalso. apply Hbare. now exists m.
Qed.

Lemma strip_quotes_names (part sheet : string) :
  names_sheet part sheet -> strip_quotes part = sheet.
Proof.
  intros [s Hbare | s Hrun];
    [now apply strip_quotes_bare | now apply strip_quotes_quoted].
Qed.

(* ================================================================== *)
(** * Sheet lookup *)
(* ================================================================== *)

Lemma has_title_spec (t : string) (s : Sheets.Sheet) :
  has_title t s = true <-> titled t s.
Proof.
  unfold has_title, titled. destruct (Sheets.properties s) as [p|].
  - rewrite String.eqb_eq. split.
    + intros <-. now exists p.
    + intros (q & [= <-] & H). exact H.
  - split; [discriminate | intros (q & [=] & _)].
Qed.

Lemma find_first (t : string) (pre : list Sheets.Sheet) (entry : Sheets.Sheet)
    (post : list Sheets.Sheet) :
  (forall s, In s pre -> ~ titled t s) -> titled t entry ->
  find (has_title t) (pre ++ entry :: post)%list = Some entry.
Proof.
  intros Hpre Hentry. induction pre as [|s pre IH]; simpl.
  - apply has_title_spec in Hentry. now rewrite Hentry.
  - destruct (has_title t s) eqn:Hs.
    + apply has_title_spec in Hs. exfalso. apply (Hpre s); [now left | exact Hs].
    + apply IH. intros s' Hin. apply Hpre. now right.
Qed.

Lemma find_absent (t : string) (l : list Sheets.Sheet) :
  (forall s, In s l -> ~ titled t s) -> find (has_title t) l = None.
Proof.
  intros Hl. induction l as [|s l IH]; simpl; [reflexivity|].
  destruct (has_title t s) eqn:Hs.
  - apply has_title_spec in Hs. exfalso. apply (Hl s); [now left | exact Hs].
  - apply IH. intros s' Hin. apply Hl. now right.
Qed.

(** The lookup sends one request and then scans what came back. *)
Lemma getSheetIdByName_run (api : Sheets.Api) (spreadsheetId sheetName : string)
    (log : list Event) :
  getSheetIdByName api spreadsheetId sheetName log
  = match Sheets.spreadsheets_get api (metadata_request spreadsheetId) with
    | Ok meta =>
        match find (has_title sheetName) (sheets_or_empty (Gaxios.data meta)) with
        | None => (Throw (Error ("Sheet not found: " ++ sheetName)),
                   (log ++ [metadata_fetch])%list)
        | Some sheet =>
            match Sheets.properties sheet with
            | Some p => (Ok (Sheets.sheetId p), (log ++ [metadata_fetch])%list)
            | None => (Throw (Error "Cannot read properties of undefined"),
                       (log ++ [metadata_fetch])%list)
            end
        end
    | Throw e => (Throw e, (log ++ [metadata_fetch])%list)
    end.
Proof.
  unfold getSheetIdByName, bind, await, metadata_request, metadata_fetch.
  destruct (Sheets.spreadsheets_get api _) as [meta|e]; [|reflexivity].
  destruct (find _ _) as [sheet|]; [|reflexivity].
  destruct (Sheets.properties sheet); reflexivity.
Qed.

(** C4: once the metadata has been fetched, the lookup returns the sheetId
    of the first entry whose title is exactly the requested name, and
    fails with "Sheet not found" when no entry has that title. *)
Theorem getSheetIdByName_first_match_or_not_found
    (api : Sheets.Api) (spreadsheetId sheetName : string) (log : list Event)
    (meta : Gaxios.Response Sheets.Spreadsheet) :
  Sheets.spreadsheets_get api (metadata_request spreadsheetId) = Ok meta ->
  (forall pre entry post p,
      sheets_or_empty (Gaxios.data meta) = (pre ++ entry :: post)%list ->
      (forall s, In s pre -> ~ titled sheetName s) ->
      Sheets.properties entry = Some p -> Sheets.title p = sheetName ->
      getSheetIdByName api spreadsheetId sheetName log
      = (Ok (Sheets.sheetId p), (log ++ [metadata_fetch])%list)) /\
  ((forall s, In s (sheets_or_empty (Gaxios.data meta)) ->
              ~ titled sheetName s) ->
   getSheetIdByName api spreadsheetId sheetName log
   = (Throw (Error ("Sheet not found: " ++ sheetName)),
      (log ++ [metadata_fetch])%list)).
Proof.
  intros Hget. rewrite getSheetIdByName_run, Hget. split.
  - intros pre entry post p Hsheets Hpre Hprops Htitle.
    rewrite Hsheets, (find_first sheetName pre entry post Hpre);
      [now rewrite Hprops | now exists p].
  - intros Hnone. now rewrite (find_absent _ _ Hnone).
Qed.

(** Of the two tabs titled "My Sheet" the first one, with id 7, is found;
    "sheet1" differs from "Sheet1" by case and is not found. *)
Lemma getSheetIdByName_examples :
  getSheetIdByName sample_sheets_api "sid" "My Sheet" []
  = (Ok 7, [metadata_fetch]) /\
  getSheetIdByName sample_sheets_api "sid" "sheet1" []
  = (Throw (Error "Sheet not found: sheet1"), [metadata_fetch]).
Proof.
  pose proof (getSheetIdByName_first_match_or_not_found
                sample_sheets_api "sid" "My Sheet" [] _ eq_refl) as [Hfirst _].
  pose proof (getSheetIdByName_first_match_or_not_found
                sample_sheets_api "sid" "sheet1" [] _ eq_refl) as [_ Hnone].
  split.
  - apply (Hfirst [sheet_entry 0 "Sheet1"] (sheet_entry 7 "My Sheet")
                  [sheet_entry 9 "My Sheet"]
                  {| Sheets.sheetId := 7; Sheets.title := "My Sheet" |});
      [reflexivity | | reflexivity | reflexivity].
    intros s [<- | []] (p & [= <-] & Ht). discriminate Ht.
  - apply Hnone.
    intros s [<- | [<- | [<- | []]]] (p & [= <-] & Ht); discriminate Ht.
Defined.

(* ================================================================== *)
(** * The range resolver *)
(* ================================================================== *)

Lemma any_of_run (p : ascii -> bool) (m : string) :
  run_of p m -> any p m = true.
Proof.
  intros [Hne Hall]. destruct m as [|c m]; [congruence|].
  simpl in *. apply andb_true_iff in Hall as [-> _]. reflexivity.
Qed.

(** What a match of the span pattern looks like. *)
Lemma span_re_matches (s rest : string) (caps : list string) :
  Matches span_re s caps rest ->
  exists c1 r1 c2 r2,
    caps = [c1; r1; c2; r2] /\ s = c1 ++ r1 ++ ":" ++ c2 ++ r2 ++ rest /\
    corners c1 r1 c2 r2.
Proof.
  simpl.
  intros (c1 & s1 & k1 & -> & N1 & A1 & -> &
          r1 & s2 & k2 & -> & N2 & A2 & -> &
          c & s3 & -> & Hc &
          c2 & s4 & k4 & -> & N4 & A4 & -> &
          r2 & s5 & k5 & -> & N5 & A5 & -> & -> & ->).
  apply is_char_eq in Hc as ->.
  exists c1, r1, c2, r2. unfold corners, run_of. repeat split; assumption.
Qed.

Lemma letter_not_bang (c : ascii) :
  is_letter c = true -> is_char "!" c = false.
Proof. each_char c. Qed.

Lemma written_corners_no_bang (c1 r1 c2 r2 : string) :
  written_corners c1 r1 c2 r2 ->
  any (is_char "!") (c1 ++ r1 ++ ":" ++ c2 ++ r2) = false.
Proof.
  intros ([_ H1] & [_ H2] & [_ H3] & [_ H4]).
  rewrite !any_append.
  rewrite (all_none _ _ _ letter_not_bang H1), (all_none _ _ _ digit_not_bang H2),
    (all_none _ _ _ letter_not_bang H3), (all_none _ _ _ digit_not_bang H4).
  reflexivity.
Qed.

(** Corners in capitals are corners as written, and upper-casing turns
    corners as written into corners in capitals. *)
Lemma corners_written (c1 r1 c2 r2 : string) :
  corners c1 r1 c2 r2 -> written_corners c1 r1 c2 r2.
Proof.
  intros (H1 & H2 & H3 & H4).
  exact (conj (upper_is_letter _ H1)
           (conj H2 (conj (upper_is_letter _ H3) H4))).
Qed.

Lemma written_corners_upper (c1 r1 c2 r2 : string) :
  written_corners c1 r1 c2 r2 ->
  corners (toUpperCase c1) r1 (toUpperCase c2) r2.
Proof.
  intros (H1 & H2 & H3 & H4).
  exact (conj (toUpperCase_letters _ H1)
           (conj H2 (conj (toUpperCase_letters _ H3) H4))).
Qed.

(** Upper-casing a span touches its letters only. *)
Lemma toUpperCase_span (c1 r1 c2 r2 : string) :
  written_corners c1 r1 c2 r2 ->
  toUpperCase (c1 ++ r1 ++ ":" ++ c2 ++ r2)
  = toUpperCase c1 ++ r1 ++ ":" ++ toUpperCase c2 ++ r2.
Proof.
  intros (_ & [_ H2] & _ & [_ H4]).
  rewrite (toUpperCase_append c1), (toUpperCase_append r1).
  change (toUpperCase (":" ++ c2 ++ r2)) with (":" ++ toUpperCase (c2 ++ r2)).
  rewrite (toUpperCase_append c2 r2).
  now rewrite (toUpperCase_digits _ H2), (toUpperCase_digits _ H4).
Qed.

(** At the first letter of a span the pattern captures its four groups. *)
Lemma exec_span (c1 r1 c2 r2 post : string) :
  corners c1 r1 c2 r2 -> stops is_digit post = true ->
  exec span_re false (c1 ++ r1 ++ ":" ++ c2 ++ r2 ++ post)
  = Some [c1; r1; c2; r2].
Proof.
  intros (H1 & H2 & H3 & H4) Hpost. unfold span_re.
  apply exec_group;
    [assumption
    | apply (run_of_stops is_digit is_upper);
        [exact digit_not_upper | exact H2] |].
  apply exec_group; [assumption | reflexivity |].
  change (":" ++ c2 ++ r2 ++ post) with (String ":" (c2 ++ r2 ++ post)).
  rewrite exec_chr by reflexivity.
  apply exec_group;
    [assumption
    | apply (run_of_stops is_digit is_upper);
        [exact digit_not_upper | exact H4] |].
  apply exec_group; [assumption | assumption | reflexivity].
Qed.

(** The resolver once the split has produced a non-empty span part: the
    lookup comes first, the pattern check second, the index arithmetic
    last. *)
Lemma parseA1ToGridRange_run (api : Sheets.Api) (spreadsheetId a1Range : string)
    (part span : string) (pieces : list string) (log : list Event) :
  split "!" a1Range = part :: span :: pieces -> span <> "" ->
  parseA1ToGridRange api spreadsheetId a1Range log
  = match getSheetIdByName api spreadsheetId (strip_quotes part) log with
    | (Ok id, log') =>
        match search span_re false (toUpperCase span) with
        | Some [c1; r1; c2; r2] => (Ok (resolved id c1 r1 c2 r2), log')
        | _ => (Throw (Error "range must be like A1:B2"), log')
        end
    | (Throw e, log') => (Throw e, log')
    end.
Proof.
  intros Hsplit Hne. unfold parseA1ToGridRange. rewrite Hsplit.
  destruct span as [|x span]; [congruence|]. unfold bind.
  destruct (getSheetIdByName _ _ _ _) as [[id|e] log']; [|reflexivity].
  destruct (search _ _ _) as [[|c1 [|r1 [|c2 [|r2 [|y l]]]]]|]; reflexivity.
Qed.

(** Within the exact range the arithmetic of the resolver is the arithmetic
    of the specification. *)
Lemma resolved_exact (id : Z) (c1 r1 c2 r2 : string) :
  corners c1 r1 c2 r2 -> within_exact_range c2 r1 r2 ->
  resolved id c1 r1 c2 r2 = grid_of id c1 r1 c2 r2.
Proof.
  intros (_ & [_ H2] & H3 & [_ H4]) (B1 & B2 & B3).
  unfold exact_limit in *.
  pose proof (decimal_nonneg _ H2). pose proof (decimal_nonneg _ H4).
  pose proof (columnLettersToIndex_nonneg _ H3).
  unfold resolved, grid_of.
  rewrite (parseInt_exact _ H2 B1), (parseInt_exact _ H4 B2).
  rewrite (to_double_exact (decimal r1 - 1)) by lia.
  rewrite (to_double_exact (columnLettersToIndex c2 + 1)) by lia.
  reflexivity.
Qed.

(** Column names of up to eleven letters and row numbers of up to fifteen
    digits are within the exact range. *)
Lemma short_corners_exact (c1 r1 c2 r2 : string) :
  corners c1 r1 c2 r2 ->
  (String.length c2 <= 11)%nat ->
  (String.length r1 <= 15)%nat -> (String.length r2 <= 15)%nat ->
  within_exact_range c2 r1 r2.
Proof.
  intros (_ & [_ H2] & H3 & [_ H4]) L2 L1 L3.
  pose proof (decimal_safe _ H2 L1). pose proof (decimal_safe _ H4 L3).
  pose proof (exact_loop_range _ (proj2 H3) L2) as Hr.
  rewrite (exact_loop_value _ 0 (proj2 H3)) in Hr.
  unfold within_exact_range, exact_limit.
  rewrite (columnLettersToIndex_exact _ H3) by lia. lia.
Qed.

(** Where the first span inside the span part is found. *)
Lemma search_span (pre c1 r1 c2 r2 post : string) :
  any is_cased pre = false ->
  stops is_digit post = true -> written_corners c1 r1 c2 r2 ->
  search span_re false
    (toUpperCase (pre ++ (c1 ++ r1 ++ ":" ++ c2 ++ r2) ++ post))
  = Some [toUpperCase c1; r1; toUpperCase c2; r2].
Proof.
  intros Hpre Hpost Hc.
  rewrite (toUpperCase_append pre),
    (toUpperCase_append (c1 ++ r1 ++ ":" ++ c2 ++ r2) post),
    (toUpperCase_span _ _ _ _ Hc).
  unfold span_re at 1. rewrite search_skip.
  - apply search_here. rewrite !append_assoc.
    apply exec_span;
      [now apply written_corners_upper | now rewrite stops_toUpperCase_digit].
  - now rewrite (any_toUpperCase _ _ _ toUpperCase_unit_cased).
Qed.

(** The resolver on a span part that holds a span, possibly with text
    around it. *)
Lemma parseA1ToGridRange_embedded (api : Sheets.Api) (spreadsheetId : string)
    (part pre c1 r1 c2 r2 post : string) (log log' : list Event) (id : Z) :
  any (is_char "!") part = false ->
  any (is_char "!") pre = false -> any (is_char "!") post = false ->
  any is_cased pre = false ->
  stops is_digit post = true -> written_corners c1 r1 c2 r2 ->
  getSheetIdByName api spreadsheetId (strip_quotes part) log = (Ok id, log') ->
  parseA1ToGridRange api spreadsheetId
    (part ++ "!" ++ pre ++ (c1 ++ r1 ++ ":" ++ c2 ++ r2) ++ post) log
  = (Ok (resolved id (toUpperCase c1) r1 (toUpperCase c2) r2), log').
Proof.
  intros Hpart Hpre Hpost Hcased Hstop Hc Hid.
  set (span := pre ++ (c1 ++ r1 ++ ":" ++ c2 ++ r2) ++ post).
  assert (Hbang : any (is_char "!") span = false).
  { unfold span. rewrite !any_append, Hpre, Hpost.
    pose proof (written_corners_no_bang _ _ _ _ Hc) as H.
    rewrite !any_append in H. now rewrite H. }
  assert (Hne : span <> "").
  { unfold span. intros H. apply append_eq_nil in H as [_ H].
    apply append_eq_nil in H as [H _]. apply append_eq_nil in H as [H _].
    destruct Hc as ([Hc1 _] & _). congruence. }
  destruct (split_range part span "" Hpart Hbang (or_introl eq_refl))
    as [pieces Hsplit].
  rewrite append_nil_r in Hsplit.
  rewrite (parseA1ToGridRange_run _ _ _ _ _ _ _ Hsplit Hne), Hid.
  unfold span. now rewrite (search_span _ _ _ _ _ _ Hcased Hstop Hc).
Qed.

(** The same, within the exact range. *)
Lemma parseA1ToGridRange_embedded_exact (api : Sheets.Api)
    (spreadsheetId : string)
    (part pre c1 r1 c2 r2 post : string) (log log' : list Event) (id : Z) :
  any (is_char "!") part = false ->
  any (is_char "!") pre = false -> any (is_char "!") post = false ->
  any is_cased pre = false ->
  stops is_digit post = true -> written_corners c1 r1 c2 r2 ->
  within_exact_range (toUpperCase c2) r1 r2 ->
  getSheetIdByName api spreadsheetId (strip_quotes part) log = (Ok id, log') ->
  parseA1ToGridRange api spreadsheetId
    (part ++ "!" ++ pre ++ (c1 ++ r1 ++ ":" ++ c2 ++ r2) ++ post) log
  = (Ok (grid_of id (toUpperCase c1) r1 (toUpperCase c2) r2), log').
Proof.
  intros Hpart Hpre Hpost Hcased Hstop Hc Hexact Hid.
  rewrite (parseA1ToGridRange_embedded _ _ _ _ _ _ _ _ _ _ _ _
             Hpart Hpre Hpost Hcased Hstop Hc Hid).
  now rewrite (resolved_exact _ _ _ _ _ (written_corners_upper _ _ _ _ Hc)).
Qed.

(** ** C1 *)

(** C1: on [Name!A1:B2], the letters in either case, where the name part
    holds no '!' and names a sheet whose id the lookup resolves (wrapped in
    single quotes around a non-empty text without line breaks it names the
    sheet of that text, otherwise the sheet of its own text), and where
    both row numbers are at most [2^53] and the end column index is below
    [2^53], the resolver returns the Grid Range with that id, start row =
    first row number - 1, end row = second row number, start column = index
    of the first letters, end column = index of the second letters + 1, the
    letters read in upper case. *)
Theorem parseA1ToGridRange_well_formed (api : Sheets.Api)
    (spreadsheetId part sheet c1 r1 c2 r2 : string)
    (log log' : list Event) (id : Z) :
  any (is_char "!") part = false ->
  names_sheet part sheet ->
  written_corners c1 r1 c2 r2 ->
  within_exact_range (toUpperCase c2) r1 r2 ->
  getSheetIdByName api spreadsheetId sheet log = (Ok id, log') ->
  parseA1ToGridRange api spreadsheetId
    (part ++ "!" ++ c1 ++ r1 ++ ":" ++ c2 ++ r2) log
  = (Ok {| sheetId := id;
           startRowIndex := decimal r1 - 1;
           endRowIndex := decimal r2;
           startColumnIndex := columnLettersToIndex (toUpperCase c1);
           endColumnIndex := columnLettersToIndex (toUpperCase c2) + 1 |},
     log').
Proof.
  intros Hpart Hname Hc Hexact Hid.
  rewrite <- (strip_quotes_names _ _ Hname) in Hid.
  pose proof (parseA1ToGridRange_embedded_exact api spreadsheetId part ""
                c1 r1 c2 r2 "" log log' id Hpart eq_refl eq_refl eq_refl
                eq_refl Hc Hexact Hid) as H.
  simpl append in H. rewrite append_nil_r in H. exact H.
Qed.

Lemma not_wrapped_Sheet1 : ~ wrapped_in_quotes "Sheet1".
Proof. intros (inner & H & _). discriminate H. Qed.

(** "Sheet1!A1:B2" with "Sheet1" at id 0, "'My Sheet'!C3:C3", and
    "Sheet1!a1:b2" in small letters. *)
Lemma parseA1ToGridRange_examples :
  parseA1ToGridRange sample_sheets_api "sid" "Sheet1!A1:B2" []
  = (Ok {| sheetId := 0; startRowIndex := 0; endRowIndex := 2;
           startColumnIndex := 0; endColumnIndex := 2 |}, [metadata_fetch]) /\
  parseA1ToGridRange sample_sheets_api "sid" "'My Sheet'!C3:C3" []
  = (Ok {| sheetId := 7; startRowIndex := 2; endRowIndex := 3;
           startColumnIndex := 2; endColumnIndex := 3 |}, [metadata_fetch]) /\
  parseA1ToGridRange sample_sheets_api "sid" "Sheet1!a1:b2" []
  = (Ok {| sheetId := 0; startRowIndex := 0; endRowIndex := 2;
           startColumnIndex := 0; endColumnIndex := 2 |}, [metadata_fetch]).
Proof.
  split; [|split].
  - apply (parseA1ToGridRange_well_formed sample_sheets_api "sid"
             "Sheet1" "Sheet1" "A" "1" "B" "2" [] [metadata_fetch] 0);
      [reflexivity | apply names_bare, not_wrapped_Sheet1
      | written_tac | exact_tac | reflexivity].
  - apply (parseA1ToGridRange_well_formed sample_sheets_api "sid"
             "'My Sheet'" "My Sheet" "C" "3" "C" "3" [] [metadata_fetch] 7);
      [reflexivity
      | apply (names_quoted "My Sheet"); split; [discriminate | reflexivity]
      | written_tac | exact_tac | reflexivity].
  - apply (parseA1ToGridRange_well_formed sample_sheets_api "sid"
             "Sheet1" "Sheet1" "a" "1" "b" "2" [] [metadata_fetch] 0);
      [reflexivity | apply names_bare, not_wrapped_Sheet1
      | written_tac | exact_tac | reflexivity].
Defined.

(** Where the equations of C1 stop: the row number 9007199254740993 is
    [2^53 + 1], which no double holds, and the end row index comes out one
    less; the twelve-letter column ZZZZZZZZZZZZ has an index that no double
    above it follows by one, and the end column index comes out equal to
    it; and a name in single quotes with a line feed inside keeps its
    quotes, so that the tab of that name is not found. *)
Lemma parseA1ToGridRange_well_formed_limits :
  (decimal "9007199254740993" = 9007199254740993 /\
   parseA1ToGridRange sample_sheets_api "sid"
     "Sheet1!A1:B9007199254740993" []
   = (Ok {| sheetId := 0; startRowIndex := 0;
            endRowIndex := 9007199254740992;
            startColumnIndex := 0; endColumnIndex := 2 |},
      [metadata_fetch])) /\
  (exists g,
     parseA1ToGridRange sample_sheets_api "sid"
       "Sheet1!A1:ZZZZZZZZZZZZ2" [] = (Ok g, [metadata_fetch]) /\
     endColumnIndex g = columnLettersToIndex "ZZZZZZZZZZZZ" /\
     endColumnIndex g <> columnLettersToIndex "ZZZZZZZZZZZZ" + 1) /\
  (getSheetIdByName two_lines_sheets_api "sid" two_lines []
   = (Ok 3, [metadata_fetch]) /\
   parseA1ToGridRange two_lines_sheets_api "sid"
     ("'" ++ two_lines ++ "'" ++ "!A1:B2") []
   = (Throw (Error ("Sheet not found: '" ++ two_lines ++ "'")),
      [metadata_fetch])).
Proof.
  split; [split; vm_compute; reflexivity|]. split.
  - eexists. split; [vm_compute; reflexivity|].
    split; vm_compute; [reflexivity | discriminate].
  - split; vm_compute; reflexivity.
Qed.

(** ** C6 *)

(** C6: when both row numbers are at most [2^53] and the end column index
    is below [2^53], a span whose end corner lies before its start corner
    is neither reordered nor rejected: the resolver succeeds with the same
    index arithmetic as in C1, and the rectangle it returns is inverted. *)
Theorem parseA1ToGridRange_inverted (api : Sheets.Api)
    (spreadsheetId part sheet c1 r1 c2 r2 : string)
    (log log' : list Event) (id : Z) :
  any (is_char "!") part = false ->
  names_sheet part sheet ->
  written_corners c1 r1 c2 r2 ->
  within_exact_range (toUpperCase c2) r1 r2 ->
  getSheetIdByName api spreadsheetId sheet log = (Ok id, log') ->
  columnLettersToIndex (toUpperCase c2) < columnLettersToIndex (toUpperCase c1)
  \/ decimal r2 < decimal r1 ->
  exists g,
    parseA1ToGridRange api spreadsheetId
      (part ++ "!" ++ c1 ++ r1 ++ ":" ++ c2 ++ r2) log = (Ok g, log') /\
    g = grid_of id (toUpperCase c1) r1 (toUpperCase c2) r2 /\
    (endColumnIndex g <= startColumnIndex g \/
     endRowIndex g <= startRowIndex g).
Proof.
  intros Hpart Hname Hc Hexact Hid Hinv.
  rewrite <- (strip_quotes_names _ _ Hname) in Hid.
  pose proof (parseA1ToGridRange_embedded_exact api spreadsheetId part ""
                c1 r1 c2 r2 "" log log' id Hpart eq_refl eq_refl eq_refl
                eq_refl Hc Hexact Hid) as H.
  simpl append in H. rewrite append_nil_r in H.
  exists (grid_of id (toUpperCase c1) r1 (toUpperCase c2) r2).
  split; [exact H|]. split; [reflexivity|].
  simpl. lia.
Qed.

(** "Sheet1!B2:A1": every index is 1. *)
Lemma parseA1ToGridRange_inverted_example :
  exists g,
    parseA1ToGridRange sample_sheets_api "sid" "Sheet1!B2:A1" []
    = (Ok g, [metadata_fetch]) /\
    g = {| sheetId := 0; startRowIndex := 1; endRowIndex := 1;
           startColumnIndex := 1; endColumnIndex := 1 |} /\
    (endColumnIndex g <= startColumnIndex g \/
     endRowIndex g <= startRowIndex g).
Proof.
  apply (parseA1ToGridRange_inverted sample_sheets_api "sid"
           "Sheet1" "Sheet1" "B" "2" "A" "1" [] [metadata_fetch] 0);
    [reflexivity | apply names_bare, not_wrapped_Sheet1
    | written_tac | exact_tac | reflexivity | left; vm_compute; reflexivity].
Defined.

(** Beyond [2^53] an end corner before the start corner need not give an
    inverted rectangle: in "Sheet1!A9007199254740993:A9007199254740992" the
    end row is the smaller one, both rows are read as [2^53], and the
    rectangle that comes out holds one row and one column. *)
Lemma parseA1ToGridRange_inverted_limit :
  decimal "9007199254740992" < decimal "9007199254740993" /\
  exists g,
    parseA1ToGridRange sample_sheets_api "sid"
      "Sheet1!A9007199254740993:A9007199254740992" []
    = (Ok g, [metadata_fetch]) /\
    g = {| sheetId := 0; startRowIndex := 9007199254740991;
           endRowIndex := 9007199254740992;
           startColumnIndex := 0; endColumnIndex := 1 |} /\
    startRowIndex g <> decimal "9007199254740993" - 1 /\
    ~ (endColumnIndex g <= startColumnIndex g \/
       endRowIndex g <= startRowIndex g).
Proof.
  split; [vm_compute; reflexivity|].
  eexists. split; [vm_compute; reflexivity|].
  split; [reflexivity|]. split; [vm_compute; discriminate|].
  simpl. lia.
Qed.

(** ** C10 *)

(** Two runs of one class that end where the class ends are the same run. *)
Lemma run_prefix_unique (p : ascii -> bool) (a : string) :
  forall b x y,
    all p a = true -> all p b = true ->
    stops p x = true -> stops p y = true ->
    a ++ x = b ++ y -> a = b /\ x = y.
Proof.
  induction a as [|c a IH]; intros [|d b] x y Ha Hb Hx Hy Heq; simpl in *.
  - now split.
  - subst x. simpl in Hx. apply andb_true_iff in Hb as [Hd _].
    rewrite Hd in Hx. discriminate.
  - subst y. simpl in Hy. apply andb_true_iff in Ha as [Hc _].
    rewrite Hc in Hy. discriminate.
  - injection Heq as -> Heq.
    apply andb_true_iff in Ha as [_ Ha], Hb as [_ Hb].
    destruct (IH _ _ _ Ha Hb Hx Hy Heq) as [-> ->]. now split.
Qed.

(** A span with text before or after it is not itself a span. *)
Lemma not_span_embedded (pre c1 r1 c2 r2 post : string) :
  any is_upper pre = false -> stops is_digit post = true ->
  corners c1 r1 c2 r2 -> pre <> "" \/ post <> "" ->
  ~ is_span (pre ++ (c1 ++ r1 ++ ":" ++ c2 ++ r2) ++ post).
Proof.
  intros Hpre Hpost (H1 & H2 & H3 & H4) Hne
         (d1 & e1 & d2 & e2 & Heq & G1 & G2 & G3 & G4).
  destruct pre as [|c pre].
  - destruct Hne as [Hne | Hne]; [congruence|].
    simpl in Heq. rewrite !append_assoc in Heq.
    apply (run_prefix_unique is_upper) in Heq as [-> Heq];
      [ | apply H1 | apply G1
        | apply (run_of_stops is_digit is_upper);
            [exact digit_not_upper | exact H2]
        | apply (run_of_stops is_digit is_upper);
            [exact digit_not_upper | exact G2] ].
    apply (run_prefix_unique is_digit) in Heq as [-> Heq];
      [ | apply H2 | apply G2 | reflexivity | reflexivity ].
    simpl in Heq. injection Heq as Heq.
    rewrite append_assoc, <- (append_nil_r e2) in Heq.
    apply (run_prefix_unique is_upper) in Heq as [-> Heq];
      [ | apply H3 | apply G3
        | apply (run_of_stops is_digit is_upper);
            [exact digit_not_upper | exact H4]
        | apply (run_of_stops is_digit is_upper);
            [exact digit_not_upper | exact G4] ].
    apply (run_prefix_unique is_digit) in Heq as [_ Heq];
      [ | apply H4 | apply G4 | assumption | reflexivity ].
    congruence.
  - simpl in Hpre. apply orb_false_iff in Hpre as [Hc _].
    destruct G1 as [Gne Gall]. destruct d1 as [|d d1]; [congruence|].
    simpl in Heq, Gall. injection Heq as -> _.
    apply andb_true_iff in Gall as [Hd _]. congruence.
Qed.

Lemma toUpperCase_nil (s : string) : toUpperCase s = "" -> s = "".
Proof. destruct s as [|c s]; [reflexivity|]. each_char c. Qed.

Lemma no_letter_no_upper (s : string) :
  any is_cased s = false -> any is_upper (toUpperCase s) = false.
Proof.
  intros H. now rewrite (any_toUpperCase _ _ _ toUpperCase_unit_cased).
Qed.

(** C10: the span pattern is not anchored.  When the span part holds a
    span with other text before it (free of ASCII letters and of the sharp
    s) or after it (not beginning with a digit), the span part as a whole,
    in upper case, is not of the form letters-digits-colon-letters-digits,
    and yet, the sheet being resolved and the corners within the exact
    range, the resolver succeeds and decodes the embedded span. *)
Theorem parseA1ToGridRange_unanchored (api : Sheets.Api)
    (spreadsheetId part pre c1 r1 c2 r2 post : string)
    (log log' : list Event) (id : Z) :
  any (is_char "!") part = false ->
  any (is_char "!") pre = false -> any (is_char "!") post = false ->
  any is_cased pre = false ->
  stops is_digit post = true ->
  written_corners c1 r1 c2 r2 ->
  within_exact_range (toUpperCase c2) r1 r2 ->
  pre <> "" \/ post <> "" ->
  getSheetIdByName api spreadsheetId (strip_quotes part) log = (Ok id, log') ->
  ~ is_span (toUpperCase (pre ++ (c1 ++ r1 ++ ":" ++ c2 ++ r2) ++ post)) /\
  parseA1ToGridRange api spreadsheetId
    (part ++ "!" ++ pre ++ (c1 ++ r1 ++ ":" ++ c2 ++ r2) ++ post) log
  = (Ok (grid_of id (toUpperCase c1) r1 (toUpperCase c2) r2), log').
Proof.
  intros Hpart Hpre Hpost Hcased Hstop Hc Hexact Hne Hid. split.
  - rewrite (toUpperCase_append pre),
      (toUpperCase_append (c1 ++ r1 ++ ":" ++ c2 ++ r2) post),
      (toUpperCase_span _ _ _ _ Hc).
    apply not_span_embedded.
    + now apply no_letter_no_upper.
    + now rewrite stops_toUpperCase_digit.
    + now apply written_corners_upper.
    + destruct Hne as [H | H]; [left | right];
        intros E; apply H; now apply toUpperCase_nil.
  - now apply parseA1ToGridRange_embedded_exact.
Qed.

(** "Sheet1!A1:B2:C3" and "Sheet1!-A1:B2-" both resolve to the rectangle
    of A1:B2. *)
Lemma parseA1ToGridRange_unanchored_examples :
  (~ is_span (toUpperCase "A1:B2:C3") /\
   parseA1ToGridRange sample_sheets_api "sid" "Sheet1!A1:B2:C3" []
   = (Ok {| sheetId := 0; startRowIndex := 0; endRowIndex := 2;
            startColumnIndex := 0; endColumnIndex := 2 |}, [metadata_fetch])) /\
  (~ is_span (toUpperCase "-A1:B2-") /\
   parseA1ToGridRange sample_sheets_api "sid" "Sheet1!-A1:B2-" []
   = (Ok {| sheetId := 0; startRowIndex := 0; endRowIndex := 2;
            startColumnIndex := 0; endColumnIndex := 2 |}, [metadata_fetch])).
Proof.
  split.
  - apply (parseA1ToGridRange_unanchored sample_sheets_api "sid"
             "Sheet1" "" "A" "1" "B" "2" ":C3" [] [metadata_fetch] 0);
      [reflexivity | reflexivity | reflexivity | reflexivity | reflexivity
      | written_tac | exact_tac | right; discriminate | reflexivity].
  - apply (parseA1ToGridRange_unanchored sample_sheets_api "sid"
             "Sheet1" "-" "A" "1" "B" "2" "-" [] [metadata_fetch] 0);
      [reflexivity | reflexivity | reflexivity | reflexivity | reflexivity
      | written_tac | exact_tac | left; discriminate | reflexivity].
Defined.

(** ** C3 *)

Lemma span_assoc (c1 r1 c2 r2 rest : string) :
  (c1 ++ r1 ++ ":" ++ c2 ++ r2) ++ rest = c1 ++ r1 ++ ":" ++ c2 ++ r2 ++ rest.
Proof. now rewrite !append_assoc. Qed.

(** The span pattern found something only if a span is there. *)
Lemma search_span_sound (s : string) (caps : list string) :
  search span_re false s = Some caps ->
  exists pre c1 r1 c2 r2 rest,
    caps = [c1; r1; c2; r2] /\ corners c1 r1 c2 r2 /\
    s = pre ++ (c1 ++ r1 ++ ":" ++ c2 ++ r2) ++ rest.
Proof.
  intros H. apply search_sound in H as (pre & suffix & -> & He).
  apply exec_sound in He as (rest & HM & _).
  apply span_re_matches in HM as (c1 & r1 & c2 & r2 & -> & -> & Hc).
  exists pre, c1, r1, c2, r2, rest. now rewrite span_assoc.
Qed.

(** The captures handed to [parseInt] and [columnLettersToIndex] are runs
    of digits and of letters. *)
Lemma span_captures_shape (s : string) (caps : list string) :
  search span_re false s = Some caps ->
  exists c1 r1 c2 r2, caps = [c1; r1; c2; r2] /\ corners c1 r1 c2 r2.
Proof.
  intros H. apply search_span_sound in H
    as (pre & c1 & r1 & c2 & r2 & rest & -> & Hc & _).
  now exists c1, r1, c2, r2.
Qed.

Lemma contains_span_needs (s : string) :
  contains_span s ->
  any (is_char ":") s = true /\ any is_digit s = true /\ any is_upper s = true.
Proof.
  intros (pre & mid & post & -> & c1 & r1 & c2 & r2 & -> & H1 & H2 & H3 & H4).
  rewrite !any_append, (any_of_run _ _ H1), (any_of_run _ _ H2).
  simpl. rewrite !orb_true_r. auto.
Qed.

(** A span part without a colon, without a digit, or with no letter of A-Z
    in its upper case, holds no span in upper case. *)
Lemma open_ended_no_span (span : string) :
  any (is_char ":") span = false \/ any is_digit span = false \/
  any is_upper (toUpperCase span) = false ->
  ~ contains_span (toUpperCase span).
Proof.
  intros Hopen Hspan.
  apply contains_span_needs in Hspan as (Hcolon & Hdigit & Hupper).
  rewrite (any_toUpperCase _ _ _ toUpperCase_unit_has_colon) in Hcolon.
  rewrite (any_toUpperCase _ _ _ toUpperCase_unit_has_digit) in Hdigit.
  destruct Hopen as [H | [H | H]]; congruence.
Qed.

(** The upper case of a text holds a letter of A-Z exactly when the text
    holds an ASCII letter or the sharp s. *)
Lemma toUpperCase_has_upper (s : string) :
  any is_upper (toUpperCase s) = any is_cased s.
Proof. exact (any_toUpperCase _ _ _ toUpperCase_unit_cased). Qed.

(** An empty span part, at the end or before a second '!', is reported as
    a missing sheet name, before any lookup. *)
Lemma parseA1ToGridRange_empty_span (api : Sheets.Api)
    (spreadsheetId part tail : string) (log : list Event) :
  any (is_char "!") part = false -> at_separator "!" tail ->
  parseA1ToGridRange api spreadsheetId (part ++ "!" ++ tail) log
  = (Throw (Error no_sheet_name_message), log).
Proof.
  intros Hpart Htail.
  destruct (split_range part "" tail Hpart eq_refl Htail) as [pieces Hsplit].
  simpl append in Hsplit. unfold parseA1ToGridRange.
  change (part ++ "!" ++ tail) with (part ++ String "!" tail).
  now rewrite Hsplit.
Qed.

(** A failure of the lookup is the failure of the resolver, whatever the
    span part holds. *)
Lemma parseA1ToGridRange_lookup_failure (api : Sheets.Api)
    (spreadsheetId part span tail : string) (log log' : list Event)
    (e : Thrown) :
  any (is_char "!") part = false -> any (is_char "!") span = false ->
  at_separator "!" tail -> span <> "" ->
  getSheetIdByName api spreadsheetId (strip_quotes part) log = (Throw e, log') ->
  parseA1ToGridRange api spreadsheetId (part ++ "!" ++ span ++ tail) log
  = (Throw e, log').
Proof.
  intros Hpart Hspan Htail Hne Hid.
  destruct (split_range part span tail Hpart Hspan Htail) as [pieces Hsplit].
  now rewrite (parseA1ToGridRange_run _ _ _ _ _ _ _ Hsplit Hne), Hid.
Qed.

(** Whatever follows a second '!', a span part that holds no span is
    rejected by the pattern once the lookup has succeeded. *)
Lemma parseA1ToGridRange_pattern_failure (api : Sheets.Api)
    (spreadsheetId part span tail : string) (log log' : list Event) (id : Z) :
  any (is_char "!") part = false -> any (is_char "!") span = false ->
  at_separator "!" tail -> span <> "" ->
  getSheetIdByName api spreadsheetId (strip_quotes part) log = (Ok id, log') ->
  ~ contains_span (toUpperCase span) ->
  parseA1ToGridRange api spreadsheetId (part ++ "!" ++ span ++ tail) log
  = (Throw (Error "range must be like A1:B2"), log').
Proof.
  intros Hpart Hspan Htail Hne Hid Hno.
  destruct (split_range part span tail Hpart Hspan Htail) as [pieces Hsplit].
  rewrite (parseA1ToGridRange_run _ _ _ _ _ _ _ Hsplit Hne), Hid.
  destruct (search span_re false (toUpperCase span)) as [caps|] eqn:Hs.
  - exfalso. apply Hno.
    apply search_span_sound in Hs
      as (pre & c1 & r1 & c2 & r2 & rest & _ & Hc & Heq).
    exists pre, (c1 ++ r1 ++ ":" ++ c2 ++ r2), rest. split; [exact Heq|].
    exists c1, r1, c2, r2. split; [reflexivity | exact Hc].
  - reflexivity.
Qed.

(** C3 (as the code has it).  The text before the first '!' is the sheet
    part; the text between the first '!' and the next one, or the end, is
    the span part; whatever follows a second '!' is dropped.  Without any
    '!', and also with an empty span part, the resolver fails with the
    "range must include sheet name" message before any lookup.  With a span
    part that is not empty the sheet is looked up first, and a failure of
    the lookup is the failure of the resolver.  Once the lookup has
    succeeded, the resolver fails with "range must be like A1:B2" whenever
    the span part in upper case holds no span.  A span part without a
    digit (A:A), without a colon (A1), or whose upper case holds no letter
    of A-Z (1:5), holds none. *)
Theorem parseA1ToGridRange_malformed (api : Sheets.Api)
    (spreadsheetId : string) (log : list Event) :
  (forall a1Range,
      any (is_char "!") a1Range = false ->
      parseA1ToGridRange api spreadsheetId a1Range log
      = (Throw (Error no_sheet_name_message), log)) /\
  (forall part tail,
      any (is_char "!") part = false -> at_separator "!" tail ->
      parseA1ToGridRange api spreadsheetId (part ++ "!" ++ tail) log
      = (Throw (Error no_sheet_name_message), log)) /\
  (forall part span tail e log',
      any (is_char "!") part = false -> any (is_char "!") span = false ->
      at_separator "!" tail -> span <> "" ->
      getSheetIdByName api spreadsheetId (strip_quotes part) log
      = (Throw e, log') ->
      parseA1ToGridRange api spreadsheetId (part ++ "!" ++ span ++ tail) log
      = (Throw e, log')) /\
  (forall part span tail id log',
      any (is_char "!") part = false -> any (is_char "!") span = false ->
      at_separator "!" tail -> span <> "" ->
      getSheetIdByName api spreadsheetId (strip_quotes part) log
      = (Ok id, log') ->
      ~ contains_span (toUpperCase span) ->
      parseA1ToGridRange api spreadsheetId (part ++ "!" ++ span ++ tail) log
      = (Throw (Error "range must be like A1:B2"), log')) /\
  (forall span,
      any (is_char ":") span = false \/ any is_digit span = false \/
      any is_upper (toUpperCase span) = false ->
      ~ contains_span (toUpperCase span)).
Proof.
  split; [|split; [|split; [|split]]].
  - intros a1Range Hbang. unfold parseA1ToGridRange.
    now rewrite (split_no_separator _ _ Hbang).
  - intros part tail. apply parseA1ToGridRange_empty_span.
  - intros part span tail e log'. apply parseA1ToGridRange_lookup_failure.
  - intros part span tail id log'. apply parseA1ToGridRange_pattern_failure.
  - exact open_ended_no_span.
Qed.

(** "A1:B2" has no sheet name and "Sheet1!" no span part; on "Nope!A1:B2"
    the lookup fails; "Sheet1!A:A", "Sheet1!1:5" and "Sheet1!A1" are
    rejected by the pattern once "Sheet1" has been looked up, and so is
    "Sheet1!A:A!B1:C2", whose second '!' ends the span part. *)
Lemma parseA1ToGridRange_malformed_examples :
  parseA1ToGridRange sample_sheets_api "sid" "A1:B2" []
  = (Throw (Error no_sheet_name_message), []) /\
  parseA1ToGridRange sample_sheets_api "sid" "Sheet1!" []
  = (Throw (Error no_sheet_name_message), []) /\
  parseA1ToGridRange sample_sheets_api "sid" "Nope!A1:B2" []
  = (Throw (Error "Sheet not found: Nope"), [metadata_fetch]) /\
  parseA1ToGridRange sample_sheets_api "sid" "Sheet1!A:A" []
  = (Throw (Error "range must be like A1:B2"), [metadata_fetch]) /\
  parseA1ToGridRange sample_sheets_api "sid" "Sheet1!1:5" []
  = (Throw (Error "range must be like A1:B2"), [metadata_fetch]) /\
  parseA1ToGridRange sample_sheets_api "sid" "Sheet1!A1" []
  = (Throw (Error "range must be like A1:B2"), [metadata_fetch]) /\
  parseA1ToGridRange sample_sheets_api "sid" "Sheet1!A:A!B1:C2" []
  = (Throw (Error "range must be like A1:B2"), [metadata_fetch]).
Proof.
  destruct (parseA1ToGridRange_malformed sample_sheets_api "sid" [])
    as (Hbang & Hempty & Hlookup & Hpattern & Hopen).
  split; [|split; [|split; [|split; [|split; [|split]]]]].
  - apply (Hbang "A1:B2"). reflexivity.
  - apply (Hempty "Sheet1" ""); [reflexivity | now left].
  - apply (Hlookup "Nope" "A1:B2" "" (Error "Sheet not found: Nope")
             [metadata_fetch]);
      [reflexivity | reflexivity | now left | discriminate | reflexivity].
  - apply (Hpattern "Sheet1" "A:A" "" 0 [metadata_fetch]);
      [reflexivity | reflexivity | now left | discriminate | reflexivity
      | apply Hopen; right; left; reflexivity].
  - apply (Hpattern "Sheet1" "1:5" "" 0 [metadata_fetch]);
      [reflexivity | reflexivity | now left | discriminate | reflexivity
      | apply Hopen; right; right; reflexivity].
  - apply (Hpattern "Sheet1" "A1" "" 0 [metadata_fetch]);
      [reflexivity | reflexivity | now left | discriminate | reflexivity
      | apply Hopen; left; reflexivity].
  - apply (Hpattern "Sheet1" "A:A" "!B1:C2" 0 [metadata_fetch]);
      [reflexivity | reflexivity | right; now exists "B1:C2" | discriminate
      | reflexivity | apply Hopen; right; left; reflexivity].
Defined.

(** The lookup runs before the pattern check: on "Nope!A:A", with no tab
    called "Nope", the failure is the lookup's, and on "Sheet1!" it is the
    missing-sheet-name failure, although neither span part matches the
    pattern. *)
Lemma parseA1ToGridRange_pattern_failure_not_first :
  ~ contains_span (toUpperCase "A:A") /\
  parseA1ToGridRange sample_sheets_api "sid" "Nope!A:A" []
  = (Throw (Error "Sheet not found: Nope"), [metadata_fetch]) /\
  ~ contains_span (toUpperCase "") /\
  parseA1ToGridRange sample_sheets_api "sid" "Sheet1!" []
  = (Throw (Error no_sheet_name_message), []) /\
  ~ (forall a1Range part span,
        split_first "!" a1Range = Some (part, span) ->
        ~ contains_span (toUpperCase span) ->
        fst (parseA1ToGridRange sample_sheets_api "sid" a1Range [])
        = Throw (Error "range must be like A1:B2")).
Proof.
  split; [apply open_ended_no_span; right; left; reflexivity|].
  split; [reflexivity|].
  split; [apply open_ended_no_span; left; reflexivity|].
  split; [reflexivity|].
  intros H.
  specialize (H "Nope!A:A" "Nope" "A:A" eq_refl
                (open_ended_no_span "A:A" (or_intror (or_introl eq_refl)))).
  discriminate H.
Qed.

(* ================================================================== *)
(** * Credential extraction *)
(* ================================================================== *)

Lemma is_char_ci_spec (x c : ascii) :
  is_char_ci x c = true -> canonicalize c = canonicalize x.
Proof. unfold is_char_ci. now intros H%Ascii.eqb_eq. Qed.

Lemma is_char_ci_intro (x c : ascii) :
  canonicalize c = canonicalize x -> is_char_ci x c = true.
Proof. unfold is_char_ci. intros ->. apply Ascii.eqb_refl. Qed.

(** What a match of [/^Bearer\s+(.+)$/i] looks like. *)
Lemma bearer_re_matches (s : string) (caps : list string) :
  Matches bearer_re s caps "" ->
  exists scheme ws token,
    caps = [token] /\ s = scheme ++ ws ++ token /\
    toUpperCase scheme = "BEARER" /\
    run_of is_space ws /\ run_of is_dot token.
Proof.
  simpl.
  intros (b1 & s1 & -> & B1 & b2 & s2 & -> & B2 & b3 & s3 & -> & B3 &
          b4 & s4 & -> & B4 & b5 & s5 & -> & B5 & b6 & s6 & -> & B6 &
          ws & s7 & -> & Nws & Aws &
          token & s8 & caps' & -> & Ntok & Atok & -> & -> & Hend).
  subst s8.
  apply is_char_ci_spec in B1, B2, B3, B4, B5, B6.
  exists (String b1 (String b2 (String b3 (String b4 (String b5 (String b6 "")))))),
    ws, token.
  rewrite append_nil_r. unfold run_of.
  repeat split; try assumption.
  apply fold_toUpperCase; [reflexivity|].
  simpl. now rewrite B1, B2, B3, B4, B5, B6.
Qed.

Lemma bearer_shape_matches (scheme ws token : string) :
  toUpperCase scheme = "BEARER" -> run_of is_space ws -> run_of is_dot token ->
  Matches bearer_re (scheme ++ ws ++ token) [token] "".
Proof.
  intros Hscheme [Nws Aws] [Ntok Atok].
  apply (toUpperCase_fold "BEARER" eq_refl) in Hscheme.
  destruct scheme as [|b1 [|b2 [|b3 [|b4 [|b5 [|b6 [|b7 scheme]]]]]]];
    try discriminate Hscheme.
  simpl in Hscheme.
  injection Hscheme as H1 H2 H3 H4 H5 H6.
  simpl.
  exists b1, (String b2 (String b3 (String b4 (String b5 (String b6 (ws ++ token)))))).
  split; [reflexivity|]. split; [now apply is_char_ci_intro|].
  exists b2, (String b3 (String b4 (String b5 (String b6 (ws ++ token))))).
  split; [reflexivity|]. split; [now apply is_char_ci_intro|].
  exists b3, (String b4 (String b5 (String b6 (ws ++ token)))).
  split; [reflexivity|]. split; [now apply is_char_ci_intro|].
  exists b4, (String b5 (String b6 (ws ++ token))).
  split; [reflexivity|]. split; [now apply is_char_ci_intro|].
  exists b5, (String b6 (ws ++ token)).
  split; [reflexivity|]. split; [now apply is_char_ci_intro|].
  exists b6, (ws ++ token).
  split; [reflexivity|]. split; [now apply is_char_ci_intro|].
  exists ws, token. repeat split; try assumption.
  exists token, "", []. rewrite append_nil_r. repeat split; assumption.
Qed.

(** Both spellings of the header name reach the same header. *)
Lemma getBearerToken_header (req : Request) :
  getBearerToken req
  = match req_get req "Authorization" with
    | None | Some EmptyString => Throw (Error "Missing Authorization header")
    | Some header =>
        match exec bearer_re true header with
        | Some (token :: _) => Ok token
        | _ => Throw (Error "Invalid Authorization header format")
        end
    end.
Proof.
  unfold getBearerToken.
  change (req_get req "authorization") with (req_get req "Authorization").
  destruct (req_get req "Authorization") as [[|c h]|]; reflexivity.
Qed.

Lemma exec_bearer_token (scheme ws token : string) :
  toUpperCase scheme = "BEARER" -> run_of is_space ws -> run_of is_dot token ->
  stops is_space token = true ->
  exec bearer_re true (scheme ++ ws ++ token) = Some [token].
Proof.
  intros Hscheme Hws Htok Hstop.
  apply (toUpperCase_fold "BEARER" eq_refl) in Hscheme.
  destruct scheme as [|b1 [|b2 [|b3 [|b4 [|b5 [|b6 [|b7 scheme]]]]]]];
    try discriminate Hscheme.
  simpl in Hscheme.
  injection Hscheme as H1 H2 H3 H4 H5 H6.
  unfold bearer_re. simpl append.
  rewrite !exec_chr
    by (apply is_char_ci_intro;
        first [exact H1 | exact H2 | exact H3 | exact H4 | exact H5 | exact H6]).
  apply exec_plus; [assumption | assumption |].
  rewrite <- (append_nil_r token) at 1.
  now apply exec_group.
Qed.

(** C7 (as the code has it): credential extraction fails with "Missing
    Authorization header" when the request carries no authorization header
    or an empty one; it fails with "Invalid Authorization header format"
    when the header is not empty and not of the shape [Bearer <token>];
    otherwise it returns the token portion of the header, which is the
    text after the white space whenever that text does not itself begin
    with white space. *)
Theorem getBearerToken_cases (req : Request) :
  (req_get req "Authorization" = None \/
   req_get req "Authorization" = Some "" ->
   getBearerToken req = Throw (Error "Missing Authorization header")) /\
  (forall header,
      req_get req "Authorization" = Some header -> header <> "" ->
      ~ bearer_shape header ->
      getBearerToken req
      = Throw (Error "Invalid Authorization header format")) /\
  (forall header,
      req_get req "Authorization" = Some header -> bearer_shape header ->
      exists scheme ws token,
        header = scheme ++ ws ++ token /\ toUpperCase scheme = "BEARER" /\
        run_of is_space ws /\ run_of is_dot token /\
        getBearerToken req = Ok token) /\
  (forall scheme ws token,
      req_get req "Authorization" = Some (scheme ++ ws ++ token) ->
      toUpperCase scheme = "BEARER" -> run_of is_space ws ->
      run_of is_dot token -> stops is_space token = true ->
      getBearerToken req = Ok token).
Proof.
  rewrite getBearerToken_header. split; [|split; [|split]].
  - intros [-> | ->]; reflexivity.
  - intros header -> Hne Hshape.
    destruct header as [|c h]; [congruence|].
    destruct (exec bearer_re true (String c h)) as [caps|] eqn:He;
      [|reflexivity].
    exfalso. apply Hshape.
    apply exec_sound in He as (rest & HM & Hend).
    rewrite (Hend eq_refl) in HM.
    apply bearer_re_matches in HM as (scheme & ws & token & _ & H & H').
    now exists scheme, ws, token.
  - intros header -> (scheme & ws & token & Heq & Hscheme & Hws & Htok).
    pose proof (exec_complete bearer_re true _ _ _
                  (bearer_shape_matches _ _ _ Hscheme Hws Htok)
                  (fun _ => eq_refl)) as Hsome.
    rewrite <- Heq in Hsome.
    destruct (exec bearer_re true header) as [caps|] eqn:He; [|congruence].
    apply exec_sound in He as (rest & HM & Hend).
    rewrite (Hend eq_refl) in HM.
    apply bearer_re_matches in HM
      as (scheme' & ws' & token' & -> & Heq' & Hscheme' & Hws' & Htok').
    exists scheme', ws', token'.
    destruct header as [|c h].
    + symmetry in Heq'. apply append_eq_nil in Heq' as [-> _]. discriminate.
    + repeat split; try assumption; first [apply Hws' | apply Htok'].
  - intros scheme ws token -> Hscheme Hws Htok Hstop.
    rewrite (exec_bearer_token _ _ _ Hscheme Hws Htok Hstop).
    destruct scheme; [discriminate Hscheme | reflexivity].
Qed.

(** No header and an empty header are "missing", "Basic abc" is
    "invalid", and "bearer   x y" yields the token "x y". *)
Lemma getBearerToken_examples :
  getBearerToken (sample_request None None JNull)
  = Throw (Error "Missing Authorization header") /\
  getBearerToken (sample_request (Some "Basic abc") None JNull)
  = Throw (Error "Invalid Authorization header format") /\
  getBearerToken (sample_request (Some "bearer   x y") None JNull)
  = Ok "x y".
Proof.
  split; [|split].
  - apply (getBearerToken_cases (sample_request None None JNull)).
    left. reflexivity.
  - apply (getBearerToken_cases (sample_request (Some "Basic abc") None JNull)
             ) with (header := "Basic abc"); [reflexivity | discriminate |].
    intros (scheme & ws & token & Heq & Hscheme & _).
    apply (toUpperCase_fold "BEARER" eq_refl) in Hscheme.
    destruct scheme as [|b1 [|b2 [|b3 [|b4 [|b5 [|b6 [|b7 scheme]]]]]]];
      try discriminate Hscheme.
    simpl in Heq. injection Heq as <- <- <- <- <- <- _.
    discriminate Hscheme.
  - apply (proj2 (proj2 (proj2 (getBearerToken_cases
             (sample_request (Some "bearer   x y") None JNull))))
             "bearer" "   " "x y");
      [reflexivity | reflexivity | split; [discriminate | reflexivity]
      | split; [discriminate | reflexivity] | reflexivity].
Defined.

(** An empty authorization header is present and is not of the shape
    [Bearer <token>], yet the failure is the "missing" one. *)
Lemma getBearerToken_empty_header_is_missing :
  req_get (sample_request (Some "") None JNull) "Authorization" = Some "" /\
  ~ bearer_shape "" /\
  getBearerToken (sample_request (Some "") None JNull)
  = Throw (Error "Missing Authorization header") /\
  getBearerToken (sample_request (Some "") None JNull)
  <> Throw (Error "Invalid Authorization header format").
Proof.
  split; [reflexivity|]. split; [|split; [reflexivity | discriminate]].
  intros (scheme & ws & token & Heq & Hscheme & _).
  symmetry in Heq. apply append_eq_nil in Heq as [-> _]. discriminate Hscheme.
Qed.

(* ================================================================== *)
(** * The upload handler and the dispatch route *)
(* ================================================================== *)

Lemma assoc_absent {A : Type} (k : string) (l : list (string * A)) :
  ~ In k (map fst l) -> assoc k l = None.
Proof.
  induction l as [|[k' v] l IH]; simpl; intros H; [reflexivity|].
  destruct (String.eqb k k') eqn:E.
  - apply String.eqb_eq in E. exfalso. apply H. left. now symmetry.
  - apply IH. intros Hin. apply H. now right.
Qed.

Lemma existsb_absent (k : string) (l : list string) :
  ~ In k l -> existsb (String.eqb k) l = false.
Proof.
  induction l as [|x l IH]; simpl; intros H; [reflexivity|].
  destruct (String.eqb k x) eqn:E.
  - apply String.eqb_eq in E. exfalso. apply H. left. now symmetry.
  - apply IH. intros Hin. apply H. now right.
Qed.

Section ServerFacts.

Variable Buffer : Type.
Variable Buffer_from_base64 : JValue -> Result Buffer.
Variable Buffer_length : Buffer -> Z.
Variable google_sheets : OAuth2 -> Sheets.Api.
Variable google_drive : OAuth2 -> Drive.Api Buffer.
Variable other_handler : string -> Handler Buffer.
Variable inherited_member : string -> Handler Buffer.

Local Abbreviation upload :=
  (drive_upload_file Buffer Buffer_from_base64 Buffer_length).
Local Abbreviation registry :=
  (toolHandlers Buffer Buffer_from_base64 Buffer_length other_handler).
Local Abbreviation route :=
  (mcp_tool Buffer Buffer_from_base64 Buffer_length google_sheets
     google_drive other_handler inherited_member).

(** The clients that [getGoogleClients] builds around a token. *)
Local Abbreviation clients_for token :=
  {| oauth2 := {| access_token := token |};
     sheets := google_sheets {| access_token := token |};
     drive := google_drive {| access_token := token |} |}.

(** C8: when the decoded payload is longer than 10 * 1024 * 1024 bytes,
    the upload handler throws "File too large" and the log is as it was:
    no request has been sent to the service. *)
Theorem drive_upload_file_too_large (args : JValue) (clients : Clients Buffer)
    (log : list Event) (buffer : Buffer) :
  Buffer_from_base64 (get_prop args "data") = Ok buffer ->
  10 * 1024 * 1024 < Buffer_length buffer ->
  upload args clients log
  = (Throw (Error "File too large: max 10MB base64 payload supported"), log).
Proof.
  intros Hdecode Hlarge. unfold drive_upload_file, bind, lift.
  rewrite Hdecode.
  apply Z.ltb_lt in Hlarge. now rewrite Hlarge.
Qed.

(** Up to the limit the buffer is sent: one request, [drive.files.create]. *)
Lemma drive_upload_file_within_limit (args : JValue)
    (clients : Clients Buffer) (log : list Event) (buffer : Buffer) :
  Buffer_from_base64 (get_prop args "data") = Ok buffer ->
  Buffer_length buffer <= 10 * 1024 * 1024 ->
  snd (upload args clients log)
  = (log ++ [ExternalCall "drive.files.create"])%list.
Proof.
  intros Hdecode Hsmall. unfold drive_upload_file, bind, lift, await.
  rewrite Hdecode.
  apply Z.ltb_ge in Hsmall. rewrite Hsmall.
  destruct (Drive.files_create _ _); reflexivity.
Qed.

Lemma getGoogleClients_run (req : Request) (log : list Event) :
  getGoogleClients Buffer google_sheets google_drive req log
  = match getBearerToken req with
    | Ok token => (Ok (clients_for token),
                   (log ++ [ClientsCreated token])%list)
    | Throw e => (Throw e, log)
    end.
Proof.
  unfold getGoogleClients, bind, lift, tell, ret.
  destruct (getBearerToken req); reflexivity.
Qed.

(** C9 (as the code has it).  A tool name that is not empty, not a key
    of the registry and not the name of a member inherited from
    [Object.prototype] gets the 404 "Unknown tool" response, and the log
    is as it was: no handler invoked, no clients built, no request sent.
    A missing or empty tool name gets the 400 "Missing tool name"
    response, the log equally untouched.  For a registered name whose
    request carries a usable bearer token, the handler runs with the
    arguments (or an empty object when they are falsy) and the clients
    built around the token; its result is returned as it is, and a thrown
    value becomes a 400 response with the error's message ("Unknown
    error" when there is no non-empty message).  When the token cannot
    be extracted, the response is the 400 one and no handler runs. *)
Theorem mcp_tool_dispatch (req : Request) (log : list Event) :
  let tool := match body req with Some b => name b | None => None end in
  let arguments := match body req with
                   | Some b => js_or (args b) (JObj [])
                   | None => JObj []
                   end in
  (forall n,
      tool = Some n -> n <> "" ->
      ~ In n (map fst registry) -> ~ In n object_prototype_keys ->
      route req log
      = (Ok {| statusCode := 404;
               json := error_payload ("Unknown tool: " ++ n) |}, log)) /\
  (tool = None \/ tool = Some "" ->
   route req log
   = (Ok {| statusCode := 400; json := error_payload "Missing tool name" |},
      log)) /\
  (forall n handler token,
      tool = Some n -> assoc n registry = Some handler ->
      getBearerToken req = Ok token ->
      route req log
      = match handler arguments (clients_for token)
                (log ++ [ClientsCreated token; HandlerInvoked n])%list with
        | (Ok result, log') =>
            (Ok {| statusCode := 200; json := result |}, log')
        | (Throw err, log') =>
            (Ok {| statusCode := 400;
                   json := error_payload (error_message err) |}, log')
        end) /\
  (forall n handler err,
      tool = Some n -> assoc n registry = Some handler ->
      getBearerToken req = Throw err ->
      route req log
      = (Ok {| statusCode := 400;
               json := error_payload (error_message err) |}, log)) /\
  (forall message, message <> "" -> error_message (Error message) = message).
Proof.
  intros tool arguments. subst tool arguments.
  unfold mcp_tool, try_catch.
  split; [|split; [|split; [|split]]].
  - intros n Hn Hne Hreg Hproto.
    destruct (body req) as [b|]; [|discriminate]. rewrite Hn.
    destruct n as [|c n]; [congruence|].
    unfold toolHandlers_get.
    rewrite (assoc_absent _ _ Hreg), (existsb_absent _ _ Hproto).
    reflexivity.
  - intros [H | H].
    + destruct (body req) as [b|]; [rewrite H|]; reflexivity.
    + destruct (body req) as [b|]; [rewrite H; reflexivity | discriminate].
  - intros n handler token Hn Hreg Htok.
    destruct (body req) as [b|]; [|discriminate]. rewrite Hn.
    destruct n as [|c n]; [discriminate Hreg|].
    unfold toolHandlers_get. rewrite Hreg.
    unfold bind at 1. rewrite getGoogleClients_run, Htok.
    unfold bind, tell, ret. rewrite <- app_assoc. simpl app.
    destruct (handler _ _ _) as [[result|err] log']; reflexivity.
  - intros n handler err Hn Hreg Htok.
    destruct (body req) as [b|]; [|discriminate]. rewrite Hn.
    destruct n as [|c n]; [discriminate Hreg|].
    unfold toolHandlers_get. rewrite Hreg.
    unfold bind at 1. rewrite getGoogleClients_run, Htok. reflexivity.
  - intros [|c m] H; [congruence | reflexivity].
Qed.

End ServerFacts.

(** A payload of 10485761 bytes, one more than the limit. *)
Lemma drive_upload_file_too_large_example :
  10 * 1024 * 1024 < 10485761 /\
  drive_upload_file Z sample_decode (fun n => n)
    (JObj [("name", JStr "a.bin"); ("data", JNum 10485761)]) sample_clients []
  = (Throw (Error "File too large: max 10MB base64 payload supported"), []).
Proof.
  split; [lia|].
  apply (drive_upload_file_too_large Z sample_decode (fun n => n)
           (JObj [("name", JStr "a.bin"); ("data", JNum 10485761)])
           sample_clients [] 10485761); [reflexivity | lia].
Defined.

(** An unregistered name, a request without a name, a registered tool with
    a token, and a registered tool without an authorization header. *)
Lemma mcp_tool_dispatch_examples :
  sample_mcp_tool (sample_request (Some "Bearer t") (Some "nope") JNull) []
  = (Ok {| statusCode := 404; json := error_payload "Unknown tool: nope" |},
     []) /\
  sample_mcp_tool (sample_request (Some "Bearer t") None JNull) []
  = (Ok {| statusCode := 400; json := error_payload "Missing tool name" |},
     []) /\
  sample_mcp_tool
    (sample_request (Some "Bearer t") (Some "sheets.get_info")
       (JObj [("spreadsheetId", JStr "sid")])) []
  = (Ok {| statusCode := 200; json := JObj [("spreadsheetId", JStr "sid")] |},
     [ClientsCreated "t"; HandlerInvoked "sheets.get_info";
      ExternalCall "sheets.get_info"]) /\
  sample_mcp_tool (sample_request None (Some "drive_upload_file") JNull) []
  = (Ok {| statusCode := 400;
           json := error_payload "Missing Authorization header" |}, []).
Proof.
  split; [|split; [|split]].
  - apply (mcp_tool_dispatch Z sample_decode (fun n => n)
             (fun _ => sample_sheets_api) (fun _ => sample_drive_api)
             sample_handler sample_inherited
             (sample_request (Some "Bearer t") (Some "nope") JNull) []);
      [reflexivity | discriminate | not_in_tac | not_in_tac].
  - apply (mcp_tool_dispatch Z sample_decode (fun n => n)
             (fun _ => sample_sheets_api) (fun _ => sample_drive_api)
             sample_handler sample_inherited
             (sample_request (Some "Bearer t") None JNull) []).
    left. reflexivity.
  - apply (proj1 (proj2 (proj2 (mcp_tool_dispatch Z sample_decode (fun n => n)
             (fun _ => sample_sheets_api) (fun _ => sample_drive_api)
             sample_handler sample_inherited
             (sample_request (Some "Bearer t") (Some "sheets.get_info")
                (JObj [("spreadsheetId", JStr "sid")])) [])))
             "sheets.get_info" (sample_handler "sheets.get_info") "t");
      reflexivity.
  - apply (proj1 (proj2 (proj2 (proj2 (mcp_tool_dispatch Z sample_decode
             (fun n => n)
             (fun _ => sample_sheets_api) (fun _ => sample_drive_api)
             sample_handler sample_inherited
             (sample_request None (Some "drive_upload_file") JNull) []))))
             "drive_upload_file"
             (drive_upload_file Z sample_decode (fun n => n))
             (Error "Missing Authorization header"));
      reflexivity.
Defined.

(** The empty string is not a key of the registry, and a request that
    names it gets "Missing tool name" with status 400, not the "Unknown
    tool" response. *)
Lemma mcp_tool_empty_name_is_missing_name :
  ~ In "" (map fst (toolHandlers Z sample_decode (fun n => n) sample_handler)) /\
  sample_mcp_tool (sample_request (Some "Bearer t") (Some "") JNull) []
  = (Ok {| statusCode := 400; json := error_payload "Missing tool name" |},
     []) /\
  fst (sample_mcp_tool (sample_request (Some "Bearer t") (Some "") JNull) [])
  <> Ok {| statusCode := 404; json := error_payload ("Unknown tool: " ++ "") |}.
Proof.
  split; [not_in_tac|]. split; [reflexivity | discriminate].
Qed.

(** A name inherited from [Object.prototype] is not a key of the registry
    either, but the lookup finds the inherited member: clients are built
    and the member is called. *)
Lemma mcp_tool_inherited_member_example :
  ~ In "toString"
      (map fst (toolHandlers Z sample_decode (fun n => n) sample_handler)) /\
  sample_mcp_tool (sample_request (Some "Bearer t") (Some "toString") JNull) []
  = (Ok {| statusCode := 200; json := JStr "[toString]" |},
     [ClientsCreated "t"; HandlerInvoked "toString"]).
Proof.
  split; [not_in_tac | reflexivity].
Qed.

(* ================================================================== *)
(** * Further facts about the column codec *)
(* ================================================================== *)

Lemma charCode_inj (a b : ascii) : charCode a = charCode b -> a = b.
Proof.
  unfold charCode. intros H%N2Z.inj.
  rewrite <- (ascii_N_embedding a), <- (ascii_N_embedding b). now rewrite H.
Qed.

(** Two uppercase letters are the same or one comes first. *)
Lemma letter_trichotomy (a b : ascii) :
  is_upper a = true -> is_upper b = true ->
  letter_position a < letter_position b \/ a = b \/
  letter_position b < letter_position a.
Proof.
  intros Ha Hb.
  rewrite (letter_position_upper _ Ha), (letter_position_upper _ Hb).
  destruct (Z.lt_trichotomy (charCode a) (charCode b)) as [H | [H | H]].
  - left. lia.
  - right. left. now apply charCode_inj.
  - right. right. lia.
Qed.

Lemma lex_trichotomy (s1 : string) :
  forall s2,
    String.length s1 = String.length s2 ->
    all is_upper s1 = true -> all is_upper s2 = true ->
    lex_before s1 s2 \/ s1 = s2 \/ lex_before s2 s1.
Proof.
  induction s1 as [|a t1 IH]; intros [|b t2] Hlen H1 H2; simpl in *;
    try discriminate.
  - right. now left.
  - apply andb_true_iff in H1 as [Ha H1], H2 as [Hb H2].
    destruct (letter_trichotomy a b Ha Hb) as [H | [-> | H]].
    + left. now left.
    + destruct (IH t2 ltac:(congruence) H1 H2) as [H | [-> | H]].
      * left. right. now split.
      * right. now left.
      * right. right. right. now split.
    + right. right. now left.
Qed.

(** Column order is total on sequences of uppercase letters. *)
Lemma column_order_total (s1 s2 : string) :
  all is_upper s1 = true -> all is_upper s2 = true ->
  column_before s1 s2 \/ s1 = s2 \/ column_before s2 s1.
Proof.
  intros H1 H2. unfold column_before.
  destruct (Nat.lt_trichotomy (String.length s1) (String.length s2))
    as [H | [H | H]].
  - left. now left.
  - destruct (lex_trichotomy s1 s2 H H1 H2) as [L | [-> | L]].
    + left. right. now split.
    + right. now left.
    + right. right. right. now split.
  - right. right. now left.
Qed.

(** X1: Different column names whose bijective base-26 values are at most
    [2^53], as those of all names of up to eleven letters are, have
    different indices: no two of them collide, not even a name and its
    extension by leading 'A's. *)
Theorem columnLettersToIndex_injective (s1 s2 : string) :
  all is_upper s1 = true -> all is_upper s2 = true ->
  bijective26 s1 <= 2 ^ 53 -> bijective26 s2 <= 2 ^ 53 ->
  s1 <> s2 -> columnLettersToIndex s1 <> columnLettersToIndex s2.
Proof.
  intros H1 H2 B1 B2 Hne Heq.
  rewrite (columnLettersToIndex_exact_loop s1 H1),
    (columnLettersToIndex_exact_loop s2 H2) in Heq
    by (rewrite exact_loop_value by assumption; lia).
  destruct (column_order_total s1 s2 H1 H2) as [H | [H | H]].
  - pose proof (exact_loop_increasing s1 s2 H1 H2 H). lia.
  - contradiction.
  - pose proof (exact_loop_increasing s2 s1 H2 H1 H). lia.
Qed.

(** "A" and "AA" are different columns, 0 and 26. *)
Lemma columnLettersToIndex_injective_example :
  "A" <> "AA" /\ columnLettersToIndex "A" <> columnLettersToIndex "AA".
Proof.
  split; [discriminate|].
  apply (columnLettersToIndex_injective "A" "AA");
    [reflexivity | reflexivity | vm_compute; discriminate
    | vm_compute; discriminate | discriminate].
Defined.

(* ================================================================== *)
(** * Further facts about the range resolver *)
(* ================================================================== *)

(** What a successful run of the resolver went through. *)
Lemma parseA1ToGridRange_success (api : Sheets.Api)
    (spreadsheetId a1Range : string) (log log' : list Event) (g : GridRange) :
  parseA1ToGridRange api spreadsheetId a1Range log = (Ok g, log') ->
  exists part span pieces id c1 r1 c2 r2,
    split "!" a1Range = part :: span :: pieces /\ span <> "" /\
    getSheetIdByName api spreadsheetId (strip_quotes part) log = (Ok id, log') /\
    search span_re false (toUpperCase span) = Some [c1; r1; c2; r2] /\
    corners c1 r1 c2 r2 /\ g = resolved id c1 r1 c2 r2.
Proof.
  intros H.
  destruct (split "!" a1Range) as [|part [|span pieces]] eqn:Hsplit;
    try (unfold parseA1ToGridRange in H; rewrite Hsplit in H; discriminate H).
  destruct span as [|x span];
    [unfold parseA1ToGridRange in H; rewrite Hsplit in H; discriminate H|].
  rewrite (parseA1ToGridRange_run _ _ _ _ _ _ _ Hsplit) in H by discriminate.
  destruct (getSheetIdByName _ _ _ _) as [[id|e] l] eqn:Hid; [|discriminate H].
  destruct (search span_re false (toUpperCase (String x span)))
    as [caps|] eqn:Hs; [|discriminate H].
  destruct (span_captures_shape _ _ Hs) as (c1 & r1 & c2 & r2 & -> & Hc).
  injection H as <- <-.
  exists part, (String x span), pieces, id, c1, r1, c2, r2.
  repeat split; try assumption; try apply Hc; discriminate.
Qed.

(** X2: Whatever the resolver returns has a start column of at least 0, an end
    column of at least 1, an end row of at least 0 and a start row of at
    least -1: row 0 is not rejected and gives the start row -1. *)
Theorem parseA1ToGridRange_bounds (api : Sheets.Api)
    (spreadsheetId a1Range : string) (log log' : list Event) (g : GridRange) :
  parseA1ToGridRange api spreadsheetId a1Range log = (Ok g, log') ->
  0 <= startColumnIndex g /\ 1 <= endColumnIndex g /\
  -1 <= startRowIndex g /\ 0 <= endRowIndex g.
Proof.
  intros H.
  apply parseA1ToGridRange_success in H
    as (part & span & pieces & id & c1 & r1 & c2 & r2 &
        _ & _ & _ & _ & (H1 & [_ H2] & H3 & [_ H4]) & ->).
  pose proof (columnLettersToIndex_nonneg c1 H1).
  pose proof (columnLettersToIndex_nonneg c2 H3).
  pose proof (parseInt_nonneg r1 H2). pose proof (parseInt_nonneg r2 H4).
  unfold resolved.
  cbn [startColumnIndex endColumnIndex startRowIndex endRowIndex].
  repeat split; try assumption; apply to_double_ge; lia.
Qed.

(** "Sheet1!A0:A0" resolves, with start row -1. *)
Lemma parseA1ToGridRange_bounds_example :
  let g := {| sheetId := 0; startRowIndex := -1; endRowIndex := 0;
              startColumnIndex := 0; endColumnIndex := 1 |} in
  parseA1ToGridRange sample_sheets_api "sid" "Sheet1!A0:A0" []
  = (Ok g, [metadata_fetch]) /\
  0 <= startColumnIndex g /\ 1 <= endColumnIndex g /\
  -1 <= startRowIndex g /\ 0 <= endRowIndex g.
Proof.
  intros g. split; [reflexivity|].
  exact (parseA1ToGridRange_bounds sample_sheets_api "sid" "Sheet1!A0:A0"
           [] [metadata_fetch] g eq_refl).
Defined.

(** X3: The resolver ignores the case of the span part: two references that
    differ only there resolve alike (the sheet part is compared as it
    stands). *)
Theorem parseA1ToGridRange_span_case (api : Sheets.Api)
    (spreadsheetId part span1 span2 : string) (log : list Event) :
  any (is_char "!") part = false ->
  any (is_char "!") span1 = false -> any (is_char "!") span2 = false ->
  toUpperCase span1 = toUpperCase span2 ->
  parseA1ToGridRange api spreadsheetId (part ++ "!" ++ span1) log
  = parseA1ToGridRange api spreadsheetId (part ++ "!" ++ span2) log.
Proof.
  intros Hpart H1 H2 Hup.
  destruct span1 as [|x1 s1], span2 as [|x2 s2]; [reflexivity | | |].
  { symmetry in Hup. apply toUpperCase_nil in Hup. discriminate Hup. }
  { apply toUpperCase_nil in Hup. discriminate Hup. }
  destruct (split_range part (String x1 s1) "" Hpart H1 (or_introl eq_refl))
    as [p1 E1].
  destruct (split_range part (String x2 s2) "" Hpart H2 (or_introl eq_refl))
    as [p2 E2].
  rewrite append_nil_r in E1, E2.
  rewrite (parseA1ToGridRange_run _ _ _ _ _ _ _ E1) by discriminate.
  rewrite (parseA1ToGridRange_run _ _ _ _ _ _ _ E2) by discriminate.
  now rewrite Hup.
Qed.

(** "Sheet1!a1:b2" resolves like "Sheet1!A1:B2". *)
Lemma parseA1ToGridRange_span_case_example :
  toUpperCase "a1:b2" = toUpperCase "A1:B2" /\
  parseA1ToGridRange sample_sheets_api "sid" "Sheet1!a1:b2" []
  = parseA1ToGridRange sample_sheets_api "sid" "Sheet1!A1:B2" [].
Proof.
  split; [reflexivity|].
  apply (parseA1ToGridRange_span_case sample_sheets_api "sid"
           "Sheet1" "a1:b2" "A1:B2" []); reflexivity.
Defined.

(** X4: The only request the resolver ever sends is the metadata request of
    the lookup, and it sends it at most once. *)
Theorem parseA1ToGridRange_footprint (api : Sheets.Api)
    (spreadsheetId a1Range : string) (log : list Event) :
  snd (parseA1ToGridRange api spreadsheetId a1Range log) = log \/
  snd (parseA1ToGridRange api spreadsheetId a1Range log)
  = (log ++ [metadata_fetch])%list.
Proof.
  destruct (split "!" a1Range) as [|part [|span pieces]] eqn:Hsplit;
    try (left; unfold parseA1ToGridRange; rewrite Hsplit; reflexivity).
  destruct span as [|x span];
    [left; unfold parseA1ToGridRange; rewrite Hsplit; reflexivity|].
  right.
  rewrite (parseA1ToGridRange_run _ _ _ _ _ _ _ Hsplit) by discriminate.
  rewrite getSheetIdByName_run.
  destruct (Sheets.spreadsheets_get api _) as [meta|e]; [|reflexivity].
  destruct (find _ _) as [sheet|]; [|reflexivity].
  destruct (Sheets.properties sheet); [|reflexivity].
  destruct (search _ _ _) as [[|c1 [|r1 [|c2 [|r2 [|y l]]]]]|]; reflexivity.
Qed.

(** X5: When no tab carries the name that the sheet part stands for, the
    resolver fails with "Sheet not found" and that name, however well formed
    the span part is.  The name is the text between the quotes when the
    sheet part is a non-empty text without line breaks in single quotes,
    and the sheet part as it stands otherwise. *)
Theorem parseA1ToGridRange_unknown_sheet (api : Sheets.Api)
    (spreadsheetId part sheet span : string) (log : list Event)
    (meta : Gaxios.Response Sheets.Spreadsheet) :
  any (is_char "!") part = false -> any (is_char "!") span = false ->
  span <> "" -> names_sheet part sheet ->
  Sheets.spreadsheets_get api (metadata_request spreadsheetId) = Ok meta ->
  (forall s, In s (sheets_or_empty (Gaxios.data meta)) -> ~ titled sheet s) ->
  parseA1ToGridRange api spreadsheetId (part ++ "!" ++ span) log
  = (Throw (Error ("Sheet not found: " ++ sheet)),
     (log ++ [metadata_fetch])%list).
Proof.
  intros Hpart Hspan Hne Hname Hget Hnone.
  destruct (split_range part span "" Hpart Hspan (or_introl eq_refl))
    as [pieces Hsplit].
  rewrite append_nil_r in Hsplit.
  rewrite (parseA1ToGridRange_run _ _ _ _ _ _ _ Hsplit Hne).
  rewrite (strip_quotes_names _ _ Hname), getSheetIdByName_run, Hget.
  now rewrite (find_absent _ _ Hnone).
Qed.

(** "'Budget'!A1:B2" on the sample spreadsheet, which has no such tab. *)
Lemma parseA1ToGridRange_unknown_sheet_example :
  parseA1ToGridRange sample_sheets_api "sid" "'Budget'!A1:B2" []
  = (Throw (Error "Sheet not found: Budget"), [metadata_fetch]).
Proof.
  apply (parseA1ToGridRange_unknown_sheet sample_sheets_api "sid"
           "'Budget'" "Budget" "A1:B2" []
           {| Gaxios.status := 200; Gaxios.data := sample_spreadsheet |});
    [reflexivity | reflexivity | discriminate
    | apply (names_quoted "Budget"); split; [discriminate | reflexivity]
    | reflexivity |].
  intros s [<- | [<- | [<- | []]]] (p & [= <-] & Ht); discriminate Ht.
Defined.

(* ================================================================== *)
(** * Further facts about the sheet lookup *)
(* ================================================================== *)

Lemma find_split {A : Type} (f : A -> bool) (l : list A) (x : A) :
  find f l = Some x ->
  exists pre post,
    l = (pre ++ x :: post)%list /\ f x = true /\
    forall y, In y pre -> f y = false.
Proof.
  induction l as [|a l IH]; simpl; intros H; [discriminate|].
  destruct (f a) eqn:Ha.
  - injection H as ->. exists [], l. repeat split; [assumption|].
    intros y [].
  - destruct (IH H) as (pre & post & -> & Hx & Hpre).
    exists (a :: pre), post. repeat split; [assumption|].
    intros y [<- | Hin]; [assumption | now apply Hpre].
Qed.

Lemma find_none_all {A : Type} (f : A -> bool) (l : list A) :
  find f l = None -> forall y, In y l -> f y = false.
Proof.
  induction l as [|a l IH]; simpl; intros H y Hin; [contradiction|].
  destruct (f a) eqn:Ha; [discriminate|].
  destruct Hin as [<- | Hin]; [assumption | now apply IH].
Qed.

Lemma not_titled (t : string) (s : Sheets.Sheet) :
  has_title t s = false -> ~ titled t s.
Proof. intros H Ht%has_title_spec. congruence. Qed.

(** X6: An id that the lookup returns is the sheetId of an entry of the
    fetched list that carries the requested title, and of the first such
    entry; exactly one request has been sent. *)
Theorem getSheetIdByName_sound (api : Sheets.Api)
    (spreadsheetId sheetName : string) (log log' : list Event) (id : Z) :
  getSheetIdByName api spreadsheetId sheetName log = (Ok id, log') ->
  exists meta pre entry post p,
    Sheets.spreadsheets_get api (metadata_request spreadsheetId) = Ok meta /\
    sheets_or_empty (Gaxios.data meta) = (pre ++ entry :: post)%list /\
    (forall s, In s pre -> ~ titled sheetName s) /\
    Sheets.properties entry = Some p /\ Sheets.title p = sheetName /\
    Sheets.sheetId p = id /\ log' = (log ++ [metadata_fetch])%list.
Proof.
  rewrite getSheetIdByName_run.
  destruct (Sheets.spreadsheets_get api _) as [meta|e] eqn:Hget;
    [|discriminate].
  destruct (find _ _) as [entry|] eqn:Hfind; [|discriminate].
  apply find_split in Hfind as (pre & post & Hl & Hentry & Hpre).
  apply has_title_spec in Hentry as (p & Hp & Ht).
  rewrite Hp. intros [= <- <-].
  exists meta, pre, entry, post, p. repeat split; try assumption.
  intros s Hin. apply not_titled. now apply Hpre.
Qed.

(** On the sample spreadsheet "Sheet1" resolves to 0. *)
Lemma getSheetIdByName_sound_example :
  getSheetIdByName sample_sheets_api "sid" "Sheet1" [] = (Ok 0, [metadata_fetch]) /\
  exists meta pre entry post p,
    Sheets.spreadsheets_get sample_sheets_api (metadata_request "sid")
    = Ok meta /\
    sheets_or_empty (Gaxios.data meta) = (pre ++ entry :: post)%list /\
    (forall s, In s pre -> ~ titled "Sheet1" s) /\
    Sheets.properties entry = Some p /\ Sheets.title p = "Sheet1" /\
    Sheets.sheetId p = 0 /\ [metadata_fetch] = ([] ++ [metadata_fetch])%list.
Proof.
  split; [reflexivity|].
  exact (getSheetIdByName_sound sample_sheets_api "sid" "Sheet1"
           [] [metadata_fetch] 0 eq_refl).
Defined.

(** X7: The lookup fails in two ways only: with the failure of the metadata
    request, handed on as it is, or with "Sheet not found" when no entry
    of the fetched list carries the title.  Entries without properties
    and a response without a list of sheets never make it fail otherwise. *)
Theorem getSheetIdByName_failures (api : Sheets.Api)
    (spreadsheetId sheetName : string) (log log' : list Event) (e : Thrown) :
  getSheetIdByName api spreadsheetId sheetName log = (Throw e, log') ->
  log' = (log ++ [metadata_fetch])%list /\
  (Sheets.spreadsheets_get api (metadata_request spreadsheetId) = Throw e \/
   (e = Error ("Sheet not found: " ++ sheetName) /\
    exists meta,
      Sheets.spreadsheets_get api (metadata_request spreadsheetId) = Ok meta /\
      forall s, In s (sheets_or_empty (Gaxios.data meta)) ->
                ~ titled sheetName s)).
Proof.
  rewrite getSheetIdByName_run.
  destruct (Sheets.spreadsheets_get api _) as [meta|e'] eqn:Hget.
  - destruct (find _ _) as [entry|] eqn:Hfind.
    + apply find_split in Hfind as (pre & post & Hl & Hentry & Hpre).
      apply has_title_spec in Hentry as (p & Hp & Ht).
      rewrite Hp. discriminate.
    + intros [= <- <-]. split; [reflexivity|]. right.
      split; [reflexivity|]. exists meta. split; [reflexivity|].
      intros s Hin. apply not_titled.
      now apply (find_none_all _ _ Hfind).
  - intros [= <- <-]. split; [reflexivity|]. now left.
Qed.

(** A refused metadata request, and a spreadsheet without the tab. *)
Lemma getSheetIdByName_failures_example :
  getSheetIdByName refusing_sheets_api "sid" "Sheet1" []
  = (Throw (Error "The caller does not have permission"), [metadata_fetch]) /\
  [metadata_fetch] = ([] ++ [metadata_fetch])%list /\
  (Sheets.spreadsheets_get refusing_sheets_api (metadata_request "sid")
   = Throw (Error "The caller does not have permission") \/
   (Error "The caller does not have permission"
    = Error ("Sheet not found: " ++ "Sheet1") /\
    exists meta,
      Sheets.spreadsheets_get refusing_sheets_api (metadata_request "sid")
      = Ok meta /\
      forall s, In s (sheets_or_empty (Gaxios.data meta)) ->
                ~ titled "Sheet1" s)).
Proof.
  split; [reflexivity|].
  exact (getSheetIdByName_failures refusing_sheets_api "sid" "Sheet1"
           [] [metadata_fetch] _ eq_refl).
Defined.

(* ================================================================== *)
(** * Further facts about credential extraction *)
(* ================================================================== *)

(** X8: A token that the extraction returns is the end of the authorization
    header, after a scheme that reads "bearer" in some case and after
    white space; it is never empty and holds no line break. *)
Theorem getBearerToken_sound (req : Request) (token : string) :
  getBearerToken req = Ok token ->
  exists header scheme ws,
    req_get req "Authorization" = Some header /\
    header = scheme ++ ws ++ token /\ toUpperCase scheme = "BEARER" /\
    run_of is_space ws /\ run_of is_dot token.
Proof.
  rewrite getBearerToken_header.
  destruct (req_get req "Authorization") as [[|c h]|]; try discriminate.
  destruct (exec bearer_re true (String c h)) as [caps|] eqn:He;
    [|discriminate].
  apply exec_sound in He as (rest & HM & Hend).
  rewrite (Hend eq_refl) in HM.
  apply bearer_re_matches in HM as (scheme & ws & tok & -> & Heq & H).
  intros [= <-]. now exists (String c h), scheme, ws.
Qed.

(** "BEARER abc.def" yields "abc.def". *)
Lemma getBearerToken_sound_example :
  getBearerToken (sample_request (Some "BEARER abc.def") None JNull)
  = Ok "abc.def" /\
  exists header scheme ws,
    req_get (sample_request (Some "BEARER abc.def") None JNull) "Authorization"
    = Some header /\
    header = scheme ++ ws ++ "abc.def" /\ toUpperCase scheme = "BEARER" /\
    run_of is_space ws /\ run_of is_dot "abc.def".
Proof.
  split; [reflexivity|].
  exact (getBearerToken_sound
           (sample_request (Some "BEARER abc.def") None JNull) "abc.def"
           eq_refl).
Defined.

(* ================================================================== *)
(** * Further facts about the clients, the upload and the route *)
(* ================================================================== *)

Lemma assoc_present {A : Type} (k : string) (l : list (string * A)) :
  assoc k l = None -> ~ In k (map fst l).
Proof.
  induction l as [|[k' v] l IH]; simpl; intros H; [tauto|].
  destruct (String.eqb k k') eqn:E; [discriminate|].
  apply String.eqb_neq in E. intros [Hk | Hin]; [congruence | now apply IH].
Qed.

Lemma existsb_present (k : string) (l : list string) :
  existsb (String.eqb k) l = false -> ~ In k l.
Proof.
  induction l as [|x l IH]; simpl; intros H; [tauto|].
  apply orb_false_iff in H as [E H]. apply String.eqb_neq in E.
  intros [Hk | Hin]; [congruence | now apply IH].
Qed.

Section RouteFacts.

Variable Buffer : Type.
Variable Buffer_from_base64 : JValue -> Result Buffer.
Variable Buffer_length : Buffer -> Z.
Variable google_sheets : OAuth2 -> Sheets.Api.
Variable google_drive : OAuth2 -> Drive.Api Buffer.
Variable other_handler : string -> Handler Buffer.
Variable inherited_member : string -> Handler Buffer.

Local Abbreviation upload :=
  (drive_upload_file Buffer Buffer_from_base64 Buffer_length).
Local Abbreviation registry :=
  (toolHandlers Buffer Buffer_from_base64 Buffer_length other_handler).
Local Abbreviation lookup :=
  (toolHandlers_get Buffer Buffer_from_base64 Buffer_length other_handler
     inherited_member).
Local Abbreviation route :=
  (mcp_tool Buffer Buffer_from_base64 Buffer_length google_sheets
     google_drive other_handler inherited_member).
Local Abbreviation clients_for token :=
  {| oauth2 := {| access_token := token |};
     sheets := google_sheets {| access_token := token |};
     drive := google_drive {| access_token := token |} |}.

(** The tool name and the arguments that the route reads off a request. *)
Local Abbreviation tool_of req :=
  (match body req with Some b => name b | None => None end).
Local Abbreviation arguments_of req :=
  (match body req with
   | Some b => js_or (args b) (JObj [])
   | None => JObj []
   end).

(** The route, case by case. *)
Lemma mcp_tool_run (req : Request) (log : list Event) :
  route req log
  = match tool_of req with
    | None | Some EmptyString =>
        (Ok {| statusCode := 400; json := error_payload "Missing tool name" |},
         log)
    | Some n =>
        match lookup n with
        | None =>
            (Ok {| statusCode := 404;
                   json := error_payload ("Unknown tool: " ++ n) |}, log)
        | Some handler =>
            match getBearerToken req with
            | Throw err =>
                (Ok {| statusCode := 400;
                       json := error_payload (error_message err) |}, log)
            | Ok token =>
                match handler (arguments_of req) (clients_for token)
                        (log ++ [ClientsCreated token; HandlerInvoked n])%list
                with
                | (Ok result, log') =>
                    (Ok {| statusCode := 200; json := result |}, log')
                | (Throw err, log') =>
                    (Ok {| statusCode := 400;
                           json := error_payload (error_message err) |}, log')
                end
            end
        end
    end.
Proof.
  unfold mcp_tool, try_catch.
  destruct (body req) as [b|]; [|reflexivity].
  destruct (name b) as [[|c n]|]; try reflexivity.
  destruct (toolHandlers_get _ _ _ _ _ _) as [handler|]; [|reflexivity].
  unfold bind at 1. rewrite getGoogleClients_run.
  destruct (getBearerToken req) as [token|err]; [|reflexivity].
  unfold bind, tell, ret. rewrite <- app_assoc. simpl app.
  destruct (handler _ _ _) as [[result|err] log']; reflexivity.
Qed.

(** X11: A 404 is only ever the "Unknown tool" answer to a name that is not
    empty, not a key of the registry and not inherited, and then nothing
    has been logged. *)
Theorem mcp_tool_404_only_unknown (req : Request) (log log' : list Event)
    (response : HttpResponse) :
  route req log = (Ok response, log') -> statusCode response = 404 ->
  exists n,
    tool_of req = Some n /\ n <> "" /\
    ~ In n (map fst registry) /\ ~ In n object_prototype_keys /\
    json response = error_payload ("Unknown tool: " ++ n) /\ log' = log.
Proof.
  rewrite mcp_tool_run.
  destruct (tool_of req) as [[|c n]|];
    try (intros [= <- <-]; simpl; discriminate).
  unfold toolHandlers_get.
  destruct (assoc (String c n) registry) as [h|] eqn:Hreg.
  - destruct (getBearerToken req) as [token|err];
      [|intros [= <- <-]; simpl; discriminate].
    destruct (h _ _ _) as [[result|err] l];
      intros [= <- <-]; simpl; discriminate.
  - destruct (existsb _ object_prototype_keys) eqn:Hproto.
    + destruct (getBearerToken req) as [token|err];
        [|intros [= <- <-]; simpl; discriminate].
      destruct (inherited_member _ _ _ _) as [[result|err] l];
        intros [= <- <-]; simpl; discriminate.
    + intros [= <- <-] _. exists (String c n).
      repeat split; try discriminate.
      * now apply assoc_present.
      * now apply existsb_present.
Qed.

(** X9: Credentials are taken from the header as they stand: for a header
    [Bearer <token>] whose token does not begin with white space, both
    clients are built around exactly that token; without an authorization
    header nothing is built. *)
Theorem getGoogleClients_bearer (req : Request) (log : list Event) :
  (forall scheme ws token,
      req_get req "Authorization" = Some (scheme ++ ws ++ token) ->
      toUpperCase scheme = "BEARER" -> run_of is_space ws ->
      run_of is_dot token -> stops is_space token = true ->
      getGoogleClients Buffer google_sheets google_drive req log
      = (Ok (clients_for token), (log ++ [ClientsCreated token])%list)) /\
  (req_get req "Authorization" = None ->
   getGoogleClients Buffer google_sheets google_drive req log
   = (Throw (Error "Missing Authorization header"), log)).
Proof.
  rewrite getGoogleClients_run, getBearerToken_header. split.
  - intros scheme ws token -> Hscheme Hws Htok Hstop.
    rewrite (exec_bearer_token _ _ _ Hscheme Hws Htok Hstop).
    destruct scheme; [discriminate Hscheme | reflexivity].
  - now intros ->.
Qed.

(** X12: The size check is exact: once the payload is decoded, the buffer is
    sent to the service if and only if it is at most 10 * 1024 * 1024
    bytes long, so a payload of exactly that length is accepted. *)
Theorem drive_upload_file_boundary (args : JValue) (clients : Clients Buffer)
    (log : list Event) (buffer : Buffer) :
  Buffer_from_base64 (get_prop args "data") = Ok buffer ->
  (snd (upload args clients log)
   = (log ++ [ExternalCall "drive.files.create"])%list
   <-> Buffer_length buffer <= 10 * 1024 * 1024).
Proof.
  intros Hdecode. unfold drive_upload_file, bind, lift, await.
  rewrite Hdecode.
  destruct (10 * 1024 * 1024 <? Buffer_length buffer) eqn:E.
  - apply Z.ltb_lt in E. simpl. split; [|lia].
    intros H. exfalso.
    apply (f_equal (@List.length Event)) in H.
    rewrite length_app in H. simpl in H. lia.
  - apply Z.ltb_ge in E. split; [intros _; exact E|]. intros _.
    destruct (Drive.files_create _ _); reflexivity.
Qed.

End RouteFacts.

(** The 404 for "sheets.rename" is the "Unknown tool" answer. *)
Lemma mcp_tool_404_only_unknown_example :
  exists n,
    Some "sheets.rename" = Some n /\ n <> "" /\
    ~ In n (map fst (toolHandlers Z sample_decode (fun n => n) sample_handler)) /\
    ~ In n object_prototype_keys /\
    error_payload "Unknown tool: sheets.rename"
    = error_payload ("Unknown tool: " ++ n) /\
    @nil Event = [].
Proof.
  exact (mcp_tool_404_only_unknown Z sample_decode (fun n => n)
           (fun _ => sample_sheets_api) (fun _ => sample_drive_api)
           sample_handler sample_inherited
           (sample_request (Some "Bearer t") (Some "sheets.rename") JNull)
           [] []
           {| statusCode := 404;
              json := error_payload "Unknown tool: sheets.rename" |}
           eq_refl eq_refl).
Defined.

(** "Bearer ya29.token" gives clients around "ya29.token". *)
Lemma getGoogleClients_bearer_example :
  getGoogleClients Z (fun _ => sample_sheets_api) (fun _ => sample_drive_api)
    (sample_request (Some "Bearer ya29.token") None JNull) []
  = (Ok {| oauth2 := {| access_token := "ya29.token" |};
           sheets := sample_sheets_api;
           drive := sample_drive_api |},
     [ClientsCreated "ya29.token"]).
Proof.
  apply (proj1 (getGoogleClients_bearer Z (fun _ => sample_sheets_api)
                  (fun _ => sample_drive_api)
                  (sample_request (Some "Bearer ya29.token") None JNull) [])
           "Bearer" " " "ya29.token");
    [reflexivity | reflexivity | split; [discriminate | reflexivity]
    | split; [discriminate | reflexivity] | reflexivity].
Defined.

(** Exactly 10485760 bytes are sent on; one more is not. *)
Lemma drive_upload_file_boundary_example :
  snd (drive_upload_file Z sample_decode (fun n => n)
         (JObj [("data", JNum 10485760)]) sample_clients [])
  = [ExternalCall "drive.files.create"] /\
  snd (drive_upload_file Z sample_decode (fun n => n)
         (JObj [("data", JNum 10485761)]) sample_clients [])
  <> [ExternalCall "drive.files.create"].
Proof.
  split.
  - apply (drive_upload_file_boundary Z sample_decode (fun n => n)
             (JObj [("data", JNum 10485760)]) sample_clients [] 10485760
             eq_refl). lia.
  - intros H.
    apply (drive_upload_file_boundary Z sample_decode (fun n => n)
             (JObj [("data", JNum 10485761)]) sample_clients [] 10485761
             eq_refl) in H. lia.
Defined.

(* ================================================================== *)
(** * The handlers that delete a tab, format cells and move a file *)
(* ================================================================== *)

Lemma split_cons_nonempty (sep : ascii) (s : string) : split sep s <> [].
Proof.
  destruct s as [|c s]; simpl; [discriminate|].
  destruct (Ascii.eqb c sep); [discriminate|].
  destruct (split sep s); discriminate.
Qed.

Lemma split_append (sep : ascii) (a b : string) :
  any (is_char sep) a = false ->
  split sep (a ++ String sep b) = a :: split sep b.
Proof. apply split_at_first. Qed.

(** Joining with commas and cutting at the commas gives the list back. *)
Lemma split_concat (l : list string) :
  l <> [] -> (forall p, In p l -> comma_free p) ->
  split "," (String.concat "," l) = l.
Proof.
  induction l as [|a l IH]; intros Hne Hfree; [congruence|].
  destruct l as [|b l].
  - simpl. apply split_no_separator. apply Hfree. now left.
  - change (String.concat "," (a :: b :: l))
      with (a ++ String "," (String.concat "," (b :: l))).
    rewrite split_append by (apply Hfree; now left).
    f_equal. apply IH; [discriminate|].
    intros p Hin. apply Hfree. now right.
Qed.

Lemma concat_nonempty (l : list string) :
  l <> [] -> (forall p, In p l -> p <> "") -> String.concat "," l <> "".
Proof.
  destruct l as [|a l]; intros Hne Hp; [congruence|].
  assert (Ha : a <> "") by (apply Hp; now left).
  destruct l as [|b l]; simpl; [assumption|].
  destruct a; [congruence | discriminate].
Qed.

Section HandlerFacts.

Variable Buffer : Type.
Variable spreadsheets_batchUpdate :
  Sheets.Api -> Batch.Params -> Result (Gaxios.Response JValue).
Variable files_get_parents :
  Drive.Api Buffer -> JValue -> Result (Gaxios.Response Files.Parents).
Variable files_update :
  Drive.Api Buffer -> JValue -> Result (Gaxios.Response JValue).

Local Abbreviation delete_sheet :=
  (sheets_delete_sheet Buffer spreadsheets_batchUpdate).
Local Abbreviation format_cells :=
  (sheets_format_cells Buffer spreadsheets_batchUpdate).
Local Abbreviation move_file :=
  (drive_move_file Buffer files_get_parents files_update).

(** What a handler returns from a settled request: the data, or the
    failure as it is. *)
Local Abbreviation data_of outcome :=
  (match outcome with
   | Ok res => Ok (Gaxios.data res)
   | Throw e => Throw e
   end).

(** X14: The tab that is deleted is the first one that carries the name: the
    metadata request is followed by one [batchUpdate] that holds exactly
    one [deleteSheet], with the sheetId of that entry. *)
Theorem sheets_delete_sheet_first_match (clients : Clients Buffer)
    (spreadsheetId sheetName : string) (log : list Event)
    (meta : Gaxios.Response Sheets.Spreadsheet)
    (pre post : list Sheets.Sheet) (entry : Sheets.Sheet)
    (p : Sheets.SheetProperties) :
  Sheets.spreadsheets_get (sheets clients) (metadata_request spreadsheetId)
  = Ok meta ->
  sheets_or_empty (Gaxios.data meta) = (pre ++ entry :: post)%list ->
  (forall s, In s pre -> ~ titled sheetName s) ->
  Sheets.properties entry = Some p -> Sheets.title p = sheetName ->
  delete_sheet spreadsheetId sheetName clients log
  = (data_of (spreadsheets_batchUpdate (sheets clients)
                {| Batch.spreadsheetId := spreadsheetId;
                   Batch.requests := [Batch.DeleteSheet (Sheets.sheetId p)] |}),
     (log ++ [metadata_fetch; batch_update])%list).
Proof.
  intros Hget Hsheets Hpre Hprops Htitle.
  unfold sheets_delete_sheet. unfold bind at 1.
  rewrite getSheetIdByName_run, Hget, Hsheets,
    (find_first sheetName pre entry post Hpre) by (now exists p).
  rewrite Hprops. unfold bind, await, ret, batch_update.
  rewrite <- app_assoc. simpl app.
  destruct (spreadsheets_batchUpdate _ _); reflexivity.
Qed.

(** X15: When no tab carries the name, nothing is deleted: the handler fails
    with "Sheet not found" after the metadata request, and no
    [batchUpdate] is sent. *)
Theorem sheets_delete_sheet_not_found (clients : Clients Buffer)
    (spreadsheetId sheetName : string) (log : list Event)
    (meta : Gaxios.Response Sheets.Spreadsheet) :
  Sheets.spreadsheets_get (sheets clients) (metadata_request spreadsheetId)
  = Ok meta ->
  (forall s, In s (sheets_or_empty (Gaxios.data meta)) ->
             ~ titled sheetName s) ->
  delete_sheet spreadsheetId sheetName clients log
  = (Throw (Error ("Sheet not found: " ++ sheetName)),
     (log ++ [metadata_fetch])%list).
Proof.
  intros Hget Hnone. unfold sheets_delete_sheet, bind.
  now rewrite getSheetIdByName_run, Hget, (find_absent _ _ Hnone).
Qed.

(** X16: Formatting [Name!A1:B2], the letters in either case, with row
    numbers of at most [2^53] and an end column index below [2^53], on a
    sheet that the lookup resolves (the sheet part stands for the text
    between its quotes when it is a non-empty text without line breaks in
    single quotes, and for itself otherwise) sends, after the lookup, one
    [batchUpdate] with one [repeatCell] over the rectangle of the span,
    with the format as given and the field mask [userEnteredFormat]. *)
Theorem sheets_format_cells_resolved (clients : Clients Buffer)
    (spreadsheetId part sheet c1 r1 c2 r2 : string) (format : JValue)
    (log log' : list Event) (id : Z) :
  any (is_char "!") part = false ->
  names_sheet part sheet ->
  written_corners c1 r1 c2 r2 ->
  within_exact_range (toUpperCase c2) r1 r2 ->
  getSheetIdByName (sheets clients) spreadsheetId sheet log = (Ok id, log') ->
  format_cells spreadsheetId (part ++ "!" ++ c1 ++ r1 ++ ":" ++ c2 ++ r2)
    format clients log
  = (data_of (spreadsheets_batchUpdate (sheets clients)
                {| Batch.spreadsheetId := spreadsheetId;
                   Batch.requests :=
                     [Batch.RepeatCell
                        (grid_of id (toUpperCase c1) r1 (toUpperCase c2) r2)
                        format "userEnteredFormat"] |}),
     (log' ++ [batch_update])%list).
Proof.
  intros Hpart Hname Hc Hexact Hid.
  rewrite <- (strip_quotes_names _ _ Hname) in Hid.
  pose proof (parseA1ToGridRange_embedded_exact (sheets clients)
                spreadsheetId part "" c1 r1 c2 r2 "" log log' id Hpart
                eq_refl eq_refl eq_refl eq_refl Hc Hexact Hid) as H.
  simpl append in H. rewrite append_nil_r in H.
  assert (H' : parseA1ToGridRange (sheets clients) spreadsheetId
                 (part ++ "!" ++ c1 ++ r1 ++ ":" ++ c2 ++ r2) log
               = (Ok (grid_of id (toUpperCase c1) r1 (toUpperCase c2) r2),
                  log')) by exact H.
  unfold sheets_format_cells. unfold bind at 1. rewrite H'.
  unfold bind, await, ret, batch_update.
  destruct (spreadsheets_batchUpdate _ _); reflexivity.
Qed.

(** X17: A range that the resolver rejects formats nothing: the handler fails
    as the resolver does, with the resolver's log, so that no
    [batchUpdate] is sent; a range without '!' fails before any request. *)
Theorem sheets_format_cells_rejected (clients : Clients Buffer)
    (spreadsheetId range : string) (format : JValue) (log : list Event) :
  (forall e log',
      parseA1ToGridRange (sheets clients) spreadsheetId range log
      = (Throw e, log') ->
      format_cells spreadsheetId range format clients log = (Throw e, log') /\
      (log' = log \/ log' = (log ++ [metadata_fetch])%list)) /\
  (any (is_char "!") range = false ->
   format_cells spreadsheetId range format clients log
   = (Throw (Error no_sheet_name_message), log)).
Proof.
  split.
  - intros e log' H. split.
    + unfold sheets_format_cells, bind. now rewrite H.
    + destruct (split "!" range) as [|part [|span pieces]] eqn:Hsplit;
        try (unfold parseA1ToGridRange in H; rewrite Hsplit in H;
             injection H as _ <-; now left).
      destruct span as [|x span];
        [unfold parseA1ToGridRange in H; rewrite Hsplit in H;
         injection H as _ <-; now left|].
      right.
      rewrite (parseA1ToGridRange_run _ _ _ _ _ _ _ Hsplit) in H
        by discriminate.
      rewrite getSheetIdByName_run in H.
      destruct (Sheets.spreadsheets_get _ _) as [meta|e'];
        [|now injection H as _ <-].
      destruct (find _ _) as [s|]; [|now injection H as _ <-].
      destruct (Sheets.properties s); [|now injection H as _ <-].
      destruct (search _ _ _) as [[|k1 [|k2 [|k3 [|k4 [|y l]]]]]|];
        now injection H as _ <-.
  - intros Hbang. unfold sheets_format_cells, bind, parseA1ToGridRange.
    now rewrite (split_no_separator _ _ Hbang).
Qed.

(** X18: Moving a file takes it out of every folder it was in: the parents
    that the service reports are all named in [removeParents], joined by
    commas, and the target folder is the one added. *)
Theorem drive_move_file_removes_all (args : JValue) (clients : Clients Buffer)
    (log : list Event) (file : Gaxios.Response Files.Parents)
    (previous : list string) :
  files_get_parents (drive clients)
    (JObj [ ("fileId", get_prop args "fileId");
            ("fields", JStr "parents");
            ("supportsAllDrives", JBool true) ]) = Ok file ->
  Files.parents (Gaxios.data file) = Some previous ->
  previous <> [] ->
  (forall p, In p previous -> p <> "" /\ comma_free p) ->
  exists removed,
    split "," removed = previous /\
    move_file args clients log
    = (data_of (files_update (drive clients)
                  (JObj [ ("fileId", get_prop args "fileId");
                          ("addParents", get_prop args "folderId");
                          ("removeParents", JStr removed);
                          ("fields", JStr "id,parents");
                          ("supportsAllDrives", JBool true) ])),
       (log ++ [files_get; files_update_call])%list).
Proof.
  intros Hget Hparents Hne Hids.
  exists (String.concat "," previous). split.
  - apply split_concat; [assumption|]. intros p Hin. now apply Hids.
  - unfold drive_move_file. unfold bind at 1, await at 1. rewrite Hget.
    unfold join_parents. rewrite Hparents.
    assert (Hjoin : String.concat "," previous <> "").
    { apply concat_nonempty; [assumption|]. intros p Hin. now apply Hids. }
    destruct (String.concat "," previous) as [|c r] eqn:E; [congruence|].
    unfold bind, await, ret, string_or_undefined, files_get, files_update_call.
    rewrite <- app_assoc. simpl app.
    destruct (files_update _ _); reflexivity.
Qed.

(** X19: A file without parents is moved with no [removeParents] at all, and
    when the parents cannot be read the file is not moved: no
    [drive.files.update] is sent. *)
Theorem drive_move_file_edges (args : JValue) (clients : Clients Buffer)
    (log : list Event) :
  (forall file,
      files_get_parents (drive clients)
        (JObj [ ("fileId", get_prop args "fileId");
                ("fields", JStr "parents");
                ("supportsAllDrives", JBool true) ]) = Ok file ->
      Files.parents (Gaxios.data file) = None \/
      Files.parents (Gaxios.data file) = Some [] ->
      move_file args clients log
      = (data_of (files_update (drive clients)
                    (JObj [ ("fileId", get_prop args "fileId");
                            ("addParents", get_prop args "folderId");
                            ("removeParents", JUndefined);
                            ("fields", JStr "id,parents");
                            ("supportsAllDrives", JBool true) ])),
         (log ++ [files_get; files_update_call])%list)) /\
  (forall e,
      files_get_parents (drive clients)
        (JObj [ ("fileId", get_prop args "fileId");
                ("fields", JStr "parents");
                ("supportsAllDrives", JBool true) ]) = Throw e ->
      move_file args clients log = (Throw e, (log ++ [files_get])%list)).
Proof.
  split.
  - intros file Hget Hparents.
    unfold drive_move_file. unfold bind at 1, await at 1. rewrite Hget.
    unfold join_parents.
    assert (E : String.concat ","
                  (match Files.parents (Gaxios.data file) with
                   | Some l => l
                   | None => []
                   end) = "")
      by (destruct Hparents as [-> | ->]; reflexivity).
    rewrite E.
    unfold bind, await, ret, string_or_undefined, files_get, files_update_call.
    rewrite <- app_assoc. simpl app.
    destruct (files_update _ _); reflexivity.
  - intros e Hget. unfold drive_move_file, bind, await. now rewrite Hget.
Qed.

End HandlerFacts.

(** Deleting "My Sheet" on the sample spreadsheet deletes the tab with id
    7, the first of the two with that title. *)
Lemma sheets_delete_sheet_first_match_example :
  sheets_delete_sheet Z sample_batchUpdate "sid" "My Sheet" sample_clients []
  = (Ok (JArr [JNum 7]), [metadata_fetch; batch_update]).
Proof.
  refine (sheets_delete_sheet_first_match Z sample_batchUpdate sample_clients
            "sid" "My Sheet" []
            {| Gaxios.status := 200; Gaxios.data := sample_spreadsheet |}
            [sheet_entry 0 "Sheet1"] [sheet_entry 9 "My Sheet"]
            (sheet_entry 7 "My Sheet")
            {| Sheets.sheetId := 7; Sheets.title := "My Sheet" |}
            eq_refl eq_refl _ eq_refl eq_refl).
  intros s [<- | []] (p & [= <-] & Ht). discriminate Ht.
Defined.

(** Deleting "Archive", which the sample spreadsheet does not have. *)
Lemma sheets_delete_sheet_not_found_example :
  sheets_delete_sheet Z sample_batchUpdate "sid" "Archive" sample_clients []
  = (Throw (Error "Sheet not found: Archive"), [metadata_fetch]).
Proof.
  refine (sheets_delete_sheet_not_found Z sample_batchUpdate sample_clients
            "sid" "Archive" []
            {| Gaxios.status := 200; Gaxios.data := sample_spreadsheet |}
            eq_refl _).
  intros s [<- | [<- | [<- | []]]] (p & [= <-] & Ht); discriminate Ht.
Defined.

(** Formatting "'My Sheet'!B2:C4" acts on sheet 7. *)
Lemma sheets_format_cells_resolved_example :
  sheets_format_cells Z sample_batchUpdate "sid" "'My Sheet'!B2:C4"
    (JObj [("bold", JBool true)]) sample_clients []
  = (Ok (JArr [JNum 7]), [metadata_fetch; batch_update]).
Proof.
  refine (sheets_format_cells_resolved Z sample_batchUpdate sample_clients
            "sid" "'My Sheet'" "My Sheet" "B" "2" "C" "4"
            (JObj [("bold", JBool true)]) [] [metadata_fetch] 7
            eq_refl _ _ _ eq_refl).
  - apply (names_quoted "My Sheet"). split; [discriminate | reflexivity].
  - written_tac.
  - exact_tac.
Defined.

(** "B2:C4" names no sheet and formats nothing. *)
Lemma sheets_format_cells_rejected_example :
  sheets_format_cells Z sample_batchUpdate "sid" "B2:C4"
    (JObj [("bold", JBool true)]) sample_clients []
  = (Throw (Error no_sheet_name_message), []).
Proof.
  apply (proj2 (sheets_format_cells_rejected Z sample_batchUpdate
                  sample_clients "sid" "B2:C4"
                  (JObj [("bold", JBool true)]) [])).
  reflexivity.
Defined.

(** A file in "folderA" and "folderB" leaves both. *)
Lemma drive_move_file_removes_all_example :
  exists removed,
    split "," removed = ["folderA"; "folderB"] /\
    drive_move_file Z sample_files_get_parents sample_files_update
      (JObj [("fileId", JStr "f1"); ("folderId", JStr "folderC")])
      sample_clients []
    = (Ok (JStr removed), [files_get; files_update_call]).
Proof.
  refine (drive_move_file_removes_all Z sample_files_get_parents
            sample_files_update
            (JObj [("fileId", JStr "f1"); ("folderId", JStr "folderC")])
            sample_clients []
            {| Gaxios.status := 200;
               Gaxios.data := {| Files.parents := Some ["folderA"; "folderB"] |} |}
            ["folderA"; "folderB"] eq_refl eq_refl _ _).
  - discriminate.
  - intros p [<- | [<- | []]]; (split; [discriminate | reflexivity]).
Defined.

(** When the parents cannot be read, nothing is updated. *)
Lemma drive_move_file_edges_example :
  drive_move_file Z refusing_files_get_parents sample_files_update
    (JObj [("fileId", JStr "f1"); ("folderId", JStr "folderC")])
    sample_clients []
  = (Throw (Error "File not found: f1"), [files_get]).
Proof.
  apply (proj2 (drive_move_file_edges Z refusing_files_get_parents
                  sample_files_update
                  (JObj [("fileId", JStr "f1"); ("folderId", JStr "folderC")])
                  sample_clients [])).
  reflexivity.
Defined.

(* ================================================================== *)
(** * The OAuth callback *)
(* ================================================================== *)

Section OAuthFacts.

Variable getToken :
  string -> string -> option string -> string -> Result Token.Tokens.
Variable now : Z.

Local Abbreviation callback := (oauth_callback getToken now).
Local Abbreviation exchanged env code :=
  (getToken (Config.client_id (oauthConfig env))
     (Config.client_secret (oauthConfig env))
     (hd_error (Config.redirect_uris (oauthConfig env))) code).

(** X20: After a successful exchange the answer carries the two tokens as
    they came and [expires_in]: the whole seconds from now to the expiry
    date, rounded down (negative once the date has passed), or 3600 when
    the tokens carry no expiry date or the date 0. *)
Theorem oauth_callback_expires_in (env : Env) (code : string)
    (tokens : Token.Tokens) (log : list Event) :
  code <> "" -> exchanged env code = Ok tokens ->
  exists seconds,
    callback env (Some code) log
    = (Ok {| statusCode := 200;
             json := JObj [ ("access_token", Token.access_token tokens);
                            ("refresh_token", Token.refresh_token tokens);
                            ("expires_in", JNum seconds) ] |},
       (log ++ [exchange])%list) /\
    (forall d, Token.expiry_date tokens = Some d -> d <> 0 ->
               1000 * seconds <= d - now < 1000 * seconds + 1000) /\
    (Token.expiry_date tokens = None \/ Token.expiry_date tokens = Some 0 ->
     seconds = 3600).
Proof.
  intros Hcode Hex. exists (expires_in now tokens). split; [|split].
  - destruct code as [|c code]; [congruence|].
    unfold oauth_callback, try_catch, bind, await, ret, exchange.
    now rewrite Hex.
  - intros d Hd Hnz. unfold expires_in. rewrite Hd.
    apply Z.eqb_neq in Hnz. rewrite Hnz.
    pose proof (Z.div_mod (d - now) 1000 ltac:(lia)).
    pose proof (Z.mod_pos_bound (d - now) 1000 ltac:(lia)). lia.
  - unfold expires_in. intros [-> | ->]; reflexivity.
Qed.

(** X21: The callback answers 400 in two cases: without a code, or with an
    empty one, it says so and attempts no exchange; when the exchange
    fails it answers with one fixed message, whatever the failure was. *)
Theorem oauth_callback_failures (env : Env) (log : list Event) :
  (forall code,
      code = None \/ code = Some "" ->
      callback env code log
      = (Ok {| statusCode := 400;
               json := error_payload "Authorization code not provided" |},
         log)) /\
  (forall code e,
      code <> "" -> exchanged env code = Throw e ->
      callback env (Some code) log
      = (Ok {| statusCode := 400;
               json := error_payload "Failed to exchange authorization code" |},
         (log ++ [exchange])%list)).
Proof.
  split.
  - intros code [-> | ->]; reflexivity.
  - intros code e Hcode Hex. destruct code as [|c code]; [congruence|].
    unfold oauth_callback, try_catch, bind, await, ret, exchange.
    now rewrite Hex.
Qed.

End OAuthFacts.

(* ================================================================== *)
(** * The manifest *)
(* ================================================================== *)

(** The rewriting of the manifest route never renames a tool. *)
Lemma manifest_tool_name (t : Manifest.Tool) :
  Manifest.name (manifest_tool t) = Manifest.name t.
Proof.
  unfold manifest_tool.
  destruct (String.eqb (Manifest.name t) "drive_upload_file"); [reflexivity|].
  destruct (String.eqb (Manifest.name t) "drive_share_file"); reflexivity.
Qed.

Lemma manifest_names (env : Env) :
  map Manifest.name (Published.tools (mcp_manifest env))
  = map Manifest.name manifestTools.
Proof.
  change (map Manifest.name (map manifest_tool manifestTools)
          = map Manifest.name manifestTools).
  rewrite map_map. apply map_ext. exact manifest_tool_name.
Qed.

(** The three endpoints that hand out OAuth parameters hand out the same
    ones, and none of them depends on the client secret. *)
Lemma oauth_parameters_agree (env : Env) :
  well_known_oauth_configuration env = oauth_config env /\
  Published.oauth (mcp_manifest env) = oauth_config env /\
  forall secret,
    oauth_config {| GOOGLE_CLIENT_ID := GOOGLE_CLIENT_ID env;
                    GOOGLE_CLIENT_SECRET := secret;
                    REDIRECT_URI := REDIRECT_URI env |}
    = oauth_config env.
Proof. repeat split. Qed.

Section ManifestFacts.

Variable Buffer : Type.
Variable Buffer_from_base64 : JValue -> Result Buffer.
Variable Buffer_length : Buffer -> Z.
Variable google_sheets : OAuth2 -> Sheets.Api.
Variable google_drive : OAuth2 -> Drive.Api Buffer.
Variable other_handler : string -> Handler Buffer.
Variable inherited_member : string -> Handler Buffer.
Variable permissions_create :
  Drive.Api Buffer -> JValue -> Result (Gaxios.Response JValue).

Local Abbreviation registry :=
  (toolHandlers Buffer Buffer_from_base64 Buffer_length other_handler).
Local Abbreviation route :=
  (mcp_tool Buffer Buffer_from_base64 Buffer_length google_sheets
     google_drive other_handler inherited_member).
Local Abbreviation share := (drive_share_file Buffer permissions_create).

(** X22: The manifest and the registry go together: the manifest lists the
    keys of the registry, in the same order, so that a request for a tool
    of the manifest is never answered with 404 "Unknown tool". *)
Theorem manifest_tools_are_registered (env : Env) :
  map Manifest.name (Published.tools (mcp_manifest env)) = map fst registry /\
  forall req log response log',
    (exists n,
        match body req with Some b => name b | None => None end = Some n /\
        In n (map Manifest.name (Published.tools (mcp_manifest env)))) ->
    route req log = (Ok response, log') ->
    statusCode response <> 404.
Proof.
  assert (Hnames : map Manifest.name (Published.tools (mcp_manifest env))
                   = map fst registry)
    by (rewrite manifest_names; reflexivity).
  split; [exact Hnames|].
  intros req log response log' (n & Hn & Hin) Hroute.
  rewrite Hnames in Hin.
  rewrite mcp_tool_run, Hn in Hroute.
  destruct n as [|c n]; [simpl in Hin; intuition discriminate|].
  unfold toolHandlers_get in Hroute.
  destruct (assoc (String c n) registry) as [h|] eqn:Hreg;
    [|exfalso; exact (assoc_present _ _ Hreg Hin)].
  destruct (getBearerToken req) as [token|err];
    [|injection Hroute as <- _; simpl; discriminate].
  destruct (h _ _ _) as [[result|err] l];
    injection Hroute as <- _; simpl; discriminate.
Qed.

(** X23: The role of a share is optional, as the manifest says: the manifest
    entry of [drive_share_file] does not require [role] and declares a
    default for it, and a request without a role (or with a falsy one) is
    sent on with exactly that default, and with no notification mail. *)
Theorem drive_share_file_default_role (env : Env) (t : Manifest.Tool)
    (args : JValue) (clients : Clients Buffer) (log : list Event) :
  find (fun t => String.eqb (Manifest.name t) "drive_share_file")
    (Published.tools (mcp_manifest env)) = Some t ->
  truthy (get_prop args "role") = false ->
  ~ In "role" (Manifest.required (Manifest.input_schema t)) /\
  exists default,
    assoc "default"
      (descriptor_of (Manifest.properties (Manifest.input_schema t)) "role")
    = Some default /\
    share args clients log
    = (match permissions_create (drive clients)
               (JObj [ ("fileId", get_prop args "fileId");
                       ("requestBody",
                        JObj [ ("type", JStr "user");
                               ("role", default);
                               ("emailAddress", get_prop args "email") ]);
                       ("sendNotificationEmail", JBool false);
                       ("supportsAllDrives", JBool true);
                       ("fields", JStr "id,role") ]) with
       | Ok res => Ok (Gaxios.data res)
       | Throw e => Throw e
       end,
       (log ++ [ExternalCall "drive.permissions.create"])%list).
Proof.
  intros Hfind Hrole.
  vm_compute in Hfind. injection Hfind as <-. split.
  - simpl. intros [H | [H | []]]; discriminate H.
  - exists (JStr "reader"). split; [reflexivity|].
    unfold drive_share_file, js_or. rewrite Hrole.
    unfold bind, await, ret.
    destruct (permissions_create _ _); reflexivity.
Qed.

End ManifestFacts.

(** Tokens that expire 123456 ms from now are good for 123 seconds. *)
Lemma oauth_callback_expires_in_example :
  oauth_callback sample_getToken 1700000000000 sample_env (Some "good") []
  = (Ok {| statusCode := 200;
           json := JObj [ ("access_token", JStr "ya29.a");
                          ("refresh_token", JStr "1//r");
                          ("expires_in", JNum 123) ] |}, [exchange]).
Proof.
  destruct (oauth_callback_expires_in sample_getToken 1700000000000
              sample_env "good" sample_tokens []
              ltac:(discriminate) eq_refl) as (seconds & Heq & Hbound & _).
  specialize (Hbound 1700000123456 eq_refl ltac:(discriminate)).
  assert (Hs : seconds = 123) by lia.
  rewrite Hs in Heq. exact Heq.
Defined.

(** No code, and a code that the exchange refuses. *)
Lemma oauth_callback_failures_example :
  oauth_callback sample_getToken 1700000000000 sample_env None []
  = (Ok {| statusCode := 400;
           json := error_payload "Authorization code not provided" |}, []) /\
  oauth_callback sample_getToken 1700000000000 sample_env (Some "stale") []
  = (Ok {| statusCode := 400;
           json := error_payload "Failed to exchange authorization code" |},
     [exchange]).
Proof.
  destruct (oauth_callback_failures sample_getToken 1700000000000
              sample_env []) as [Hnone Hfail].
  split.
  - apply Hnone. now left.
  - apply (Hfail "stale" (Error "invalid_grant")); [discriminate | reflexivity].
Defined.

(** "drive_move_file" is in the manifest, and a request for it without
    credentials is answered with 400, not 404. *)
Lemma manifest_tools_are_registered_example :
  In "drive_move_file"
    (map Manifest.name (Published.tools (mcp_manifest sample_env))) /\
  statusCode {| statusCode := 400;
                json := error_payload "Missing Authorization header" |}
  <> 404.
Proof.
  assert (Hin : In "drive_move_file"
                  (map Manifest.name
                     (Published.tools (mcp_manifest sample_env))))
    by (vm_compute; tauto).
  split; [exact Hin|].
  apply (proj2 (manifest_tools_are_registered Z sample_decode (fun n => n)
                  (fun _ => sample_sheets_api) (fun _ => sample_drive_api)
                  sample_handler sample_inherited sample_env)
           (sample_request None (Some "drive_move_file") JNull) [] _ []).
  - exists "drive_move_file". split; [reflexivity | exact Hin].
  - reflexivity.
Defined.

(** A share without a role grants "reader". *)
Lemma drive_share_file_default_role_example :
  drive_share_file Z sample_permissions_create
    (JObj [("fileId", JStr "f1"); ("email", JStr "a@example.com")])
    sample_clients []
  = (Ok (JStr "reader"), [ExternalCall "drive.permissions.create"]).
Proof.
  destruct (drive_share_file_default_role Z sample_permissions_create
              sample_env _
              (JObj [("fileId", JStr "f1"); ("email", JStr "a@example.com")])
              sample_clients [] eq_refl eq_refl)
    as (_ & default & Hdefault & Hrun).
  injection Hdefault as <-. exact Hrun.
Defined.

(* ================================================================== *)
(** * More than one '!', and inherited names *)
(* ================================================================== *)

Lemma parseA1ToGridRange_two_pieces (api : Sheets.Api)
    (spreadsheetId a b part span : string) (p1 p2 : list string)
    (log : list Event) :
  split "!" a = part :: span :: p1 -> split "!" b = part :: span :: p2 ->
  parseA1ToGridRange api spreadsheetId a log
  = parseA1ToGridRange api spreadsheetId b log.
Proof.
  intros Ha Hb. unfold parseA1ToGridRange. now rewrite Ha, Hb.
Qed.

(** X24: Only the text up to a second '!' counts: whatever follows it is
    dropped, so a reference with a second '!' resolves, or fails, like the
    reference cut there. *)
Theorem parseA1ToGridRange_second_bang (api : Sheets.Api)
    (spreadsheetId part span tail : string) (log : list Event) :
  any (is_char "!") part = false -> any (is_char "!") span = false ->
  parseA1ToGridRange api spreadsheetId (part ++ "!" ++ span ++ "!" ++ tail) log
  = parseA1ToGridRange api spreadsheetId (part ++ "!" ++ span) log.
Proof.
  intros Hpart Hspan.
  destruct (split_range part span ("!" ++ tail) Hpart Hspan
              (or_intror (ex_intro _ tail eq_refl))) as [p1 H1].
  destruct (split_range part span "" Hpart Hspan (or_introl eq_refl))
    as [p2 H2].
  rewrite append_nil_r in H2.
  exact (parseA1ToGridRange_two_pieces _ _ _ _ _ _ _ _ _ H1 H2).
Qed.

(** "Sheet1!A1:B2!C3:D4" resolves like "Sheet1!A1:B2", and the quoted
    name "'Q1!Q2'" is cut at its '!'. *)
Lemma parseA1ToGridRange_second_bang_example :
  parseA1ToGridRange sample_sheets_api "sid" "Sheet1!A1:B2!C3:D4" []
  = parseA1ToGridRange sample_sheets_api "sid" "Sheet1!A1:B2" [] /\
  parseA1ToGridRange sample_sheets_api "sid" "'Q1!Q2'!A1:B2" []
  = parseA1ToGridRange sample_sheets_api "sid" "'Q1!Q2'" [].
Proof.
  split.
  - apply (parseA1ToGridRange_second_bang sample_sheets_api "sid"
             "Sheet1" "A1:B2" "C3:D4" []); reflexivity.
  - apply (parseA1ToGridRange_second_bang sample_sheets_api "sid"
             "'Q1" "Q2'" "A1:B2" []); reflexivity.
Defined.

Section InheritedNames.

Variable Buffer : Type.
Variable Buffer_from_base64 : JValue -> Result Buffer.
Variable Buffer_length : Buffer -> Z.
Variable google_sheets : OAuth2 -> Sheets.Api.
Variable google_drive : OAuth2 -> Drive.Api Buffer.
Variable other_handler : string -> Handler Buffer.
Variable inherited_member : string -> Handler Buffer.

Local Abbreviation route :=
  (mcp_tool Buffer Buffer_from_base64 Buffer_length google_sheets
     google_drive other_handler inherited_member).

(** X25: A tool name that [Object.prototype] defines, such as "toString" or
    "constructor", is not answered with 404: the lookup finds the
    inherited member, so that with a bearer token clients are built and
    the member is called like a handler, and without one the answer is the
    400 of the missing credentials. *)
Theorem mcp_tool_inherited_name (req : Request) (log : list Event)
    (n : string) :
  match body req with Some b => name b | None => None end = Some n ->
  In n object_prototype_keys ->
  route req log
  = match getBearerToken req with
    | Throw err =>
        (Ok {| statusCode := 400;
               json := error_payload (error_message err) |}, log)
    | Ok token =>
        match inherited_member n
                match body req with
                | Some b => js_or (args b) (JObj [])
                | None => JObj []
                end
                {| oauth2 := {| access_token := token |};
                   sheets := google_sheets {| access_token := token |};
                   drive := google_drive {| access_token := token |} |}
                (log ++ [ClientsCreated token; HandlerInvoked n])%list
        with
        | (Ok result, log') =>
            (Ok {| statusCode := 200; json := result |}, log')
        | (Throw err, log') =>
            (Ok {| statusCode := 400;
                   json := error_payload (error_message err) |}, log')
        end
    end.
Proof.
  intros Hn Hin. rewrite mcp_tool_run, Hn.
  simpl in Hin.
  repeat (destruct Hin as [<- | Hin]; [reflexivity|]).
  contradiction.
Qed.

End InheritedNames.

(** A request for "constructor" with a token reaches the inherited
    member. *)
Lemma mcp_tool_inherited_name_example :
  sample_mcp_tool
    (sample_request (Some "Bearer t") (Some "constructor") JNull) []
  = (Ok {| statusCode := 200; json := JStr "[constructor]" |},
     [ClientsCreated "t"; HandlerInvoked "constructor"]).
Proof.
  refine (mcp_tool_inherited_name Z sample_decode (fun n => n)
            (fun _ => sample_sheets_api) (fun _ => sample_drive_api)
            sample_handler sample_inherited
            (sample_request (Some "Bearer t") (Some "constructor") JNull)
            [] "constructor" eq_refl _).
  simpl. tauto.
Defined.
